(** * shawk: host flow discovery (netlink / procfs) and the flow store

    A shallow embedding of the Go sources
      - [probe/netlink/connections.go]  (package [netlink]: the flow builder),
      - package [netutil]               (connection sources, procfs decoding,
                                         the process attributor),
    together with the parts of the Go standard library these functions call
    ([strconv], [strings], [encoding/hex], [net.IP.String], [fmt.Sprintf "%d"]),
    and of the packages [probe] (host flows) and [db] (the upsert engine),
    whose code is modelled from the specification where it is missing.

    Layout: the model (errors, library, packages), the definitions the
    statements are written with, sample inputs, then the facts, one part
    per component, each ending in the theorems about that component.

    Conventions.
      - Go strings are byte strings: [string] of [ascii].
      - Fixed-width integers are [Z] with the conversions written out.
      - [[]byte] and [net.IP] are [list Z] of values in [0, 256).
      - Go maps are stdpp [gmap]s; a [nil] pointer stored in a map or held
        in a variable is [None]. *)

From Stdlib Require Import ZArith Lia List Ascii String.
From stdpp Require Import base option list strings pretty gmap fin_maps.

Local Open Scope string_scope.
Local Open Scope Z_scope.

(* ===================================================================== *)
(** ** Errors and outcomes *)
(* ===================================================================== *)

(** Errors the operating system and the Go library hand back:
    [*os.PathError{Op, Path, Err}], a bare [syscall.Errno], or some other
    error value of the library ([io.ErrUnexpectedEOF], [*os.SyscallError],
    the errors of [fmt]'s scanners, ...). None of them is a
    [*netutil.NetlinkError]: that type belongs to this repository. *)
Inductive oserror : Type :=
  | PathError (op path : string) (inner : oserror)
  | Errno (n : Z)
  | OtherOsError (msg : string).

Definition EACCES : Z := 13.
Definition ENOENT : Z := 2.

(** Go [error] values that travel through the packages modelled here.
    [Wrapped] is [xerrors.Errorf "...: %w"], the only constructor [xerrors.As]
    looks through; [ErrorString] is every error built from text alone
    ([xerrors.Errorf] with [%v] or [%s]; the texts are cut to their fixed
    part). *)
Inductive error : Type :=
  | NetlinkError (msg : string)
  | OsError (e : oserror)
  | ErrorString (msg : string)
  | Wrapped (msg : string) (inner : error).

(** What a call does: return a value, return an error, or panic (a failed
    type assertion [x.(T)]). *)
Inductive outcome (A : Type) : Type :=
  | Ok (a : A)
  | Err (e : error)
  | Panic.
Arguments Ok {A} a.
Arguments Err {A} e.
Arguments Panic {A}.

(** Sequencing [v, err := f(); if err != nil { return nil, err }] is the
    bind of this monad, written [v ← f; ...]. *)
#[global] Instance outcome_bind : MBind outcome := fun A B k m =>
  match m with
  | Ok a => k a
  | Err e => Err e
  | Panic => Panic
  end.
#[global] Instance outcome_ret : MRet outcome := fun A a => Ok a.

Definition is_Ok {A} (m : outcome A) : bool :=
  match m with Ok _ => true | _ => false end.

Definition is_Err {A} (m : outcome A) : bool :=
  match m with Err _ => true | _ => false end.

(** [xerrors.As(err, &netlinkErr)] with [netlinkErr : *netutil.NetlinkError]:
    walk the [Unwrap] chain looking for a [*NetlinkError].  An
    [*os.PathError] unwraps to its inner operating-system error, which is
    never a [*NetlinkError]. *)
Fixpoint As_NetlinkError (e : error) : bool :=
  match e with
  | NetlinkError _ => true
  | Wrapped _ inner => As_NetlinkError inner
  | OsError _ => false
  | ErrorString _ => false
  end.

(* ===================================================================== *)
(** ** The Go standard library, as far as the sources use it *)
(* ===================================================================== *)

Module Go.

Definition byte_of (c : ascii) : Z := Z.of_N (N_of_ascii c).
Definition char_of (b : Z) : ascii := ascii_of_N (Z.to_N b).

(** *** Decimal printing: [fmt.Sprintf("%d", n)] and [net]'s [uitoa] *)

Definition digit_char (d : Z) : ascii := char_of (48 + d).

(** Most significant digit last consed; 20 digits cover every 64-bit value. *)
Fixpoint utoa_go (fuel : nat) (n : Z) (acc : string) : string :=
  match fuel with
  | O => acc
  | S fuel' =>
      let acc' := String (digit_char (n mod 10)) acc in
      if n / 10 =? 0 then acc' else utoa_go fuel' (n / 10) acc'
  end.

Definition uitoa (n : Z) : string := utoa_go 20 n "".

Definition Sprintf_d (n : Z) : string :=
  if n <? 0 then String "-" (uitoa (- n)) else uitoa n.

(** *** [strconv] *)

(** [lower(c) = c | ('x' - 'X')]. *)
Definition lower (c : Z) : Z := Z.lor c 32.

(** Value of one digit in [strconv.ParseUint]'s loop, before the check
    against the base; [None] is the [default:] syntax error. *)
Definition digit_val (c : Z) : option Z :=
  if (48 <=? c) && (c <=? 57) then Some (c - 48)
  else if (97 <=? lower c) && (lower c <=? 122) then Some (lower c - 97 + 10)
  else None.

Inductive numerr : Type := ErrSyntax | ErrRange.

Definition maxUint64 : Z := 2 ^ 64 - 1.

(** The digit loop of [ParseUint]: [base0] lets underscores through. *)
Fixpoint parse_digits (base0 : bool) (base maxVal : Z) (s : string) (n : Z)
  : Z * option numerr :=
  match s with
  | EmptyString => (n, None)
  | String ch rest =>
      let c := byte_of ch in
      if (c =? 95) && base0 then parse_digits base0 base maxVal rest n
      else
        match digit_val c with
        | None => (0, Some ErrSyntax)
        | Some d =>
            if base <=? d then (0, Some ErrSyntax)
            else if maxUint64 / base + 1 <=? n then (maxVal, Some ErrRange)
            else
              let n1 := n * base + d in
              (* [n1 < n] is the 64-bit wrap-around test *)
              if (maxUint64 <? n1) || (maxVal <? n1) then (maxVal, Some ErrRange)
              else parse_digits base0 base maxVal rest n1
        end
  end.

Definition has_underscore (s : string) : bool :=
  existsb (fun ch => byte_of ch =? 95) (list_ascii_of_string s).

Definition is_sign (c : Z) : bool := (c =? 43) || (c =? 45).

Definition is_base_letter (c : Z) : bool :=
  (lower c =? 98) || (lower c =? 111) || (lower c =? 120).

(** [underscoreOK]'s scan; [saw] is 94 (start), 48 (digit), 95 (underscore)
    or 33 (other). *)
Fixpoint underscore_scan (hex : bool) (saw : Z) (s : string) : bool :=
  match s with
  | EmptyString => negb (saw =? 95)
  | String ch rest =>
      let c := byte_of ch in
      if ((48 <=? c) && (c <=? 57))
         || (hex && (97 <=? lower c) && (lower c <=? 102))
      then underscore_scan hex 48 rest
      else if c =? 95 then
        if saw =? 48 then underscore_scan hex 95 rest else false
      else if saw =? 95 then false
      else underscore_scan hex 33 rest
  end.

Definition underscoreOK (s : string) : bool :=
  let s1 := match s with
            | String ch rest => if is_sign (byte_of ch) then rest else s
            | EmptyString => s
            end in
  match s1 with
  | String a (String b rest) =>
      if (byte_of a =? 48) && is_base_letter (byte_of b)
      then underscore_scan (lower (byte_of b) =? 120) 48 rest
      else underscore_scan false 94 s1
  | _ => underscore_scan false 94 s1
  end.

(** [strconv.ParseUint(s, base, bitSize)] for [base] 0 or in [2, 36] and
    [bitSize] in [1, 64]: the value and the error. *)
Definition ParseUint (s : string) (base bitSize : Z) : Z * option numerr :=
  match s with
  | EmptyString => (0, Some ErrSyntax)
  | String ch0 rest0 =>
      let base0 := base =? 0 in
      let '(b, digits) :=
        if base0 then
          if byte_of ch0 =? 48 then
            match rest0 with
            | String ch1 rest1 =>
                let long := 3 <=? Z.of_nat (String.length s) in
                if long && (lower (byte_of ch1) =? 98) then (2, rest1)
                else if long && (lower (byte_of ch1) =? 111) then (8, rest1)
                else if long && (lower (byte_of ch1) =? 120) then (16, rest1)
                else (8, rest0)
            | EmptyString => (8, rest0)
            end
          else (10, s)
        else (base, s) in
      let maxVal := 2 ^ bitSize - 1 in
      match parse_digits base0 b maxVal digits 0 with
      | (n, Some e) => (n, Some e)
      | (n, None) =>
          if has_underscore digits && negb (underscoreOK s)
          then (0, Some ErrSyntax) else (n, None)
      end
  end.

(** [strconv.ParseInt(s, base, bitSize)]. *)
Definition ParseInt (s : string) (base bitSize : Z) : Z * option numerr :=
  match s with
  | EmptyString => (0, Some ErrSyntax)
  | String ch0 rest0 =>
      let c0 := byte_of ch0 in
      let neg := c0 =? 45 in
      let s1 := if is_sign c0 then rest0 else s in
      let cutoff := 2 ^ (bitSize - 1) in
      match ParseUint s1 base 64 with
      | (_, Some ErrSyntax) => (0, Some ErrSyntax)
      | (un, _) =>
          if negb neg && (cutoff <=? un) then (cutoff - 1, Some ErrRange)
          else if neg && (cutoff <? un) then (- cutoff, Some ErrRange)
          else (if neg then - un else un, None)
      end
  end.

(** [strconv.Atoi(s)] is [ParseInt(s, 10, 0)] on a 64-bit platform. *)
Definition Atoi (s : string) : Z * option numerr := ParseInt s 10 64.

(** *** [strings] and [bytes] *)

(** [strings.Split(s, sep)] and [bytes.Split(s, sep)] for a separator of one
    byte, the only kind the sources pass. *)
Fixpoint Split (s : string) (sep : ascii) : list string :=
  match s with
  | EmptyString => [EmptyString]
  | String c rest =>
      if Ascii.eqb c sep then EmptyString :: Split rest sep
      else
        match Split rest sep with
        | w :: ws => String c w :: ws
        | [] => [String c EmptyString]
        end
  end.

(** [asciiSpace]: tab, newline, vertical tab, form feed, carriage return,
    space. *)
Definition is_space (c : ascii) : bool :=
  let b := byte_of c in ((9 <=? b) && (b <=? 13)) || (b =? 32).

(** The ASCII fast path of [strings.Fields(s)]: [cur] is the field being
    read, kept reversed. *)
Fixpoint fields_go (s : string) (cur : list ascii) : list string :=
  let flush := match cur with
               | [] => []
               | _ => [string_of_list_ascii (rev cur)]
               end in
  match s with
  | EmptyString => flush
  | String c rest =>
      if is_space c then flush ++ fields_go rest []
      else fields_go rest (c :: cur)
  end.

(** No byte of the text is [utf8.RuneSelf] or more. *)
Definition all_ascii (s : string) : bool :=
  forallb (fun c => byte_of c <? 128) (list_ascii_of_string s).

(** The width in bytes of the white-space rune at the head of [s], as
    [unicode.IsSpace] sees the runes that [range s] decodes; 0 when the
    head is no white space. The white-space runes are the six of
    [asciiSpace], U+0085 and U+00A0 (C2 85, C2 A0), U+1680 (E1 9A 80),
    U+2000 to U+200A, U+2028, U+2029 and U+202F (E2 80 80 to 8A, A8, A9,
    AF), U+205F (E2 81 9F) and U+3000 (E3 80 80). Their first byte is never
    a continuation byte, so it always starts a rune. *)
Definition space_width (s : string) : nat :=
  match s with
  | EmptyString => 0%nat
  | String c0 r0 =>
      if is_space c0 then 1%nat
      else
        let b0 := byte_of c0 in
        match r0 with
        | EmptyString => 0%nat
        | String c1 r1 =>
            let b1 := byte_of c1 in
            if (b0 =? 194) && ((b1 =? 133) || (b1 =? 160)) then 2%nat
            else
              match r1 with
              | EmptyString => 0%nat
              | String c2 _ =>
                  let b2 := byte_of c2 in
                  if (b0 =? 225) && (b1 =? 154) && (b2 =? 128) then 3%nat
                  else if (b0 =? 226) && (b1 =? 128)
                          && (((128 <=? b2) && (b2 <=? 138))
                              || (b2 =? 168) || (b2 =? 169) || (b2 =? 175))
                  then 3%nat
                  else if (b0 =? 226) && (b1 =? 129) && (b2 =? 159) then 3%nat
                  else if (b0 =? 227) && (b1 =? 128) && (b2 =? 128) then 3%nat
                  else 0%nat
              end
        end
  end.

(** [strings.FieldsFunc(s, unicode.IsSpace)]: [skip] counts the bytes of a
    white-space rune that are still to be passed over. *)
Fixpoint fields_func (s : string) (cur : list ascii) (skip : nat)
  : list string :=
  let flush := match cur with
               | [] => []
               | _ => [string_of_list_ascii (rev cur)]
               end in
  match s with
  | EmptyString => flush
  | String c rest =>
      match skip with
      | S k => fields_func rest cur k
      | O =>
          match space_width s with
          | O => fields_func rest (c :: cur) 0
          | S k => flush ++ fields_func rest [] k
          end
      end
  end.

(** [strings.Fields(s)]: the fast path when every byte is ASCII, and
    [FieldsFunc(s, unicode.IsSpace)] otherwise. *)
Definition Fields (s : string) : list string :=
  if all_ascii s then fields_go s [] else fields_func s [] 0.

Fixpoint prefix_of (p s : string) : bool :=
  match p, s with
  | EmptyString, _ => true
  | String a p', String b s' => Ascii.eqb a b && prefix_of p' s'
  | String _ _, EmptyString => false
  end.

(** [strings.Index(s, substr)]: the byte offset of the first occurrence,
    or -1. *)
Fixpoint Index (s substr : string) : Z :=
  if prefix_of substr s then 0
  else
    match s with
    | EmptyString => -1
    | String _ rest =>
        let i := Index rest substr in
        if i =? -1 then -1 else i + 1
    end.

Fixpoint drop_leading (cut : ascii) (l : list ascii) : list ascii :=
  match l with
  | c :: l' => if Ascii.eqb c cut then drop_leading cut l' else l
  | [] => []
  end.

(** [strings.TrimRight(s, cutset)] for a cutset of one byte. *)
Definition TrimRight (s : string) (cut : ascii) : string :=
  string_of_list_ascii
    (rev (drop_leading cut (rev (list_ascii_of_string s)))).

(** *** [encoding/hex] *)

Definition fromHexChar (c : Z) : option Z :=
  if (48 <=? c) && (c <=? 57) then Some (c - 48)
  else if (97 <=? c) && (c <=? 102) then Some (c - 97 + 10)
  else if (65 <=? c) && (c <=? 70) then Some (c - 65 + 10)
  else None.

(** [hex.DecodeString(s)]: [None] is either error ([InvalidByteError],
    [ErrLength]); the callers only test [err != nil]. *)
Fixpoint DecodeString (s : string) : option (list Z) :=
  match s with
  | EmptyString => Some []
  | String _ EmptyString => None
  | String a (String b rest) =>
      match fromHexChar (byte_of a), fromHexChar (byte_of b) with
      | Some x, Some y =>
          match DecodeString rest with
          | Some l => Some (Z.lor (Z.shiftl x 4) y :: l)
          | None => None
          end
      | _, _ => None
      end
  end.

(** *** [net.IP] *)

Definition hexDigit (v : Z) : ascii :=
  nth (Z.to_nat v) (list_ascii_of_string "0123456789abcdef") "0"%char.

Definition appendHex (i : Z) : string :=
  if i =? 0 then "0"
  else string_of_list_ascii
         (flat_map (fun j => let v := Z.shiftr i (j * 4) in
                             if 0 <? v then [hexDigit (Z.land v 15)] else [])
                   [7; 6; 5; 4; 3; 2; 1; 0]).

Definition hexString (b : list Z) : string :=
  string_of_list_ascii
    (flat_map (fun v => [hexDigit (Z.shiftr v 4); hexDigit (Z.land v 15)]) b).

Definition at_ (p : list Z) (i : Z) : Z := nth (Z.to_nat i) p 0.

(** [ip.To4()]: [None] is the [nil] result. *)
Definition To4 (ip : list Z) : option (list Z) :=
  if Nat.eqb (length ip) 4 then Some ip
  else if Nat.eqb (length ip) 16
          && forallb (Z.eqb 0) (firstn 10 ip)
          && (at_ ip 10 =? 255) && (at_ ip 11 =? 255)
       then Some (skipn 12 ip)
       else None.

(** [for j < IPv6len && p[j] == 0 && p[j+1] == 0 { j += 2 }] *)
Fixpoint zero_run_end (p : list Z) (fuel : nat) (j : Z) : Z :=
  match fuel with
  | O => j
  | S fuel' =>
      if (j <? 16) && (at_ p j =? 0) && (at_ p (j + 1) =? 0)
      then zero_run_end p fuel' (j + 2) else j
  end.

(** The search for the longest run of zero groups, [(e0, e1)]. *)
Fixpoint longest_zero_run (p : list Z) (fuel : nat) (i e0 e1 : Z) : Z * Z :=
  match fuel with
  | O => (e0, e1)
  | S fuel' =>
      if 16 <=? i then (e0, e1)
      else
        let j := zero_run_end p 8 i in
        if (i <? j) && (e1 - e0 <? j - i)
        then longest_zero_run p fuel' (j + 2) i j
        else longest_zero_run p fuel' (i + 2) e0 e1
  end.

Definition group (p : list Z) (i : Z) : Z :=
  Z.lor (Z.shiftl (at_ p i) 8) (at_ p (i + 1)).

(** The printing loop, with [::] in place of the run [e0, e1). *)
Fixpoint print_groups (p : list Z) (fuel : nat) (i e0 e1 : Z) : string :=
  match fuel with
  | O => ""
  | S fuel' =>
      if 16 <=? i then ""
      else if i =? e0 then
        if 16 <=? e1 then "::"
        else "::" +:+ appendHex (group p e1) +:+ print_groups p fuel' (e1 + 2) e0 e1
      else (if 0 <? i then ":" else "")
             +:+ appendHex (group p i) +:+ print_groups p fuel' (i + 2) e0 e1
  end.

(** [ip.String()]. *)
Definition IP_String (ip : list Z) : string :=
  if Nat.eqb (length ip) 0 then "<nil>"
  else
    match To4 ip with
    | Some [a; b; c; d] => uitoa a +:+ "." +:+ uitoa b +:+ "." +:+ uitoa c +:+ "." +:+ uitoa d
    | _ =>
        if negb (Nat.eqb (length ip) 16) then "?" +:+ hexString ip
        else
          let '(e0, e1) := longest_zero_run ip 8 0 (-1) (-1) in
          let '(e0, e1) := if e1 - e0 <=? 2 then (-1, -1) else (e0, e1) in
          print_groups ip 8 0 e0 e1
    end.

(** gopsutil's [net.Reverse]: the bytes in reverse order. *)
Definition Reverse (s : list Z) : list Z := rev s.

End Go.

(* ===================================================================== *)
(** ** Package [linux] (gosigar): what the sources read of it *)
(* ===================================================================== *)

Module linux.

(** [linux.TCPState], a [uint8]. *)
Definition TCP_ESTABLISHED : Z := 1.
Definition TCP_SYN_SENT : Z := 2.
Definition TCP_SYN_RECV : Z := 3.
Definition TCP_FIN_WAIT1 : Z := 4.
Definition TCP_FIN_WAIT2 : Z := 5.
Definition TCP_TIME_WAIT : Z := 6.
Definition TCP_CLOSE : Z := 7.
Definition TCP_CLOSE_WAIT : Z := 8.
Definition TCP_LAST_ACK : Z := 9.
Definition TCP_LISTEN : Z := 10.
Definition TCP_CLOSING : Z := 11.

(** [linux.InetDiagMsg], through the accessors the sources call: the state
    byte, [SrcPort()], [DstPort()], [SrcIP()], [DstIP()] and the inode. *)
Record InetDiagMsg := {
  State : Z;
  SrcIP : list Z;
  SrcPort : Z;
  DstIP : list Z;
  DstPort : Z;
  Inode : Z;
}.

End linux.

(* ===================================================================== *)
(** ** Functions taken as given *)
(* ===================================================================== *)

(** [io.ErrUnexpectedEOF], the one error value the sources compare with. *)
Definition ErrUnexpectedEOF : oserror := OtherOsError "unexpected EOF".

#[global] Instance oserror_eq_dec : EqDecision oserror.
Proof. solve_decision. Defined.
#[global] Instance error_eq_dec : EqDecision error.
Proof. solve_decision. Defined.

(** The [fmt] scanning calls, [netutil.IsPrivateIP] and the resolver behind
    [SetLookupedName] are not under src/; every function below that reaches
    one of them takes them as [X : Extern], and every theorem holds for all
    of them.
      - [Sscanf_socket lnk] is [fmt.Sscanf(lnk, "socket:[%d]", &ino)]:
        the value left in [ino], the count [n] and the error;
      - [Fscan_stat text] is [fmt.Fscan(f, &pid2, &comm, &state, &ppid,
        &pgrp)] on a file with that text: the error, or [comm], [ppid] and
        [pgrp];
      - [Sscanf_comm comm] is [fmt.Sscanf(comm, "(%s)", &pname)]: the value
        left in [pname] and the error;
      - [IsPrivateIP ip] is [netutil.IsPrivateIP(ip)];
      - [ResolveAddr addr] is the reverse lookup of an address. *)
Record Extern := {
  Sscanf_socket : string -> Z * Z * option oserror;
  Fscan_stat : string -> oserror + (string * Z * Z);
  Sscanf_comm : string -> string * option oserror;
  IsPrivateIP : list Z -> bool;
  ResolveAddr : string -> string;
}.

(* ===================================================================== *)
(** ** Package [netutil]: connection sources and the process attributor *)
(* ===================================================================== *)

Module netutil.
Import Go.

(** [Addr] is <addr>:<port>. *)
Record Addr := { IP : string; Port : Z }.

(** [ConnectionStat]: one line of /proc/net/tcp. *)
Record ConnectionStat := {
  Laddr : Addr;
  Raddr : Addr;
  Status : Z;
}.

(** [decodeAddress(src)]; [uint32(port)] is the reduction modulo 2^32. *)
Definition decodeAddress (src : string) : outcome Addr :=
  match Split src ":" with
  | [addr; p] =>
      match ParseInt ("0x" +:+ p) 0 64 with
      | (_, Some _) => Err (ErrorString "invalid port")
      | (port, None) =>
          match DecodeString addr with
          | None => Err (ErrorString "decode error")
          | Some decoded =>
              Ok {| IP := IP_String (Reverse decoded); Port := port mod 2 ^ 32 |}
          end
      end
  | _ => Err (ErrorString "does not contain port")
  end.

(** The body of the loop of [ProcfsConnections] for one line: [None] is
    [continue]. A state field that does not parse is logged and the value
    [ParseUint] returned with the error is used. *)
Definition parse_line (line : string) : option ConnectionStat :=
  let l := Fields line in
  if Z.of_nat (length l) <? 10 then None
  else
    let laddr := nth 1 l "" in
    let raddr := nth 2 l "" in
    let '(status, _) := ParseUint (nth 3 l "") 16 8 in
    match decodeAddress laddr with
    | Ok la =>
        match decodeAddress raddr with
        | Ok ra => Some {| Laddr := la; Raddr := ra; Status := status |}
        | _ => None
        end
    | _ => None
    end.

(** The lines of the file after the header, [lines[1:]]. *)
Definition body_lines (body : string) : list string :=
  skipn 1 (Split body "010"%char).

(** [ProcfsConnections()], given what [ioutil.ReadFile("/proc/net/tcp")]
    returned. *)
Definition ProcfsConnections (file : oserror + string)
  : outcome (list ConnectionStat) :=
  match file with
  | inl e => Err (OsError e)
  | inr body => Ok (omap parse_line (body_lines body))
  end.

(** [FilterByLocalListeningPorts(conns)]. *)
Definition FilterByLocalListeningPorts (conns : list ConnectionStat)
  : list string :=
  flat_map (fun conn =>
    if negb (Status conn =? linux.TCP_LISTEN) then []
    else if String.eqb (IP (Laddr conn)) "0.0.0.0"
            || String.eqb (IP (Laddr conn)) "127.0.0.1"
            || String.eqb (IP (Laddr conn)) "::"
         then [Sprintf_d (Port (Laddr conn))] else []) conns.

(** [NetlinkFilterByLocalListeningPorts(conns)]. *)
Definition NetlinkFilterByLocalListeningPorts (conns : list linux.InetDiagMsg)
  : list linux.InetDiagMsg :=
  flat_map (fun conn =>
    if negb (linux.State conn =? linux.TCP_LISTEN) then []
    else
      let sip := IP_String (linux.SrcIP conn) in
      if String.eqb sip "0.0.0.0" || String.eqb sip "127.0.0.1"
         || String.eqb sip "::"
      then [conn] else []) conns.

(** [NetlinkConnections()], given what [linux.NetlinkInetDiag(req)]
    returned: every failure becomes a wrapped, empty [NetlinkError]. *)
Definition NetlinkConnections (diag : oserror + list linux.InetDiagMsg)
  : outcome (list linux.InetDiagMsg) :=
  match diag with
  | inl _ => Err (Wrapped "NetlinkInetDiag" (NetlinkError ""))
  | inr msgs => Ok msgs
  end.

(** [NetlinkLocalListeningPorts()], given what [linux.NetlinkInetDiag(req)]
    returned; [%v] prints the [int] of [SrcPort()] as [%d] does. *)
Definition NetlinkLocalListeningPorts (diag : oserror + list linux.InetDiagMsg)
  : outcome (list string) :=
  msgs ← NetlinkConnections diag;
  Ok (flat_map (fun d =>
        if negb (linux.State d =? linux.TCP_LISTEN) then []
        else [Sprintf_d (linux.SrcPort d)]) msgs).

(** [LocalListeningPorts()], given what [ioutil.ReadFile("/proc/net/tcp")]
    returned. *)
Definition LocalListeningPorts (file : oserror + string)
  : outcome (list string) :=
  conns ← ProcfsConnections file;
  Ok (FilterByLocalListeningPorts conns).

(** *** The process attributor *)

(** [UserEnt]; the accessors [Pname()] and [Pgrp()] are the projections
    [pname] and [pgrp]. *)
Record UserEnt := {
  inode : Z;
  fd : Z;
  pid : Z;
  pname : string;
  ppid : Z;
  pgrp : Z;
}.

Record procStat := {
  Pname : string;
  Ppid : Z;
  Pgrp : Z;
}.

(** One entry of /proc/<pid>/fd: its name and what [os.Readlink] returns
    for it. *)
Record FdEnt := {
  fd_Name : string;
  Readlink : oserror + string;
}.

(** One entry of the /proc root: its name, [IsDir()], and what the calls on
    it return when the walk reaches it: [os.Stat(fdDir)] (the [IsDir()] of
    the result), [ioutil.ReadDir(fdDir)] and [os.Open] of its stat file
    (the text of the file). *)
Record DirEnt := {
  Name : string;
  IsDir : bool;
  Stat_fd : oserror + bool;
  ReadDir_fd : oserror + list FdEnt;
  Open_stat : oserror + string;
}.

(** The two type assertions on a failed call, first to a pointer to
    [os.PathError], then of its [Err] field to [syscall.Errno]: [None] when
    either one panics. *)
Definition errno_of (e : oserror) : option Z :=
  match e with
  | PathError _ _ (Errno n) => Some n
  | _ => None
  end.

Definition socketPrefix : string := "socket:[".

(** The map under construction and the PIDs whose stat file has been
    read so far, latest first. *)
Record scan := {
  userEnts : gmap Z UserEnt;
  stat_reads : list Z;
}.

Section attributor.
Variable X : Extern.

(** [parseSocketInode(lnk)]. *)
Definition parseSocketInode (lnk : string) : outcome Z :=
  let ind := Index lnk socketPrefix in
  if ind =? -1 then Ok 0
  else
    let '(ino, n, err) := Sscanf_socket X lnk in
    match err with
    | Some e => Err (OsError e)
    | None =>
        if negb (n =? 1) then Err (ErrorString "should be pattern [socket:%d]")
        else Ok ino
    end.

(** [parseProcStat(root, pid)], given what [os.Open(stat)] returned. *)
Definition parseProcStat (file : oserror + string) : outcome procStat :=
  match file with
  | inl e => Err (Wrapped "could not open" (OsError e))
  | inr text =>
      match Fscan_stat X text with
      | inl e => Err (Wrapped "could not scan" (OsError e))
      | inr (comm, ppid, pgrp) =>
          let '(pname, err) := Sscanf_comm X comm in
          let st := {| Pname := TrimRight pname ")"; Ppid := ppid; Pgrp := pgrp |} in
          match err with
          | Some e =>
              if bool_decide (e = ErrUnexpectedEOF) then Ok st
              else Err (Wrapped "could not scan" (OsError e))
          | None => Ok st
          end
      end
  end.

(** The body of the inner loop [for _, d2 := range dir2]: [stat] is the
    lazily read [*procStat] of the PID. *)
Definition scan_fd (pid : Z) (file : oserror + string)
    (acc : option procStat * scan) (d2 : FdEnt)
  : outcome (option procStat * scan) :=
  let '(stat, s) := acc in
  match Atoi (fd_Name d2) with
  | (_, Some _) => Ok acc
  | (fd, None) =>
      match Readlink d2 with
      | inl e =>
          match errno_of e with
          | None => Panic
          | Some errno =>
              if errno =? ENOENT then Ok acc else Err (ErrorString "readlink")
          end
      | inr lnk =>
          ino ← parseSocketInode lnk;
          if ino =? 0 then Ok acc
          else
            '(st, reads) ← match stat with
                           | Some st => Ok (st, stat_reads s)
                           | None => st ← parseProcStat file;
                                     Ok (st, pid :: stat_reads s)
                           end;
            Ok (Some st,
                {| userEnts := <[ino := {| inode := ino; fd := fd; pid := pid;
                                           pname := Pname st; ppid := Ppid st;
                                           pgrp := Pgrp st |}]> (userEnts s);
                   stat_reads := reads |})
      end
  end.

(** A loop that stops at the first error or panic. *)
Fixpoint for_each {A S} (body : S -> A -> outcome S) (s : S) (l : list A)
  : outcome S :=
  match l with
  | [] => Ok s
  | a :: l' => s' ← body s a; for_each body s' l'
  end.

(** The body of the outer loop [for _, d := range dir]. *)
Definition scan_pid (self : Z) (s : scan) (d : DirEnt) : outcome scan :=
  if negb (IsDir d) then Ok s
  else
    match Atoi (Name d) with
    | (_, Some _) => Ok s
    | (pid, None) =>
        if pid =? self then Ok s
        else
          match Stat_fd d with
          | inl _ => Err (ErrorString "stat")
          | inr false => Ok s
          | inr true =>
              match ReadDir_fd d with
              | inl e =>
                  match errno_of e with
                  | None => Panic
                  | Some errno =>
                      if errno =? EACCES then Ok s
                      else Err (ErrorString "readdir")
                  end
              | inr dir2 =>
                  r ← for_each (scan_fd pid (Open_stat d)) (None, s) dir2;
                  Ok (snd r)
              end
          end
    end.

(** [BuildUserEntries()], given what [ioutil.ReadDir(root)] returned and
    [os.Getpid()]; the result carries the log of stat files read. *)
Definition BuildUserEntries_log (root : oserror + list DirEnt) (self : Z)
  : outcome scan :=
  match root with
  | inl e => Err (OsError e)
  | inr dir =>
      for_each (scan_pid self) {| userEnts := ∅; stat_reads := [] |} dir
  end.

Definition BuildUserEntries (root : oserror + list DirEnt) (self : Z)
  : outcome (gmap Z UserEnt) :=
  s ← BuildUserEntries_log root self; Ok (userEnts s).

End attributor.

End netutil.

(* ===================================================================== *)
(** ** Package [probe]: host flows *)
(* ===================================================================== *)

Module probe.

Inductive FlowDirection : Type := FlowActive | FlowPassive.

#[global] Instance FlowDirection_eq_dec : EqDecision FlowDirection.
Proof. solve_decision. Defined.

#[global] Instance FlowDirection_countable : Countable FlowDirection.
Proof.
  refine (inj_countable' (fun d => match d with FlowActive => false | FlowPassive => true end)
                         (fun b => if b then FlowPassive else FlowActive) _).
  intros []; reflexivity.
Defined.

(** [AddrPort]: the port is a string, a decimal number or ["many"]. *)
Record AddrPort := { Addr : string; Port : string }.

Record process := { Name : string; Pgid : Z }.

(** [HostFlow]; [Process] is a pointer, [None] when [nil]. *)
Record HostFlow := {
  Direction : FlowDirection;
  Local : AddrPort;
  Peer : AddrPort;
  Process : option process;
  Connections : Z;
}.

(** Modelled from the spec: the filter names of [probe] are not under src/;
    section 6 gives them as [--filter all|public|private]. *)
Definition FilterAll : string := "all".
Definition FilterPublic : string := "public".
Definition FilterPrivate : string := "private".

(** The key of the aggregate: (direction, local, peer). *)
Definition key : Type := FlowDirection * (string * string) * (string * string).

Definition UniqKey (hf : HostFlow) : key :=
  (Direction hf, (Addr (Local hf), Port (Local hf)),
                 (Addr (Peer hf), Port (Peer hf))).

Definition with_Connections (hf : HostFlow) (n : Z) : HostFlow :=
  {| Direction := Direction hf; Local := Local hf; Peer := Peer hf;
     Process := Process hf; Connections := n |}.

(** Modelled from the spec: [HostFlows.Insert] is not under src/. Section
    4.3: insert into a set keyed by (direction, local, peer); on duplicate,
    increment [connections]. A first observation counts one connection
    (scenario S1). *)
Definition Insert (flows : gmap key HostFlow) (hf : HostFlow)
  : gmap key HostFlow :=
  match flows !! UniqKey hf with
  | None => <[UniqKey hf := with_Connections hf 1]> flows
  | Some old => <[UniqKey hf := with_Connections old (Connections old + 1)]> flows
  end.

(** Modelled from the spec: [HostFlow.SetLookupedName] is not under src/.
    Section 4.3: reverse-resolve the addresses of an emitted flow; a failed
    lookup leaves the address as it is (so [resolve] returns it). *)
Definition SetLookupedName (resolve : string -> string) (hf : HostFlow)
  : HostFlow :=
  {| Direction := Direction hf;
     Local := {| Addr := resolve (Addr (Local hf)); Port := Port (Local hf) |};
     Peer := {| Addr := resolve (Addr (Peer hf)); Port := Port (Peer hf) |};
     Process := Process hf;
     Connections := Connections hf |}.

End probe.

(* ===================================================================== *)
(** ** Package [netlink]: the flow builder *)
(* ===================================================================== *)

Module netlink.
Import Go.
Import probe.

(** [GetHostFlowsOption]. *)
Record GetHostFlowsOption := {
  Numeric : bool;
  Processes : bool;
  Filter : string;
}.

(** What the kernel and the file system return during one call. *)
Record World := {
  ReadDir_root : oserror + list netutil.DirEnt;
  Getpid : Z;
  NetlinkInetDiag : oserror + list linux.InetDiagMsg;
  ReadFile_tcp : oserror + string;
}.

Fixpoint contains (strs : list string) (s : string) : bool :=
  match strs with
  | [] => false
  | str :: strs' => if String.eqb str s then true else contains strs' s
  end.

(** The first [switch] of both loops: [true] is [continue]. *)
Definition state_dropped (st : Z) : bool :=
  (st =? linux.TCP_LISTEN) || (st =? linux.TCP_SYN_SENT)
  || (st =? linux.TCP_SYN_RECV).

Definition mkProcess (ent : option netutil.UserEnt) : option process :=
  (fun e => {| Name := netutil.pname e; Pgid := netutil.pgrp e |}) <$> ent.

(** The body of the loop of [GetHostFlowsByProcfs]: the flow handed to
    [flows.Insert], or [None] on [continue]. *)
Definition procfs_flow (ports : list string) (conn : netutil.ConnectionStat)
  : option HostFlow :=
  if state_dropped (netutil.Status conn) then None
  else
    let lport := Sprintf_d (netutil.Port (netutil.Laddr conn)) in
    let rport := Sprintf_d (netutil.Port (netutil.Raddr conn)) in
    if contains ports lport then
      Some {| Direction := FlowPassive;
              Local := {| Addr := netutil.IP (netutil.Laddr conn); Port := lport |};
              Peer := {| Addr := netutil.IP (netutil.Raddr conn); Port := "many" |};
              Process := None; Connections := 0 |}
    else
      Some {| Direction := FlowActive;
              Local := {| Addr := netutil.IP (netutil.Laddr conn); Port := "many" |};
              Peer := {| Addr := netutil.IP (netutil.Raddr conn); Port := rport |};
              Process := None; Connections := 0 |}.

(** [flows.Insert] over the flows a loop body yields. *)
Definition insert_all {A} (body : A -> option HostFlow) (conns : list A)
  : gmap key HostFlow :=
  fold_left (fun flows conn =>
               match body conn with
               | Some hf => Insert flows hf
               | None => flows
               end) conns ∅.

(** [GetHostFlowsByProcfs()]. *)
Definition GetHostFlowsByProcfs (w : World) : outcome (gmap key HostFlow) :=
  conns ← netutil.ProcfsConnections (ReadFile_tcp w);
  let ports := netutil.FilterByLocalListeningPorts conns in
  Ok (insert_all (procfs_flow ports) conns).

Section builder.
Variable X : Extern.

(** The second [switch] of the netlink loop, on [opt.Filter]: [true] is
    [continue]. *)
Definition filtered_out (opt : GetHostFlowsOption) (conn : linux.InetDiagMsg)
  : bool :=
  if String.eqb (Filter opt) FilterAll then false
  else if String.eqb (Filter opt) FilterPublic
       then IsPrivateIP X (linux.DstIP conn)
  else if String.eqb (Filter opt) FilterPrivate
       then negb (IsPrivateIP X (linux.DstIP conn))
  else false.

(** The first loop of [GetHostFlowsByNetlink]: the listening ports and the
    map from a listening port to the entry of its listener; a [nil] entry
    is stored as [None]. *)
Definition listening (userEnts : option (gmap Z netutil.UserEnt))
    (lconns : list linux.InetDiagMsg)
  : list string * gmap string (option netutil.UserEnt) :=
  fold_left (fun (acc : list string * gmap string (option netutil.UserEnt))
                  lconn =>
               let sport := Sprintf_d (linux.SrcPort lconn) in
               ((fst acc ++ [sport])%list,
                match userEnts with
                | Some u => <[sport := u !! linux.Inode lconn]> (snd acc)
                | None => snd acc
                end)) lconns ([], ∅).

(** The body of the second loop of [GetHostFlowsByNetlink]. *)
Definition netlink_flow (opt : GetHostFlowsOption)
    (userEnts : option (gmap Z netutil.UserEnt))
    (ports : list string) (lportEnt : gmap string (option netutil.UserEnt))
    (conn : linux.InetDiagMsg) : option HostFlow :=
  if state_dropped (linux.State conn) then None
  else if filtered_out opt conn then None
  else
    let ent := match userEnts with
               | Some u => if negb (linux.Inode conn =? 0)
                           then u !! linux.Inode conn else None
               | None => None
               end in
    let lport := Sprintf_d (linux.SrcPort conn) in
    let rport := Sprintf_d (linux.DstPort conn) in
    if contains ports lport then
      let ent := match ent with
                 | None => mjoin (lportEnt !! lport)
                 | Some _ => ent
                 end in
      Some {| Direction := FlowPassive;
              Local := {| Addr := IP_String (linux.SrcIP conn); Port := lport |};
              Peer := {| Addr := IP_String (linux.DstIP conn); Port := "many" |};
              Process := mkProcess ent; Connections := 0 |}
    else
      Some {| Direction := FlowActive;
              Local := {| Addr := IP_String (linux.SrcIP conn); Port := "many" |};
              Peer := {| Addr := IP_String (linux.DstIP conn); Port := rport |};
              Process := mkProcess ent; Connections := 0 |}.

(** [GetHostFlowsByNetlink(opt)]. *)
Definition GetHostFlowsByNetlink (w : World) (opt : GetHostFlowsOption)
  : outcome (gmap key HostFlow) :=
  userEnts ← (if Processes opt
              then u ← netutil.BuildUserEntries X (ReadDir_root w) (Getpid w);
                   Ok (Some u)
              else Ok None);
  conns ← netutil.NetlinkConnections (NetlinkInetDiag w);
  let lconns := netutil.NetlinkFilterByLocalListeningPorts conns in
  let '(ports, lportEnt) := listening userEnts lconns in
  let flows := insert_all (netlink_flow opt userEnts ports lportEnt) conns in
  Ok (if Numeric opt then flows
      else SetLookupedName (ResolveAddr X) <$> flows).

(** [GetHostFlows(opt)]. *)
Definition GetHostFlows (w : World) (opt : GetHostFlowsOption)
  : outcome (gmap key HostFlow) :=
  match GetHostFlowsByNetlink w opt with
  | Err err =>
      if As_NetlinkError err then GetHostFlowsByProcfs w else Err err
  | Ok flows => Ok flows
  | Panic => Panic
  end.

End builder.

End netlink.

(* ===================================================================== *)
(** ** Package [db]: the upsert engine *)
(* ===================================================================== *)

Module db.
Import probe.

(** The logical key of a row of [nodes]. *)
Record node := {
  ipv4 : string;
  port : Z;
  pgid : Z;
  pname : string;
}.

#[global] Instance node_eq_dec : EqDecision node.
Proof. solve_decision. Defined.

(** What the engine sends to the database, with its arguments. *)
Inductive stmt : Type :=
  | Begin
  | Prepare (query : string)
  | UpsertNode (ipv4 : string) (port pgid : Z) (pname : string)
  | UpsertFlow (direction : FlowDirection) (src dst connections : Z)
  | Commit.

(** The store: the rows of [nodes] in order of their [node_id] (the row at
    position [i] has id [i + 1]), and the rows of [flows] under their
    unique key, each with [connections] and [updated]. *)
Record store := {
  nodes : list node;
  flows : gmap (FlowDirection * Z * Z) (Z * Z);
}.

(** Modelled from the spec: [numeric(port)] of section 4.4, ["many"] is 0.
    The code of [db] is not under src/; a port that is neither ["many"] nor a
    decimal number is left open by the spec and reads here as the value of
    [strconv.Atoi]. *)
Definition numeric (port : string) : Z :=
  if String.eqb port "many" then 0 else fst (Go.Atoi port).

(** Modelled from the spec: the statement upsert-node of section 4.4 is not
    under src/. [INSERT ... ON CONFLICT (ipv4, port, pgid, pname) DO UPDATE
    ... RETURNING node_id]: the id of the row with this key, added when
    absent. *)
Definition upsert_node (st : store) (n : node) : Z * store :=
  match list_find (fun m => m = n) (nodes st) with
  | Some (i, _) => (Z.of_nat i + 1, st)
  | None => (Z.of_nat (length (nodes st)) + 1,
             {| nodes := nodes st ++ [n]; flows := flows st |})
  end.

(** Modelled from the spec: the statement upsert-flow of section 4.4 is not
    under src/. [ON CONFLICT (direction, src, dst) DO UPDATE SET connections
    = EXCLUDED.connections, updated = NOW()]. *)
Definition upsert_flow (st : store) (d : FlowDirection) (src dst conns now : Z)
  : store :=
  {| nodes := nodes st; flows := <[(d, src, dst) := (conns, now)]> (flows st) |}.

Definition local_node (hf : HostFlow) : node :=
  {| ipv4 := Addr (Local hf); port := numeric (Port (Local hf));
     pgid := from_option Pgid 0 (Process hf);
     pname := from_option Name "" (Process hf) |}.

Definition peer_node (hf : HostFlow) : node :=
  {| ipv4 := Addr (Peer hf); port := numeric (Port (Peer hf));
     pgid := 0; pname := "" |}.

Definition stmt_of_node (n : node) : stmt :=
  UpsertNode (ipv4 n) (port n) (pgid n) (pname n).

(** Modelled from the spec: step 3 of the upsert protocol of section 4.4
    with its edge key mapping, for one host flow; [InsertOrUpdateHostFlows]
    is not under src/. The result is the store, the statements sent, and
    the ids of the local and of the peer node. *)
Definition upsert_host_flow (now : Z) (st : store) (hf : HostFlow)
  : store * list stmt * (Z * Z) :=
  let '(lid, st1) := upsert_node st (local_node hf) in
  let '(pid, st2) := upsert_node st1 (peer_node hf) in
  let '(src, dst) := match Direction hf with
                     | FlowActive => (lid, pid)
                     | FlowPassive => (pid, lid)
                     end in
  (upsert_flow st2 (Direction hf) src dst (Connections hf) now,
   [stmt_of_node (local_node hf); stmt_of_node (peer_node hf);
    UpsertFlow (Direction hf) src dst (Connections hf)],
   (lid, pid)).

(** Modelled from the spec: the upsert protocol of section 4.4, steps 1 to
    4; [InsertOrUpdateHostFlows] is not under src/. *)
Definition InsertOrUpdateHostFlows (now : Z) (st : store) (hfs : list HostFlow)
  : store * list stmt :=
  let '(st', sent) :=
    fold_left (fun (acc : store * list stmt) hf =>
                 let '(st1, ss, _) := upsert_host_flow now (fst acc) hf in
                 (st1, (snd acc ++ ss)%list))
              hfs (st, [Begin; Prepare "INSERT INTO nodes";
                        Prepare "SELECT node_id FROM nodes";
                        Prepare "INSERT INTO flows"]) in
  (st', (sent ++ [Commit])%list).

End db.

(* ===================================================================== *)
(** ** The specification's side *)
(* ===================================================================== *)

Module Spec.
Import Go probe.

(** The classification rule of section 4.3 for a connection with local
    [(lip, lport)] and remote [(rip, rport)], given the listening ports [P]:
    direction, local and peer of the flow to emit. *)
Definition classify (P : list string) (lip : string) (lport : Z)
    (rip : string) (rport : Z) : FlowDirection * AddrPort * AddrPort :=
  if bool_decide (Sprintf_d lport ∈ P)
  then (FlowPassive, {| Addr := lip; Port := Sprintf_d lport |},
                     {| Addr := rip; Port := "many" |})
  else (FlowActive, {| Addr := lip; Port := "many" |},
                    {| Addr := rip; Port := Sprintf_d rport |}).

Definition shape (hf : HostFlow) : FlowDirection * AddrPort * AddrPort :=
  (Direction hf, Local hf, Peer hf).

Definition shape_key (sh : FlowDirection * AddrPort * AddrPort) : key :=
  (sh.1.1, (Addr sh.1.2, Port sh.1.2), (Addr sh.2, Port sh.2)).

(** The states the flow builder drops. *)
Definition dropped (st : Z) : Prop :=
  st = linux.TCP_LISTEN \/ st = linux.TCP_SYN_SENT \/ st = linux.TCP_SYN_RECV.

(** The bind addresses of a local listener. *)
Definition local_bind (addr : string) : Prop :=
  addr = "0.0.0.0" \/ addr = "::" \/ addr = "127.0.0.1".

(** A kernel connection as /proc/net/tcp shows it: the tuple of the netlink
    record without the inode. *)
Definition stat_of_diag (m : linux.InetDiagMsg) : netutil.ConnectionStat :=
  {| netutil.Laddr := {| netutil.IP := IP_String (linux.SrcIP m);
                         netutil.Port := linux.SrcPort m |};
     netutil.Raddr := {| netutil.IP := IP_String (linux.DstIP m);
                         netutil.Port := linux.DstPort m |};
     netutil.Status := linux.State m |}.

(** The flows of a result, in the order of their keys in the map. *)
Definition flows_of (r : outcome (gmap key HostFlow)) : option (list HostFlow) :=
  match r with
  | Ok flows => Some (map_to_list flows).*2
  | _ => None
  end.

(** A flow without its process attribution. *)
Definition erase_process (hf : HostFlow) : HostFlow :=
  {| Direction := Direction hf; Local := Local hf; Peer := Peer hf;
     Process := None; Connections := Connections hf |}.

(** The /proc/net/tcp text of the endpoint a.b.c.d:p, as the kernel prints
    it: the address as the little-endian 32-bit word in eight upper-case
    hex digits, the port in four. *)
Definition hex_upper (v : Z) : ascii :=
  nth (Z.to_nat v) (list_ascii_of_string "0123456789ABCDEF") "0"%char.

Definition hex2 (v : Z) : string :=
  String (hex_upper (v / 16)) (String (hex_upper (v mod 16)) "").

Definition encodeAddress (a b c d p : Z) : string :=
  hex2 d +:+ hex2 c +:+ hex2 b +:+ hex2 a +:+ ":" +:+
  hex2 (p / 256) +:+ hex2 (p mod 256).

(** The dotted-quad text a.b.c.d, with stdpp's decimal printer. *)
Definition dotted_quad (a b c d : Z) : string :=
  pretty a +:+ "." +:+ pretty b +:+ "." +:+ pretty c +:+ "." +:+ pretty d.

(** [sub] occurs in [s]. *)
Definition has_substring (sub s : string) : Prop :=
  exists pre post, s = pre +:+ sub +:+ post.

(** The rule applied to a procfs connection and to a netlink record. *)
Definition rule_procfs (P : list string) (c : netutil.ConnectionStat)
  : FlowDirection * AddrPort * AddrPort :=
  classify P (netutil.IP (netutil.Laddr c)) (netutil.Port (netutil.Laddr c))
             (netutil.IP (netutil.Raddr c)) (netutil.Port (netutil.Raddr c)).

Definition rule_netlink (P : list string) (c : linux.InetDiagMsg)
  : FlowDirection * AddrPort * AddrPort :=
  classify P (IP_String (linux.SrcIP c)) (linux.SrcPort c)
             (IP_String (linux.DstIP c)) (linux.DstPort c).

(** The listening ports of the netlink path. *)
Definition netlink_ports (msgs : list linux.InetDiagMsg) : list string :=
  map (fun c => Sprintf_d (linux.SrcPort c))
      (netutil.NetlinkFilterByLocalListeningPorts msgs).

(** A shape after name resolution of its two addresses. *)
Definition resolved (r : string -> string)
    (sh : FlowDirection * AddrPort * AddrPort)
  : FlowDirection * AddrPort * AddrPort :=
  (sh.1.1, {| Addr := r (Addr sh.1.2); Port := Port sh.1.2 |},
           {| Addr := r (Addr sh.2); Port := Port sh.2 |}).

(** What [GetHostFlowsByNetlink] does to a shape before it returns. *)
Definition returned (X : Extern) (opt : netlink.GetHostFlowsOption)
    (sh : FlowDirection * AddrPort * AddrPort)
  : FlowDirection * AddrPort * AddrPort :=
  if netlink.Numeric opt then sh else resolved (ResolveAddr X) sh.

(** Exactly one of the two ports of a shape is the sentinel. *)
Definition one_many (sh : FlowDirection * AddrPort * AddrPort) : Prop :=
  (Port sh.1.2 = "many" /\ Port sh.2 <> "many")
  \/ (Port sh.1.2 <> "many" /\ Port sh.2 = "many").

(** The flows of a list that fall under the key [k], in order. *)
Definition with_key (k : key) (l : list HostFlow) : list HostFlow :=
  filter (fun hf => UniqKey hf = k) l.

(** What a key holds after a list of flows under it has been inserted,
    starting from [old]. *)
Definition aggregate (old : option HostFlow) (l : list HostFlow)
  : option HostFlow :=
  match old, l with
  | Some o, _ => Some (with_Connections o (Connections o + Z.of_nat (length l)))
  | None, [] => None
  | None, h :: t => Some (with_Connections h (1 + Z.of_nat (length t)))
  end.

(** Section 4.4, step 3a: the local node of a host flow,
    (local.addr, numeric(local.port), process.pgid or 0, process.name
    or ""). *)
Definition local_key (hf : HostFlow) : db.node :=
  {| db.ipv4 := Addr (Local hf);
     db.port := db.numeric (Port (Local hf));
     db.pgid := match Process hf with Some p => Pgid p | None => 0 end;
     db.pname := match Process hf with Some p => Name p | None => "" end |}.

(** Section 4.4, step 3b: the peer node,
    (peer.addr, numeric(peer.port), 0, ""). *)
Definition peer_key (hf : HostFlow) : db.node :=
  {| db.ipv4 := Addr (Peer hf);
     db.port := db.numeric (Port (Peer hf));
     db.pgid := 0;
     db.pname := "" |}.

(** The [node_id] of the row of [nodes] that holds a node: rows are
    numbered from 1 in the order they were added; 0 when no row holds it. *)
Definition node_id (rows : list db.node) (n : db.node) : Z :=
  match list_find (fun m => m = n) rows with
  | Some (i, _) => Z.of_nat i + 1
  | None => 0
  end.

(** Section 4.4, edge key mapping: (src, dst) is (local, peer) for an
    active flow and (peer, local) for a passive one. *)
Definition edge (id : db.node -> Z) (hf : HostFlow) : Z * Z :=
  match Direction hf with
  | FlowActive => (id (local_key hf), id (peer_key hf))
  | FlowPassive => (id (peer_key hf), id (local_key hf))
  end.

(** Section 4.4, steps 3c and 3d: what is executed for one host flow, when
    [id] gives the [node_id] of a node. *)
Definition upsert_statements (id : db.node -> Z) (hf : HostFlow)
  : list db.stmt :=
  [ db.UpsertNode (Addr (Local hf)) (db.numeric (Port (Local hf)))
      (match Process hf with Some p => Pgid p | None => 0 end)
      (match Process hf with Some p => Name p | None => "" end);
    db.UpsertNode (Addr (Peer hf)) (db.numeric (Port (Peer hf))) 0 "";
    db.UpsertFlow (Direction hf) (edge id hf).1 (edge id hf).2
      (Connections hf) ].

End Spec.

(* ===================================================================== *)
(** ** Sample inputs *)
(* ===================================================================== *)

Module Samples.
Import Go.

(** Modelled from the spec: [netutil.IsPrivateIP] is not under src/.
    Section 4.3: private is RFC1918, loopback or link-local. *)
Definition IsPrivateIP_spec (ip : list Z) : bool :=
  match To4 ip with
  | Some [a; b; _; _] =>
      (a =? 10) || ((a =? 172) && (16 <=? b) && (b <=? 31))
      || ((a =? 192) && (b =? 168)) || (a =? 127)
      || ((a =? 169) && (b =? 254))
  | _ =>
      Nat.eqb (length ip) 16
      && (forallb (Z.eqb 0) (firstn 15 ip) && (at_ ip 15 =? 1)
          || (at_ ip 0 =? 254) && (Z.land (at_ ip 1) 192 =? 128))
  end.

(** A scanner for links of the exact shape [socket:[<digits>]]. *)
Definition scan_socket (lnk : string) : Z * Z * option oserror :=
  if prefix_of netutil.socketPrefix lnk then
    match Split (String.substring 8 (String.length lnk - 8) lnk) "]" with
    | [digits; EmptyString] =>
        match ParseUint digits 10 32 with
        | (n, None) => (n, 1, None)
        | _ => (0, 0, Some (OtherOsError "expected integer"))
        end
    | _ => (0, 0, Some (OtherOsError "input does not match format"))
    end
  else (0, 0, Some (OtherOsError "input does not match format")).

(** A scanner for stat files whose first five fields are well formed. *)
Definition scan_stat (text : string) : oserror + (string * Z * Z) :=
  match Fields text with
  | pid2 :: comm :: state :: ppid :: pgrp :: _ =>
      match Atoi pid2, Atoi ppid, Atoi pgrp with
      | (_, None), (pp, None), (pg, None) => inr (comm, pp, pg)
      | _, _, _ => inl (OtherOsError "expected integer")
      end
  | _ => inl ErrUnexpectedEOF
  end.

(** A scanner for [(name)]: the text after the parenthesis, and the
    unexpected end of input the source works around. *)
Definition scan_comm (comm : string) : string * option oserror :=
  match comm with
  | String "("%char rest => (rest, Some ErrUnexpectedEOF)
  | _ => ("", Some (OtherOsError "input does not match format"))
  end.

Definition extern : Extern :=
  {| Sscanf_socket := scan_socket; Fscan_stat := scan_stat;
     Sscanf_comm := scan_comm; IsPrivateIP := IsPrivateIP_spec;
     ResolveAddr := fun addr => addr |}.

Definition diag (st : Z) (sip : list Z) (sport : Z) (dip : list Z) (dport : Z)
    (ino : Z) : linux.InetDiagMsg :=
  {| linux.State := st; linux.SrcIP := sip; linux.SrcPort := sport;
     linux.DstIP := dip; linux.DstPort := dport; linux.Inode := ino |}.

(** A listener on port 80, an accepted connection on it whose inode is
    unattributed, an outgoing connection to port 5432, and a connection
    attempt in progress. *)
Definition listener : linux.InetDiagMsg :=
  diag linux.TCP_LISTEN [0; 0; 0; 0] 80 [0; 0; 0; 0] 0 7.
Definition accepted : linux.InetDiagMsg :=
  diag linux.TCP_ESTABLISHED [10; 0; 10; 1] 80 [10; 0; 10; 2] 44444 0.
Definition outgoing : linux.InetDiagMsg :=
  diag linux.TCP_ESTABLISHED [10; 0; 10; 1] 54321 [10; 0; 10; 2] 5432 42.
Definition connecting : linux.InetDiagMsg :=
  diag linux.TCP_SYN_SENT [10; 0; 10; 1] 54322 [10; 0; 10; 3] 443 43.

Definition conns : list linux.InetDiagMsg :=
  [listener; accepted; outgoing; connecting].

Definition fdent (name lnk : string) : netutil.FdEnt :=
  {| netutil.fd_Name := name; netutil.Readlink := inr lnk |}.

Definition pident (name : string) (fds : list netutil.FdEnt) (stat : string)
  : netutil.DirEnt :=
  {| netutil.Name := name; netutil.IsDir := true; netutil.Stat_fd := inr true;
     netutil.ReadDir_fd := inr fds; netutil.Open_stat := inr stat |}.

(** A shell with no socket at all. *)
Definition shell : netutil.DirEnt :=
  pident "1003" [fdent "0" "/dev/pts/0"; fdent "1" "/dev/pts/0"]
         "1003 (bash) S 1 1003 1003 0".

(** /proc with a file, the probe itself (PID 999), python holding the
    outgoing socket, nginx holding the listening socket, and a shell with
    no socket at all. *)
Definition proc_root : list netutil.DirEnt :=
  [ {| netutil.Name := "cpuinfo"; netutil.IsDir := false;
       netutil.Stat_fd := inl (PathError "stat" "/proc/cpuinfo/fd" (Errno 20));
       netutil.ReadDir_fd := inl (PathError "open" "/proc/cpuinfo/fd" (Errno 20));
       netutil.Open_stat := inl (PathError "open" "/proc/cpuinfo/stat" (Errno 20)) |};
    pident "999" [fdent "3" "socket:[99]"] "999 (shawk) R 1 999 999 0";
    pident "1001" [fdent "0" "/dev/null"; fdent "3" "socket:[42]"]
           "1001 (python) S 1 1001 1001 0";
    pident "1002" [fdent "6" "socket:[7]"; fdent "7" "pipe:[5]"]
           "1002 (nginx) S 1 1002 1002 0";
    shell ].

(** A PID of another user: its fd directory cannot be read. *)
Definition denied : netutil.DirEnt :=
  {| netutil.Name := "1"; netutil.IsDir := true; netutil.Stat_fd := inr true;
     netutil.ReadDir_fd := inl (PathError "open" "/proc/1/fd" (Errno EACCES));
     netutil.Open_stat := inr "1 (init) S 0 1 1 0" |}.

(** A PID that exited after /proc was listed: nothing of it is left. *)
Definition vanished : netutil.DirEnt :=
  {| netutil.Name := "1004"; netutil.IsDir := true;
     netutil.Stat_fd := inl (PathError "stat" "/proc/1004/fd" (Errno ENOENT));
     netutil.ReadDir_fd := inl (PathError "open" "/proc/1004/fd" (Errno ENOENT));
     netutil.Open_stat := inl (PathError "open" "/proc/1004/stat" (Errno ENOENT)) |}.

(** A PID that exited after its fd directory was found. *)
Definition vanished_after_stat : netutil.DirEnt :=
  {| netutil.Name := "1005"; netutil.IsDir := true; netutil.Stat_fd := inr true;
     netutil.ReadDir_fd := inl (PathError "open" "/proc/1005/fd" (Errno ENOENT));
     netutil.Open_stat := inl (PathError "open" "/proc/1005/stat" (Errno ENOENT)) |}.

(** The same four connections as /proc/net/tcp shows them. *)
Definition proc_net_tcp : string :=
  "  sl  local_address rem_address   st tx_queue rx_queue tr tm->when retrnsmt   uid  timeout inode" +:+ String "010" (
  "   0: 00000000:0050 00000000:0000 0A 00000000:00000000 00:00000000 00000000     0        0 7 1" +:+ String "010" (
  "   1: 010A000A:0050 020A000A:AD9C 01 00000000:00000000 00:00000000 00000000     0        0 0 1" +:+ String "010" (
  "   2: 010A000A:D431 020A000A:1538 01 00000000:00000000 00:00000000 00000000  1000        0 42 1" +:+ String "010" (
  "   3: 010A000A:D432 030A000A:01BB 02 00000000:00000000 00:00000000 00000000  1000        0 43 1" +:+ String "010" "")))).

(** What [ProcfsConnections] reads from that text. *)
Definition stats : list netutil.ConnectionStat := map Spec.stat_of_diag conns.

(** The header and one line whose state field, ZZ, is no hex number. *)
Definition proc_net_tcp_bad_state : string :=
  "  sl  local_address rem_address   st tx_queue rx_queue tr tm->when retrnsmt   uid  timeout inode" +:+ String "010" (
  "   0: 010A000A:D431 020A000A:1538 ZZ 00000000:00000000 00:00000000 00000000  1000        0 42 1" +:+ String "010" "").

Definition world : netlink.World :=
  {| netlink.ReadDir_root := inr proc_root; netlink.Getpid := 999;
     netlink.NetlinkInetDiag := inr conns;
     netlink.ReadFile_tcp := inr proc_net_tcp |}.

(** The same host when the netlink request fails. *)
Definition world_no_netlink : netlink.World :=
  {| netlink.ReadDir_root := inr proc_root; netlink.Getpid := 999;
     netlink.NetlinkInetDiag := inl (Errno 1);
     netlink.ReadFile_tcp := inr proc_net_tcp |}.

(** A host where /proc cannot be listed and the netlink request fails. *)
Definition world_proc_denied : netlink.World :=
  {| netlink.ReadDir_root := inl (PathError "open" "/proc" (Errno EACCES));
     netlink.Getpid := 999;
     netlink.NetlinkInetDiag := inl (Errno 1);
     netlink.ReadFile_tcp := inr proc_net_tcp |}.

Definition opt (numeric processes : bool) (filter : string)
  : netlink.GetHostFlowsOption :=
  {| netlink.Numeric := numeric; netlink.Processes := processes;
     netlink.Filter := filter |}.

(** The host flows of the tests of [InsertOrUpdateHostFlows]. *)
Definition flow_python : probe.HostFlow :=
  {| probe.Direction := probe.FlowActive;
     probe.Local := {| probe.Addr := "10.0.10.1"; probe.Port := "many" |};
     probe.Peer := {| probe.Addr := "10.0.10.2"; probe.Port := "5432" |};
     probe.Process := Some {| probe.Name := "python"; probe.Pgid := 1001 |};
     probe.Connections := 10 |}.

Definition flow_nginx : probe.HostFlow :=
  {| probe.Direction := probe.FlowPassive;
     probe.Local := {| probe.Addr := "10.0.10.1"; probe.Port := "80" |};
     probe.Peer := {| probe.Addr := "10.0.10.2"; probe.Port := "many" |};
     probe.Process := Some {| probe.Name := "nginx"; probe.Pgid := 1002 |};
     probe.Connections := 12 |}.

Definition flow_no_process : probe.HostFlow :=
  {| probe.Direction := probe.FlowActive;
     probe.Local := {| probe.Addr := "10.0.10.1"; probe.Port := "many" |};
     probe.Peer := {| probe.Addr := "10.0.10.2"; probe.Port := "5432" |};
     probe.Process := None;
     probe.Connections := 10 |}.

Definition empty_store : db.store := {| db.nodes := []; db.flows := ∅ |}.

Definition prepared : list db.stmt :=
  [db.Begin; db.Prepare "INSERT INTO nodes";
   db.Prepare "SELECT node_id FROM nodes"; db.Prepare "INSERT INTO flows"].

End Samples.

(* ===================================================================== *)
(** ** Checks used in the proofs *)
(* ===================================================================== *)

Module Checks.
Import Go Spec.

(** A text that starts with a decimal digit. *)
Definition starts_with_digit (s : string) : Prop :=
  match s with
  | String c _ => 48 <= byte_of c <= 57
  | EmptyString => False
  end.

(** What the proofs need of one upper-case hex digit and of one byte,
    checked over their whole range by computation. *)
Definition hex_digit_ok (k : Z) : bool :=
  let c := hex_upper k in
  negb (byte_of c =? 95) && negb (Ascii.eqb c ":")
  && match digit_val (byte_of c) with Some d => d =? k | None => false end
  && match fromHexChar (byte_of c) with Some d => d =? k | None => false end.

Definition byte_ok (v : Z) : bool :=
  (Z.lor (Z.shiftl (v / 16) 4) (v mod 16) =? v)
  && String.eqb (uitoa v) (pretty v).

(** The body of the loop of [db.InsertOrUpdateHostFlows]. *)
Definition tick_step (now : Z) (acc : db.store * list db.stmt)
    (hf : probe.HostFlow) : db.store * list db.stmt :=
  let '(st1, ss, _) := db.upsert_host_flow now (fst acc) hf in
  (st1, (snd acc ++ ss)%list).

End Checks.

(* ===================================================================== *)
(** ** The text of /proc/net/tcp *)
(* ===================================================================== *)

Module Kernel.
Import Go Spec.

(** A socket as the kernel holds it: the bytes of the two addresses in
    network order, the two ports and the state. *)
Record sock := {
  lip : list Z;
  lport : Z;
  rip : list Z;
  rport : Z;
  st : Z;
}.

Definition is_byte (v : Z) : Prop := 0 <= v < 256.

Definition well_formed (k : sock) : Prop :=
  Forall is_byte (lip k) /\ Forall is_byte (rip k)
  /\ 0 <= lport k <= 65535 /\ 0 <= rport k <= 65535 /\ is_byte (st k).

(** Bytes in upper-case hex, two digits each. *)
Fixpoint hexs (bs : list Z) : string :=
  match bs with
  | [] => ""
  | b :: t => hex2 b +:+ hexs t
  end.

(** An endpoint as the kernel prints it: the bytes of the address from
    last to first (the 32-bit word of an IPv4 address printed with %08X
    on a little-endian machine), a colon, the port with %04X. *)
Definition endpoint (ip : list Z) (port : Z) : string :=
  hexs (rev ip) +:+ ":" +:+ hex2 (port / 256) +:+ hex2 (port mod 256).

(** The fields after the state; the parser looks at none of them. *)
Definition rest_of_line : string :=
  "00000000:00000000 00:00000000 00000000  1000        0 12345 1 ffff8800 20 4 30 10 -1".

(** One line of the file: slot, local endpoint, remote endpoint, state. *)
Definition line (k : sock) : string :=
  "   0: " +:+ endpoint (lip k) (lport k) +:+ " "
  +:+ endpoint (rip k) (rport k) +:+ " " +:+ hex2 (st k) +:+ " "
  +:+ rest_of_line.

(** The lines of a file, each ended by a newline. *)
Fixpoint lines (ks : list sock) : string :=
  match ks with
  | [] => ""
  | k :: t => line k +:+ String "010" (lines t)
  end.

(** What the parser is to make of a socket. *)
Definition stat_of (k : sock) : netutil.ConnectionStat :=
  {| netutil.Laddr := {| netutil.IP := IP_String (lip k); netutil.Port := lport k |};
     netutil.Raddr := {| netutil.IP := IP_String (rip k); netutil.Port := rport k |};
     netutil.Status := st k |}.

(** The number of occurrences of a byte in a text. *)
Fixpoint count_char (c : ascii) (s : string) : nat :=
  match s with
  | EmptyString => O
  | String x rest => (if Ascii.eqb x c then 1 else 0) + count_char c rest
  end.

(** A text in which a byte does not occur. *)
Definition free_of (c : ascii) (s : string) : Prop := count_char c s = O.

(** A text without white space. *)
Definition spaceless (s : string) : Prop :=
  forallb (fun c => negb (is_space c)) (list_ascii_of_string s) = true.

(** What the proofs need of one upper-case hex digit and of the state
    field, checked over their whole range by computation. *)
Definition hex_digit_plain (k : Z) : bool :=
  negb (is_space (hex_upper k)).

Definition hex_digit_low (k : Z) : bool := byte_of (hex_upper k) <? 128.

Definition state_ok (v : Z) : bool :=
  match ParseUint (hex2 v) 16 8 with
  | (n, None) => n =? v
  | _ => false
  end.

(** The options with another filter. *)
Definition with_Filter (opt : netlink.GetHostFlowsOption) (f : string)
  : netlink.GetHostFlowsOption :=
  {| netlink.Numeric := netlink.Numeric opt;
     netlink.Processes := netlink.Processes opt;
     netlink.Filter := f |}.

(** The process a user entry stands for in a flow. *)
Definition process_of (e : netutil.UserEnt) : probe.process :=
  {| probe.Name := netutil.pname e; probe.Pgid := netutil.pgrp e |}.

(** Sample sockets: a listener on every address, a listener on one
    address, and an established connection. *)
Definition listener_any : sock :=
  {| lip := [0; 0; 0; 0]; lport := 80; rip := [0; 0; 0; 0]; rport := 0; st := 10 |}.
Definition listener_one : sock :=
  {| lip := [10; 0; 10; 1]; lport := 8080; rip := [0; 0; 0; 0]; rport := 0; st := 10 |}.
Definition established : sock :=
  {| lip := [10; 0; 10; 1]; lport := 54321; rip := [10; 0; 10; 2]; rport := 5432;
     st := 1 |}.

Definition header : string :=
  "  sl  local_address rem_address   st tx_queue rx_queue tr tm->when retrnsmt   uid  timeout inode".

End Kernel.

(* ===================================================================== *)
(** ** Where a user entry comes from *)
(* ===================================================================== *)

Module Walk.
Import Go netutil.

(** The PID a directory entry of /proc names, if its name is a number. *)
Definition pid_of (d : DirEnt) : option Z :=
  match Atoi (Name d) with
  | (pid, None) => Some pid
  | _ => None
  end.

(** The entry [e] under the key [ino] comes from a socket link of a PID
    directory of the listing [dir] that is not the probe's own: [d] is the
    directory, [d2] the fd, [lnk] the target of its link, [stat] what the
    stat file of the PID holds. *)
Definition entry_from (X : Extern) (self : Z) (dir : list DirEnt)
    (ino : Z) (e : UserEnt) : Prop :=
  inode e = ino /\ ino <> 0 /\ pid e <> self
  /\ exists d fds d2 lnk stat,
       d ∈ dir /\ IsDir d = true /\ Atoi (Name d) = (pid e, None)
       /\ Stat_fd d = inr true /\ ReadDir_fd d = inr fds
       /\ d2 ∈ fds /\ Atoi (fd_Name d2) = (fd e, None)
       /\ Readlink d2 = inr lnk /\ parseSocketInode X lnk = Ok ino
       /\ parseProcStat X (Open_stat d) = Ok stat
       /\ pname e = Pname stat /\ ppid e = Ppid stat /\ pgrp e = Pgrp stat.

(** Every entry of the map under construction comes from such a link. *)
Definition entries_ok (X : Extern) (self : Z) (dir : list DirEnt) (s : scan)
  : Prop :=
  forall ino e, userEnts s !! ino = Some e -> entry_from X self dir ino e.

(** The map under construction has an entry under the inode. *)
Definition has (ino : Z) (s : scan) : Prop := is_Some (userEnts s !! ino).

(** The last byte of the string is [c]. *)
Definition ends_with (c : ascii) (s : string) : bool :=
  match rev (list_ascii_of_string s) with
  | x :: _ => Ascii.eqb x c
  | [] => false
  end.

End Walk.

Module Examples.
Import Go netutil.

Example decodeAddress_doc_v4 :
  decodeAddress "0500000A:0016" = Ok {| IP := "10.0.0.5"; Port := 22 |}.
Proof. vm_compute. reflexivity. Qed.

(** A 16-byte address is reversed whole, like a 4-byte one. *)
Example decodeAddress_v6 :
  decodeAddress "0085002452100113070057A13F025401:0035"
  = Ok {| IP := "154:23f:a157:7:1301:1052:2400:8500"; Port := 53 |}.
Proof. vm_compute. reflexivity. Qed.

Example IP_String_any : IP_String (repeat 0 16) = "::".
Proof. vm_compute. reflexivity. Qed.

(** The expectations of the tests of [InsertOrUpdateHostFlows], on a
    store that hands out the ids 1, 2, 3, 4 as the mock does. *)
Example TestInsertOrUpdateHostFlows_empty :
  (db.InsertOrUpdateHostFlows 0 Samples.empty_store []).2
  = (Samples.prepared ++ [db.Commit])%list.
Proof. reflexivity. Qed.

Example TestInsertOrUpdateHostFlows :
  (db.InsertOrUpdateHostFlows 0 Samples.empty_store
     [Samples.flow_python; Samples.flow_nginx]).2
  = (Samples.prepared ++
     [db.UpsertNode "10.0.10.1" 0 1001 "python";
      db.UpsertNode "10.0.10.2" 5432 0 "";
      db.UpsertFlow probe.FlowActive 1 2 10;
      db.UpsertNode "10.0.10.1" 80 1002 "nginx";
      db.UpsertNode "10.0.10.2" 0 0 "";
      db.UpsertFlow probe.FlowPassive 4 3 12;
      db.Commit])%list.
Proof. vm_compute. reflexivity. Qed.

Example TestInsertOrUpdateHostFlows_empty_process :
  (db.InsertOrUpdateHostFlows 0 Samples.empty_store [Samples.flow_no_process]).2
  = (Samples.prepared ++
     [db.UpsertNode "10.0.10.1" 0 0 "";
      db.UpsertNode "10.0.10.2" 5432 0 "";
      db.UpsertFlow probe.FlowActive 1 2 10;
      db.Commit])%list.
Proof. vm_compute. reflexivity. Qed.

(** Scenarios S1 and S2 of the specification on the netlink path. *)
Example netlink_scenarios :
  Spec.flows_of (netlink.GetHostFlowsByNetlink Samples.extern Samples.world
                   (Samples.opt true true "all"))
  = Some [ {| probe.Direction := probe.FlowPassive;
              probe.Local := {| probe.Addr := "10.0.10.1"; probe.Port := "80" |};
              probe.Peer := {| probe.Addr := "10.0.10.2"; probe.Port := "many" |};
              probe.Process := Some {| probe.Name := "nginx"; probe.Pgid := 1002 |};
              probe.Connections := 1 |};
           {| probe.Direction := probe.FlowActive;
              probe.Local := {| probe.Addr := "10.0.10.1"; probe.Port := "many" |};
              probe.Peer := {| probe.Addr := "10.0.10.2"; probe.Port := "5432" |};
              probe.Process := Some {| probe.Name := "python"; probe.Pgid := 1001 |};
              probe.Connections := 1 |} ].
Proof. vm_compute. reflexivity. Qed.

(** The attributor reads the stat file of a PID once, and only for the
    PIDs that hold a socket. *)
Example attributor_reads :
  netutil.stat_reads
    <$> (match netutil.BuildUserEntries_log Samples.extern
                 (inr Samples.proc_root) 999 with
         | Ok s => Some s
         | _ => None
         end)
  = Some [1002; 1001].
Proof. vm_compute. reflexivity. Qed.

End Examples.

(* ===================================================================== *)
(** ** Decimal printing *)
(* ===================================================================== *)

Module GoFacts.
Import Go Checks.

Lemma byte_of_digit_char d : 0 <= d < 10 -> byte_of (digit_char d) = 48 + d.
Proof.
  intros Hd. unfold byte_of, digit_char, char_of.
  rewrite N_ascii_embedding.
  - apply Z2N.id. lia.
  - change 256%N with (Z.to_N 256). apply Z2N.inj_lt; lia.
Qed.

Lemma utoa_go_S fuel n acc :
  utoa_go (S fuel) n acc
  = if n / 10 =? 0 then String (digit_char (n mod 10)) acc
    else utoa_go fuel (n / 10) (String (digit_char (n mod 10)) acc).
Proof. reflexivity. Qed.

Lemma utoa_go_digit fuel : forall n acc,
  starts_with_digit acc -> starts_with_digit (utoa_go fuel n acc).
Proof.
  induction fuel as [|fuel IH]; intros n acc Hacc; [exact Hacc|].
  rewrite utoa_go_S.
  assert (Hd : starts_with_digit (String (digit_char (n mod 10)) acc)).
  { pose proof (Z.mod_pos_bound n 10 ltac:(lia)) as Hm.
    simpl. rewrite byte_of_digit_char; lia. }
  destruct (n / 10 =? 0); [exact Hd|]. apply IH, Hd.
Qed.

Lemma uitoa_digit n : starts_with_digit (uitoa n).
Proof.
  unfold uitoa. rewrite (utoa_go_S 19).
  assert (Hd : starts_with_digit (String (digit_char (n mod 10)) "")).
  { pose proof (Z.mod_pos_bound n 10 ltac:(lia)) as Hm.
    simpl. rewrite byte_of_digit_char; lia. }
  destruct (n / 10 =? 0); [exact Hd|]. apply utoa_go_digit, Hd.
Qed.

(** A printed number is never the sentinel ["many"]. *)
Lemma Sprintf_d_not_many n : Sprintf_d n <> "many".
Proof.
  unfold Sprintf_d. destruct (n <? 0); [discriminate|].
  pose proof (uitoa_digit n) as H.
  destruct (uitoa n) as [|c s]; [discriminate|].
  intros Heq. injection Heq as Hc _. subst c.
  simpl in H. change (byte_of "m") with 109 in H. lia.
Qed.

End GoFacts.

(* ===================================================================== *)
(** ** Aggregation of host flows *)
(* ===================================================================== *)

Module FlowFacts.
Import probe netlink Spec.

Lemma with_key_cons_eq k h t :
  UniqKey h = k -> with_key k (h :: t) = h :: with_key k t.
Proof. intros H. unfold with_key. rewrite filter_cons_True; done. Qed.

Lemma with_key_cons_ne k h t :
  UniqKey h <> k -> with_key k (h :: t) = with_key k t.
Proof. intros H. unfold with_key. rewrite filter_cons_False; done. Qed.

Lemma Insert_lookup_eq (m : gmap key HostFlow) h :
  Insert m h !! UniqKey h
  = Some (match m !! UniqKey h with
          | None => with_Connections h 1
          | Some old => with_Connections old (Connections old + 1)
          end).
Proof.
  unfold Insert. destruct (m !! UniqKey h); apply lookup_insert_eq.
Qed.

Lemma Insert_lookup_ne (m : gmap key HostFlow) h k :
  UniqKey h <> k -> Insert m h !! k = m !! k.
Proof.
  intros H. unfold Insert.
  destruct (m !! UniqKey h); apply lookup_insert_ne, H.
Qed.

Lemma fold_Insert_lookup l : forall (m : gmap key HostFlow) k,
  fold_left Insert l m !! k = aggregate (m !! k) (with_key k l).
Proof.
  induction l as [|h t IH]; intros m k; simpl.
  - destruct (m !! k) as [o|]; simpl; [|done].
    f_equal. destruct o; unfold with_Connections; simpl. f_equal. lia.
  - rewrite IH. destruct (decide (UniqKey h = k)) as [<-|Hne].
    + rewrite Insert_lookup_eq, with_key_cons_eq by done.
      destruct (m !! UniqKey h) as [o|]; simpl; f_equal;
        unfold with_Connections; simpl; f_equal; lia.
    + rewrite Insert_lookup_ne, with_key_cons_ne by done. done.
Qed.

Lemma insert_all_fold {A} (body : A -> option HostFlow) conns :
  forall m : gmap key HostFlow,
  fold_left (fun flows conn => match body conn with
                               | Some hf => Insert flows hf
                               | None => flows
                               end) conns m
  = fold_left Insert (omap body conns) m.
Proof.
  induction conns as [|c t IH]; intros m; simpl; [done|].
  rewrite IH. destruct (body c); done.
Qed.

(** The content of the aggregate under every key. *)
Lemma insert_all_lookup {A} (body : A -> option HostFlow) conns k :
  insert_all body conns !! k = aggregate None (with_key k (omap body conns)).
Proof.
  unfold insert_all. rewrite insert_all_fold, fold_Insert_lookup.
  by rewrite lookup_empty.
Qed.

Lemma with_key_elem k l hf : hf ∈ with_key k l <-> hf ∈ l /\ UniqKey hf = k.
Proof. unfold with_key. rewrite list_elem_of_filter. tauto. Qed.

(** Every flow of the aggregate was emitted for some connection, and
    counts the connections that fall under its key. *)
Lemma insert_all_Some {A} (body : A -> option HostFlow) conns k hf :
  insert_all body conns !! k = Some hf ->
  exists c hf0, c ∈ conns /\ body c = Some hf0 /\ UniqKey hf0 = k
    /\ hf = with_Connections hf0
              (Z.of_nat (length (with_key k (omap body conns)))).
Proof.
  rewrite insert_all_lookup.
  destruct (with_key k (omap body conns)) as [|h t] eqn:E; simpl; [done|].
  intros [= <-].
  assert (Hin : h ∈ with_key k (omap body conns)) by (rewrite E; left).
  apply with_key_elem in Hin as [Hin Hk].
  apply list_elem_of_omap in Hin as (c & Hc & Hb).
  exists c, h. repeat split; try done.
  f_equal. simpl length. lia.
Qed.

(** Every connection the loop body emits a flow for is in the aggregate. *)
Lemma insert_all_emitted {A} (body : A -> option HostFlow) conns c hf0 :
  c ∈ conns -> body c = Some hf0 ->
  exists h, insert_all body conns !! UniqKey hf0
            = Some (with_Connections h
                      (Z.of_nat (length (with_key (UniqKey hf0) (omap body conns)))))
    /\ UniqKey h = UniqKey hf0.
Proof.
  intros Hc Hb. rewrite insert_all_lookup.
  assert (Hin : hf0 ∈ with_key (UniqKey hf0) (omap body conns)).
  { apply with_key_elem. split; [|done].
    apply list_elem_of_omap. eauto. }
  destruct (with_key (UniqKey hf0) (omap body conns)) as [|h t] eqn:E.
  { by apply not_elem_of_nil in Hin. }
  assert (Hh : h ∈ with_key (UniqKey hf0) (omap body conns)) by (rewrite E; left).
  apply with_key_elem in Hh as [_ Hk].
  exists h. split; [|done]. simpl. do 2 f_equal. lia.
Qed.

(** A result that lists no flow is the empty map. *)
Lemma flows_of_nil (r : outcome (gmap key HostFlow)) :
  flows_of r = Some [] -> r = Ok ∅.
Proof.
  destruct r as [flows| |]; simpl; [|done|done].
  intros [= H]. f_equal. apply map_to_list_empty_iff.
  by apply fmap_nil_inv in H.
Qed.

Lemma contains_elem strs s : contains strs s = true <-> s ∈ strs.
Proof.
  induction strs as [|x t IH]; simpl.
  - split; [done|]. by intros ?%not_elem_of_nil.
  - rewrite elem_of_cons. destruct (String.eqb_spec x s) as [->|Hne].
    + split; auto.
    + rewrite IH. split; [auto|]. intros [->|]; [done|auto].
Qed.

Lemma state_dropped_spec st : state_dropped st = true <-> Spec.dropped st.
Proof.
  unfold state_dropped, Spec.dropped.
  rewrite !orb_true_iff, !Z.eqb_eq. tauto.
Qed.

End FlowFacts.

(* ===================================================================== *)
(** ** The listening ports *)
(* ===================================================================== *)

Module ListeningFacts.
Import Go netlink.

Lemma listening_ports (u : option (gmap Z netutil.UserEnt)) lconns :
  (listening u lconns).1 = map (fun c => Sprintf_d (linux.SrcPort c)) lconns.
Proof.
  unfold listening.
  enough (H : forall acc : list string * gmap string (option netutil.UserEnt),
             (fold_left (fun acc lconn =>
                let sport := Sprintf_d (linux.SrcPort lconn) in
                ((acc.1 ++ [sport])%list,
                 match u with
                 | Some u0 => <[sport := u0 !! linux.Inode lconn]> acc.2
                 | None => acc.2
                 end)) lconns acc).1
             = (acc.1 ++ map (fun c => Sprintf_d (linux.SrcPort c)) lconns)%list).
  { apply (H ([], ∅)). }
  induction lconns as [|c t IH]; intros acc; simpl.
  - by rewrite app_nil_r.
  - rewrite IH. simpl. by rewrite <- app_assoc.
Qed.

Lemma local_bind_eqb addr :
  String.eqb addr "0.0.0.0" || String.eqb addr "127.0.0.1" || String.eqb addr "::"
  = true <-> Spec.local_bind addr.
Proof.
  unfold Spec.local_bind. rewrite !orb_true_iff, !String.eqb_eq. tauto.
Qed.

Lemma procfs_listening_elem conns p :
  p ∈ netutil.FilterByLocalListeningPorts conns <->
  exists c, c ∈ conns /\ netutil.Status c = linux.TCP_LISTEN
            /\ Spec.local_bind (netutil.IP (netutil.Laddr c))
            /\ p = Sprintf_d (netutil.Port (netutil.Laddr c)).
Proof.
  unfold netutil.FilterByLocalListeningPorts.
  rewrite list_elem_of_In, in_flat_map. split.
  - intros (c & Hc & Hp). exists c. apply list_elem_of_In in Hc.
    destruct (Z.eqb_spec (netutil.Status c) linux.TCP_LISTEN) as [Hs|Hs];
      simpl in Hp; [|done].
    destruct (_ || _ || _) eqn:Hb in Hp; [|done].
    apply local_bind_eqb in Hb. destruct Hp as [<-|[]]. done.
  - intros (c & Hc & Hs & Hb & ->). exists c. split; [by apply list_elem_of_In|].
    rewrite Hs. simpl. apply local_bind_eqb in Hb. rewrite Hb. by left.
Qed.

Lemma netlink_listening_elem msgs c :
  c ∈ netutil.NetlinkFilterByLocalListeningPorts msgs <->
  c ∈ msgs /\ linux.State c = linux.TCP_LISTEN
  /\ Spec.local_bind (IP_String (linux.SrcIP c)).
Proof.
  unfold netutil.NetlinkFilterByLocalListeningPorts.
  rewrite list_elem_of_In, in_flat_map. split.
  - intros (c' & Hc & Hp). apply list_elem_of_In in Hc.
    destruct (Z.eqb_spec (linux.State c') linux.TCP_LISTEN) as [Hs|Hs];
      simpl in Hp; [|done].
    destruct (_ || _ || _) eqn:Hb in Hp; [|done].
    apply local_bind_eqb in Hb. destruct Hp as [<-|[]]. done.
  - intros (Hc & Hs & Hb). exists c. split; [by apply list_elem_of_In|].
    rewrite Hs. simpl. apply local_bind_eqb in Hb. rewrite Hb. by left.
Qed.

End ListeningFacts.

(** C9: the listening ports derived on either path are exactly the local
    ports, printed in decimal, of the connections in state LISTEN whose
    local address is "0.0.0.0", "::" or "127.0.0.1". On the procfs path
    [FilterByLocalListeningPorts] returns them; on the netlink path they
    are the ports the first loop of [GetHostFlowsByNetlink] collects from
    the result of [NetlinkFilterByLocalListeningPorts]. *)
Theorem listening_ports_exact
    (conns : list netutil.ConnectionStat) (msgs : list linux.InetDiagMsg)
    (userEnts : option (gmap Z netutil.UserEnt)) (p : string) :
  (p ∈ netutil.FilterByLocalListeningPorts conns <->
   exists c, c ∈ conns /\ netutil.Status c = linux.TCP_LISTEN
             /\ Spec.local_bind (netutil.IP (netutil.Laddr c))
             /\ p = Go.Sprintf_d (netutil.Port (netutil.Laddr c)))
  /\
  (p ∈ (netlink.listening userEnts
          (netutil.NetlinkFilterByLocalListeningPorts msgs)).1 <->
   exists c, c ∈ msgs /\ linux.State c = linux.TCP_LISTEN
             /\ Spec.local_bind (Go.IP_String (linux.SrcIP c))
             /\ p = Go.Sprintf_d (linux.SrcPort c)).
Proof.
  split.
  - apply ListeningFacts.procfs_listening_elem.
  - rewrite ListeningFacts.listening_ports, list_elem_of_fmap.
    split.
    + intros (c & -> & Hc).
      apply ListeningFacts.netlink_listening_elem in Hc as (? & ? & ?).
      eauto 6.
    + intros (c & Hc & Hs & Hb & ->). exists c. split; [done|].
      by apply ListeningFacts.netlink_listening_elem.
Qed.

(* ===================================================================== *)
(** ** The flow builder *)
(* ===================================================================== *)

Module BuilderFacts.
Import Go probe netlink Spec FlowFacts.

Lemma shape_key_shape hf : Spec.shape_key (Spec.shape hf) = UniqKey hf.
Proof. reflexivity. Qed.

Lemma shape_with_Connections hf n :
  Spec.shape (with_Connections hf n) = Spec.shape hf.
Proof. reflexivity. Qed.

Lemma shape_SetLookupedName r hf :
  Spec.shape (SetLookupedName r hf) = resolved r (Spec.shape hf).
Proof. reflexivity. Qed.

Lemma shape_key_of_UniqKey hf0 h :
  UniqKey h = UniqKey hf0 -> Spec.shape h = Spec.shape hf0.
Proof.
  destruct h as [d [la lp] [pa pp] pr n], hf0 as [d' [la' lp'] [pa' pp'] pr' n'].
  unfold UniqKey, Spec.shape; simpl. congruence.
Qed.

Lemma procfs_flow_Some P c hf :
  procfs_flow P c = Some hf <->
  ~ Spec.dropped (netutil.Status c)
  /\ hf = {| Direction := (rule_procfs P c).1.1; Local := (rule_procfs P c).1.2;
             Peer := (rule_procfs P c).2; Process := None; Connections := 0 |}.
Proof.
  unfold procfs_flow, rule_procfs, Spec.classify.
  rewrite <- state_dropped_spec.
  destruct (state_dropped (netutil.Status c)).
  { split; [done|]. intros [H _]. by destruct H. }
  destruct (contains P _) eqn:Hc.
  - apply contains_elem in Hc. rewrite bool_decide_eq_true_2 by done. simpl.
    split; [intros [= <-]; split; [done|reflexivity]|]. by intros [_ ->].
  - rewrite bool_decide_eq_false_2.
    2:{ intros Hin. apply contains_elem in Hin. congruence. }
    simpl. split; [intros [= <-]; split; [done|reflexivity]|]. by intros [_ ->].
Qed.

Lemma netlink_flow_Some X opt u P lp c hf :
  netlink_flow X opt u P lp c = Some hf ->
  ~ Spec.dropped (linux.State c) /\ filtered_out X opt c = false
  /\ Spec.shape hf = rule_netlink P c.
Proof.
  unfold netlink_flow, rule_netlink, Spec.classify.
  rewrite <- state_dropped_spec.
  destruct (state_dropped (linux.State c)); [done|].
  destruct (filtered_out X opt c); [done|].
  destruct (contains P _) eqn:Hc.
  - apply contains_elem in Hc. rewrite bool_decide_eq_true_2 by done.
    intros [= <-]. done.
  - rewrite bool_decide_eq_false_2.
    2:{ intros Hin. apply contains_elem in Hin. congruence. }
    intros [= <-]. done.
Qed.

Lemma netlink_flow_emits X opt u P lp c :
  ~ Spec.dropped (linux.State c) -> filtered_out X opt c = false ->
  exists hf, netlink_flow X opt u P lp c = Some hf.
Proof.
  intros Hs Hf. unfold netlink_flow.
  rewrite <- state_dropped_spec in Hs.
  destruct (state_dropped (linux.State c)); [done|]. rewrite Hf.
  destruct (contains P _); eauto.
Qed.

(** The netlink builder, once its inputs have been read. *)
Lemma GetHostFlowsByNetlink_Ok X w opt flows msgs :
  NetlinkInetDiag w = inr msgs ->
  GetHostFlowsByNetlink X w opt = Ok flows ->
  exists u lp,
    flows = (if Numeric opt then id else fmap (SetLookupedName (ResolveAddr X)))
              (insert_all (netlink_flow X opt u (netlink_ports msgs) lp) msgs).
Proof.
  intros Hd. unfold GetHostFlowsByNetlink.
  destruct (if Processes opt then _ else _) as [u|e|] eqn:Hu;
    simpl; [|done|done].
  rewrite Hd. simpl.
  pose proof (ListeningFacts.listening_ports u
                (netutil.NetlinkFilterByLocalListeningPorts msgs)) as Hp.
  destruct (listening u _) as [ports lp]. simpl in Hp. subst ports.
  intros [= <-]. exists u, lp. unfold netlink_ports. by destruct (Numeric opt).
Qed.

Lemma GetHostFlowsByProcfs_Ok w flows :
  GetHostFlowsByProcfs w = Ok flows ->
  exists conns,
    netutil.ProcfsConnections (ReadFile_tcp w) = Ok conns
    /\ flows = insert_all (procfs_flow (netutil.FilterByLocalListeningPorts conns))
                          conns.
Proof.
  unfold GetHostFlowsByProcfs.
  destruct (netutil.ProcfsConnections _) as [conns|e|]; simpl; [|done|done].
  intros [= <-]. eauto.
Qed.

End BuilderFacts.

Module ClassificationFacts.
Import Go probe netlink Spec FlowFacts BuilderFacts.

(** The flows of the aggregate of the netlink loop. *)
Lemma netlink_aggregate X opt u lp msgs :
  let P := netlink_ports msgs in
  let flows := insert_all (netlink_flow X opt u P lp) msgs in
  (forall c, c ∈ msgs -> ~ Spec.dropped (linux.State c) ->
     filtered_out X opt c = false ->
     exists hf, flows !! Spec.shape_key (rule_netlink P c) = Some hf
                /\ Spec.shape hf = rule_netlink P c)
  /\ (forall k hf, flows !! k = Some hf ->
        exists c, c ∈ msgs /\ ~ Spec.dropped (linux.State c)
                  /\ filtered_out X opt c = false
                  /\ k = Spec.shape_key (rule_netlink P c)
                  /\ Spec.shape hf = rule_netlink P c).
Proof.
  intros P flows. split.
  - intros c Hc Hs Hf.
    destruct (netlink_flow_emits X opt u P lp c Hs Hf) as [hf0 Hb].
    pose proof (netlink_flow_Some _ _ _ _ _ _ _ Hb) as (_ & _ & Hsh).
    destruct (insert_all_emitted _ _ _ _ Hc Hb) as (h & Hl & Hk).
    rewrite <- Hsh, shape_key_shape. eexists. split; [exact Hl|].
    rewrite shape_with_Connections. by apply shape_key_of_UniqKey.
  - intros k hf Hl.
    apply insert_all_Some in Hl as (c & hf0 & Hc & Hb & Hk & ->).
    pose proof (netlink_flow_Some _ _ _ _ _ _ _ Hb) as (Hs & Hf & Hsh).
    exists c. rewrite shape_with_Connections, <- Hsh, shape_key_shape. done.
Qed.

Lemma procfs_aggregate conns :
  let P := netutil.FilterByLocalListeningPorts conns in
  let flows := insert_all (procfs_flow P) conns in
  (forall c, c ∈ conns -> ~ Spec.dropped (netutil.Status c) ->
     exists hf, flows !! Spec.shape_key (rule_procfs P c) = Some hf
                /\ Spec.shape hf = rule_procfs P c)
  /\ (forall k hf, flows !! k = Some hf ->
        exists c, c ∈ conns /\ ~ Spec.dropped (netutil.Status c)
                  /\ k = Spec.shape_key (rule_procfs P c)
                  /\ Spec.shape hf = rule_procfs P c).
Proof.
  intros P flows. split.
  - intros c Hc Hs.
    assert (Hb : procfs_flow P c
                 = Some {| Direction := (rule_procfs P c).1.1;
                           Local := (rule_procfs P c).1.2;
                           Peer := (rule_procfs P c).2;
                           Process := None; Connections := 0 |})
      by (by apply procfs_flow_Some).
    destruct (insert_all_emitted _ _ _ _ Hc Hb) as (h & Hl & Hk).
    eexists. split.
    + replace (Spec.shape_key (rule_procfs P c)) with (UniqKey
        {| Direction := (rule_procfs P c).1.1; Local := (rule_procfs P c).1.2;
           Peer := (rule_procfs P c).2; Process := None; Connections := 0 |});
        [exact Hl|].
      unfold UniqKey, Spec.shape_key. simpl. done.
    + rewrite shape_with_Connections.
      rewrite (shape_key_of_UniqKey _ _ Hk). unfold Spec.shape. simpl.
      by destruct (rule_procfs P c) as [[? ?] ?].
  - intros k hf Hl.
    apply insert_all_Some in Hl as (c & hf0 & Hc & Hb & Hk & ->).
    apply procfs_flow_Some in Hb as [Hs ->].
    exists c. rewrite shape_with_Connections. split; [done|]. split; [done|].
    split.
    + rewrite <- Hk. reflexivity.
    + unfold Spec.shape. simpl. by destruct (rule_procfs P c) as [[? ?] ?].
Qed.

(** The flows [GetHostFlowsByNetlink] returns. *)
Lemma netlink_returned X w opt msgs flows :
  NetlinkInetDiag w = inr msgs ->
  GetHostFlowsByNetlink X w opt = Ok flows ->
  let P := netlink_ports msgs in
  (forall c, c ∈ msgs -> ~ Spec.dropped (linux.State c) ->
     filtered_out X opt c = false ->
     exists hf, flows !! Spec.shape_key (rule_netlink P c) = Some hf
                /\ Spec.shape hf = returned X opt (rule_netlink P c))
  /\ (forall k hf, flows !! k = Some hf ->
        exists c, c ∈ msgs /\ ~ Spec.dropped (linux.State c)
                  /\ filtered_out X opt c = false
                  /\ k = Spec.shape_key (rule_netlink P c)
                  /\ Spec.shape hf = returned X opt (rule_netlink P c)).
Proof.
  intros Hd Hok P. subst P.
  destruct (GetHostFlowsByNetlink_Ok _ _ _ _ _ Hd Hok) as (u & lp & ->).
  destruct (netlink_aggregate X opt u lp msgs) as [Hemit Honly].
  unfold returned. destruct (Numeric opt); simpl.
  - split; [exact Hemit|exact Honly].
  - split.
    + intros c Hc Hs Hf. destruct (Hemit c Hc Hs Hf) as (hf & Hl & Hsh).
      exists (SetLookupedName (ResolveAddr X) hf).
      rewrite lookup_fmap, Hl. split; [done|].
      rewrite shape_SetLookupedName. by rewrite Hsh.
    + intros k hf Hl. rewrite lookup_fmap in Hl.
      apply fmap_Some in Hl as (hf' & Hl & ->).
      destruct (Honly k hf' Hl) as (c & Hc & Hs & Hf & Hk & Hsh).
      exists c. rewrite shape_SetLookupedName, Hsh. done.
Qed.

End ClassificationFacts.

(** C1, amended: on the procfs path every connection whose state is not LISTEN,
    SYN_SENT or SYN_RECV is emitted as the flow of the classification rule
    (passive with local = (local IP, local port) and peer = (remote IP,
    "many") when the local port is a listening port, active with local =
    (local IP, "many") and peer = (remote IP, remote port) otherwise), and
    every flow of the result comes from such a connection. On the netlink
    path the same holds for the connections that the address filter of the
    options does not drop as well; the flows that path returns have been
    through name resolution when numeric mode is off. *)
Theorem flow_builder_classification (X : Extern) (w : netlink.World)
    (opt : netlink.GetHostFlowsOption) :
  (forall conns,
     netutil.ProcfsConnections (netlink.ReadFile_tcp w) = Ok conns ->
     let P := netutil.FilterByLocalListeningPorts conns in
     exists flows, netlink.GetHostFlowsByProcfs w = Ok flows
       /\ (forall c, c ∈ conns -> ~ Spec.dropped (netutil.Status c) ->
             exists hf,
               flows !! Spec.shape_key (Spec.rule_procfs P c) = Some hf
               /\ Spec.shape hf = Spec.rule_procfs P c)
       /\ (forall k hf, flows !! k = Some hf ->
             exists c, c ∈ conns /\ ~ Spec.dropped (netutil.Status c)
                       /\ k = Spec.shape_key (Spec.rule_procfs P c)
                       /\ Spec.shape hf = Spec.rule_procfs P c))
  /\
  (forall msgs flows,
     netlink.NetlinkInetDiag w = inr msgs ->
     netlink.GetHostFlowsByNetlink X w opt = Ok flows ->
     let P := Spec.netlink_ports msgs in
     (forall c, c ∈ msgs -> ~ Spec.dropped (linux.State c) ->
        netlink.filtered_out X opt c = false ->
        exists hf,
          flows !! Spec.shape_key (Spec.rule_netlink P c) = Some hf
          /\ Spec.shape hf
             = Spec.returned X opt (Spec.rule_netlink P c))
     /\ (forall k hf, flows !! k = Some hf ->
           exists c, c ∈ msgs /\ ~ Spec.dropped (linux.State c)
                     /\ netlink.filtered_out X opt c = false
                     /\ k = Spec.shape_key (Spec.rule_netlink P c)
                     /\ Spec.shape hf
                        = Spec.returned X opt
                            (Spec.rule_netlink P c))).
Proof.
  split.
  - intros conns Hconns P.
    exists (netlink.insert_all (netlink.procfs_flow P) conns). split.
    + unfold netlink.GetHostFlowsByProcfs. rewrite Hconns. reflexivity.
    + apply ClassificationFacts.procfs_aggregate.
  - intros msgs flows Hd Hok.
    exact (ClassificationFacts.netlink_returned X w opt msgs flows Hd Hok).
Qed.

Lemma flow_builder_classification_witness :
  (exists flows, netlink.GetHostFlowsByProcfs Samples.world = Ok flows
     /\ exists hf,
          flows !! (probe.FlowActive, ("10.0.10.1", "many"), ("10.0.10.2", "5432"))
          = Some hf
          /\ Spec.shape hf
             = (probe.FlowActive,
                {| probe.Addr := "10.0.10.1"; probe.Port := "many" |},
                {| probe.Addr := "10.0.10.2"; probe.Port := "5432" |}))
  /\ (exists flows,
        netlink.GetHostFlowsByNetlink Samples.extern Samples.world
          (Samples.opt true true "all") = Ok flows
        /\ exists hf,
             flows !! (probe.FlowPassive, ("10.0.10.1", "80"), ("10.0.10.2", "many"))
             = Some hf
             /\ Spec.shape hf
                = (probe.FlowPassive,
                   {| probe.Addr := "10.0.10.1"; probe.Port := "80" |},
                   {| probe.Addr := "10.0.10.2"; probe.Port := "many" |})).
Proof.
  destruct (flow_builder_classification Samples.extern Samples.world
              (Samples.opt true true "all")) as [HP HN].
  split.
  - destruct (HP Samples.stats) as (flows & Hok & Hemit & _).
    { vm_compute. reflexivity. }
    exists flows. split; [exact Hok|].
    destruct (Hemit (Spec.stat_of_diag Samples.outgoing)) as (hf & Hl & Hsh).
    { unfold Samples.stats, Samples.conns. simpl. repeat constructor. }
    { unfold Spec.dropped. vm_compute. intros [H|[H|H]]; discriminate H. }
    exists hf. split; [exact Hl|exact Hsh].
  - eexists. split; [reflexivity|].
    pose proof (HN Samples.conns _ eq_refl eq_refl) as [Hemit _].
    destruct (Hemit Samples.accepted) as (hf & Hl & Hsh).
    { unfold Samples.conns. repeat constructor. }
    { unfold Spec.dropped. vm_compute. intros [H|[H|H]]; discriminate H. }
    { reflexivity. }
    exists hf. split; [exact Hl|exact Hsh].
Defined.

(** C1 as stated fails on the netlink path: with the filter "public" an
    established connection to a private address yields no flow at all. *)
Lemma netlink_filter_drops_established :
  netlink.NetlinkInetDiag Samples.world = inr Samples.conns
  /\ Samples.outgoing ∈ Samples.conns
  /\ linux.State Samples.outgoing = linux.TCP_ESTABLISHED
  /\ netlink.GetHostFlowsByNetlink Samples.extern Samples.world
       (Samples.opt true false "public") = Ok ∅.
Proof.
  split; [reflexivity|]. split; [unfold Samples.conns; repeat constructor|].
  split; [reflexivity|]. apply FlowFacts.flows_of_nil. vm_compute. reflexivity.
Qed.

Module ManyFacts.
Import Go probe netlink Spec BuilderFacts.

Lemma classify_one_many P lip lport rip rport :
  one_many (Spec.classify P lip lport rip rport).
Proof.
  unfold one_many, Spec.classify.
  destruct (bool_decide _); simpl.
  - right. split; [apply GoFacts.Sprintf_d_not_many|done].
  - left. split; [done|apply GoFacts.Sprintf_d_not_many].
Qed.

Lemma returned_one_many X opt sh : one_many sh -> one_many (returned X opt sh).
Proof. unfold returned. by destruct (Numeric opt). Qed.

Lemma GetHostFlowsByNetlink_diag X w opt flows :
  GetHostFlowsByNetlink X w opt = Ok flows ->
  exists msgs, NetlinkInetDiag w = inr msgs.
Proof.
  unfold GetHostFlowsByNetlink.
  destruct (if Processes opt then _ else _); simpl; [|done|done].
  destruct (NetlinkInetDiag w); simpl; [done|eauto].
Qed.

Lemma GetHostFlows_Ok X w opt flows :
  GetHostFlows X w opt = Ok flows ->
  GetHostFlowsByNetlink X w opt = Ok flows \/ GetHostFlowsByProcfs w = Ok flows.
Proof.
  unfold GetHostFlows.
  destruct (GetHostFlowsByNetlink X w opt) as [f|e|]; [by left| |done].
  destruct (As_NetlinkError e); [by right|done].
Qed.

End ManyFacts.

(** C4: every host flow the flow builder returns, on the netlink path, on
    the procfs path and through [GetHostFlows], has exactly one of its
    local port and its peer port equal to "many". *)
Theorem exactly_one_many (X : Extern) (w : netlink.World)
    (opt : netlink.GetHostFlowsOption)
    (flows : gmap probe.key probe.HostFlow) (k : probe.key)
    (hf : probe.HostFlow) :
  netlink.GetHostFlowsByNetlink X w opt = Ok flows
  \/ netlink.GetHostFlowsByProcfs w = Ok flows
  \/ netlink.GetHostFlows X w opt = Ok flows ->
  flows !! k = Some hf ->
  (probe.Port (probe.Local hf) = "many" /\ probe.Port (probe.Peer hf) <> "many")
  \/ (probe.Port (probe.Local hf) <> "many" /\ probe.Port (probe.Peer hf) = "many").
Proof.
  intros Hflows Hl.
  assert (Hcases : netlink.GetHostFlowsByNetlink X w opt = Ok flows
                   \/ netlink.GetHostFlowsByProcfs w = Ok flows).
  { destruct Hflows as [H|[H|H]]; [by left|by right|].
    by apply ManyFacts.GetHostFlows_Ok. }
  change (Spec.one_many (Spec.shape hf)).
  destruct Hcases as [Hn|Hp].
  - destruct (ManyFacts.GetHostFlowsByNetlink_diag _ _ _ _ Hn) as [msgs Hd].
    destruct (ClassificationFacts.netlink_returned X w opt msgs flows Hd Hn)
      as [_ Honly].
    destruct (Honly k hf Hl) as (c & _ & _ & _ & _ & ->).
    apply ManyFacts.returned_one_many, ManyFacts.classify_one_many.
  - apply BuilderFacts.GetHostFlowsByProcfs_Ok in Hp as (conns & Hc & ->).
    destruct (ClassificationFacts.procfs_aggregate conns) as [_ Honly].
    destruct (Honly k hf Hl) as (c & _ & _ & _ & ->).
    apply ManyFacts.classify_one_many.
Qed.

Lemma exactly_one_many_witness :
  exists flows hf,
    netlink.GetHostFlows Samples.extern Samples.world_no_netlink
      (Samples.opt true true "all") = Ok flows
    /\ flows !! (probe.FlowPassive, ("10.0.10.1", "80"), ("10.0.10.2", "many"))
       = Some hf
    /\ ((probe.Port (probe.Local hf) = "many"
         /\ probe.Port (probe.Peer hf) <> "many")
        \/ (probe.Port (probe.Local hf) <> "many"
            /\ probe.Port (probe.Peer hf) = "many")).
Proof.
  eexists. eexists. split; [reflexivity|].
  split.
  - vm_compute. reflexivity.
  - eapply (exactly_one_many Samples.extern Samples.world_no_netlink
              (Samples.opt true true "all") _
              (probe.FlowPassive, ("10.0.10.1", "80"), ("10.0.10.2", "many"))).
    + right. right. reflexivity.
    + vm_compute. reflexivity.
Defined.

(* ===================================================================== *)
(** ** The process attributor *)
(* ===================================================================== *)

Module AttributorFacts.
Import Go netutil.

Lemma prefix_of_spec p : forall s,
  prefix_of p s = true <-> exists post, s = p +:+ post.
Proof.
  induction p as [|a p IH]; intros s; simpl.
  - split; [eauto|done].
  - destruct s as [|b s].
    + split; [done|]. intros [post H]. discriminate H.
    + rewrite andb_true_iff, IH. split.
      * intros [Hab [post ->]]. apply Ascii.eqb_eq in Hab as ->. eauto.
      * intros [post [= -> ->]]. split; [apply Ascii.eqb_refl|eauto].
Qed.

Lemma Index_range s sub : Index s sub = -1 \/ 0 <= Index s sub.
Proof.
  induction s as [|c s IH]; simpl.
  - destruct (prefix_of sub ""); lia.
  - destruct (prefix_of sub (String c s)); [lia|].
    destruct (Index s sub =? -1) eqn:E; lia.
Qed.

(** [strings.Index] returns -1 exactly when the substring does not occur. *)
Lemma Index_absent sub : forall s,
  Index s sub = -1 <-> ~ Spec.has_substring sub s.
Proof.
  unfold Spec.has_substring.
  induction s as [|c s IH].
  - simpl. destruct (prefix_of sub "") eqn:Hp.
    + split; [done|]. intros H. destruct H. exists "".
      apply prefix_of_spec in Hp as [post Hp]. eauto.
    + split; [|done]. intros _ (pre & post & H).
      destruct pre; [|discriminate H]. simpl in H.
      assert (prefix_of sub "" = true) by (apply prefix_of_spec; eauto).
      congruence.
  - cbn [Index]. destruct (prefix_of sub (String c s)) eqn:Hp.
    + split; [done|]. intros H. destruct H. exists "".
      apply prefix_of_spec in Hp as [post Hp]. eauto.
    + destruct (Z.eqb_spec (Index s sub) (-1)) as [E|E].
      * split; [|done]. intros _ (pre & post & H).
        destruct pre as [|a pre]; simpl in H.
        -- assert (prefix_of sub (String c s) = true)
             by (apply prefix_of_spec; eauto). congruence.
        -- injection H as -> ->. apply IH in E. apply E. eauto.
      * split; [destruct (Index_range s sub); lia|].
        intros H. exfalso. apply E, IH. intros (pre & post & ->).
        apply H. exists (String c pre), post. reflexivity.
Qed.

Section facts.
Variable X : Extern.

Lemma parseSocketInode_no_socket lnk :
  ~ Spec.has_substring socketPrefix lnk -> parseSocketInode X lnk = Ok 0.
Proof.
  intros H. apply Index_absent in H. unfold parseSocketInode.
  rewrite H. reflexivity.
Qed.

Lemma for_each_app {A S} (body : S -> A -> outcome S) l1 l2 : forall s,
  for_each body s (l1 ++ l2)%list
  = (s' ← for_each body s l1; for_each body s' l2).
Proof.
  induction l1 as [|a l1 IH]; intros s; simpl; [done|].
  destruct (body s a) as [s'| |]; simpl; [apply IH|done|done].
Qed.

(** A step that leaves the state as it is may as well be absent. *)
Lemma for_each_skip {A S} (body : S -> A -> outcome S) l1 a l2 s :
  (forall s', body s' a = Ok s') ->
  for_each body s (l1 ++ a :: l2)%list = for_each body s (l1 ++ l2)%list.
Proof.
  intros Hskip. rewrite !for_each_app.
  destruct (for_each body s l1) as [s'| |]; simpl; [|done|done].
  by rewrite Hskip.
Qed.

(** The first error of a step is the error of the loop. *)
Lemma for_each_fatal {A S} (body : S -> A -> outcome S) l1 a l2 s s' e :
  for_each body s l1 = Ok s' -> body s' a = Err e ->
  for_each body s (l1 ++ a :: l2)%list = Err e.
Proof.
  intros H1 Ha. rewrite for_each_app, H1. simpl. by rewrite Ha.
Qed.

Lemma for_each_Err {A S} (body : S -> A -> outcome S) l : forall s e,
  for_each body s l = Err e -> exists s' a, a ∈ l /\ body s' a = Err e.
Proof.
  induction l as [|a l IH]; intros s e; simpl; [done|].
  destruct (body s a) as [s'|e'|] eqn:Ha; simpl; [|intros [= ->]|done].
  - intros H. destruct (IH _ _ H) as (s'' & b & Hb & He).
    exists s'', b. split; [by right|done].
  - exists s, a. split; [by left|done].
Qed.

(** No error of the attributor is a netlink error. *)
Lemma parseSocketInode_Err lnk e :
  parseSocketInode X lnk = Err e -> As_NetlinkError e = false.
Proof.
  unfold parseSocketInode. destruct (Index lnk socketPrefix =? -1); [done|].
  destruct (Sscanf_socket X lnk) as [[ino n] [err|]].
  - by intros [= <-].
  - destruct (negb (n =? 1)); [by intros [= <-]|done].
Qed.

Lemma parseProcStat_Err file e :
  parseProcStat X file = Err e -> As_NetlinkError e = false.
Proof.
  unfold parseProcStat. destruct file as [e0|text]; [by intros [= <-]|].
  destruct (Fscan_stat X text) as [e0|[[comm pp] pg]]; [by intros [= <-]|].
  destruct (Sscanf_comm X comm) as [pn [err|]]; [|done].
  destruct (bool_decide _); [done|by intros [= <-]].
Qed.

Lemma scan_fd_Err pid file acc d2 e :
  scan_fd X pid file acc d2 = Err e -> As_NetlinkError e = false.
Proof.
  unfold scan_fd. destruct acc as [stat s].
  destruct (Atoi (fd_Name d2)) as [fd [err|]]; [done|].
  destruct (Readlink d2) as [e0|lnk].
  { destruct (errno_of e0) as [n|]; [|done].
    destruct (n =? ENOENT); [done|by intros [= <-]]. }
  destruct (parseSocketInode X lnk) as [ino|e0|] eqn:Hp; simpl; [| |done].
  2:{ intros [= <-]. by apply parseSocketInode_Err in Hp. }
  destruct (ino =? 0); [done|].
  destruct stat as [st|]; simpl; [done|].
  destruct (parseProcStat X file) as [st|e0|] eqn:Hs; simpl; [done| |done].
  intros [= <-]. by apply parseProcStat_Err in Hs.
Qed.

Lemma scan_pid_Err self s d e :
  scan_pid X self s d = Err e -> As_NetlinkError e = false.
Proof.
  unfold scan_pid. destruct (negb (IsDir d)); [done|].
  destruct (Atoi (Name d)) as [pid [err|]]; [done|].
  destruct (pid =? self); [done|].
  destruct (Stat_fd d) as [e0|[|]]; [by intros [= <-]| |done].
  destruct (ReadDir_fd d) as [e0|dir2].
  { destruct (errno_of e0) as [n|]; [|done].
    destruct (n =? EACCES); [done|by intros [= <-]]. }
  destruct (for_each _ _ dir2) as [r|e0|] eqn:Hf; simpl; [done| |done].
  intros [= <-]. apply for_each_Err in Hf as (s' & a & _ & Ha).
  by apply scan_fd_Err in Ha.
Qed.

Lemma BuildUserEntries_Err root self e :
  BuildUserEntries X root self = Err e -> As_NetlinkError e = false.
Proof.
  unfold BuildUserEntries, BuildUserEntries_log.
  destruct root as [e0|dir]; simpl; [by intros [= <-]|].
  destruct (for_each _ _ dir) as [r|e0|] eqn:Hf; simpl; [done| |done].
  intros [= <-]. apply for_each_Err in Hf as (s' & a & _ & Ha).
  by apply scan_pid_Err in Ha.
Qed.

End facts.

End AttributorFacts.

(* ===================================================================== *)
(** ** The fallback from netlink to procfs *)
(* ===================================================================== *)

(** C3: [GetHostFlows] returns the result of the procfs path exactly when
    the netlink path fails with an error in which [xerrors.As] finds a
    [NetlinkError]; it returns every other error, and every success, of
    the netlink path as it is. [NetlinkConnections] turns any failure of the
    netlink request into such an error, so a failed request leads to the
    procfs path whenever the attributor did not fail first; an error of
    [BuildUserEntries] never matches and is returned unchanged. *)
Theorem GetHostFlows_fallback (X : Extern) (w : netlink.World)
    (opt : netlink.GetHostFlowsOption) :
  (forall err, netlink.GetHostFlowsByNetlink X w opt = Err err ->
     netlink.GetHostFlows X w opt
     = if As_NetlinkError err then netlink.GetHostFlowsByProcfs w else Err err)
  /\ (forall flows, netlink.GetHostFlowsByNetlink X w opt = Ok flows ->
        netlink.GetHostFlows X w opt = Ok flows)
  /\ (forall e, exists err,
        netutil.NetlinkConnections (inl e) = Err err
        /\ As_NetlinkError err = true)
  /\ (forall e, netlink.NetlinkInetDiag w = inl e ->
        netlink.Processes opt = false
        \/ is_Ok (netutil.BuildUserEntries X (netlink.ReadDir_root w)
                    (netlink.Getpid w)) = true ->
        netlink.GetHostFlows X w opt = netlink.GetHostFlowsByProcfs w)
  /\ (forall err, netlink.Processes opt = true ->
        netutil.BuildUserEntries X (netlink.ReadDir_root w) (netlink.Getpid w)
        = Err err ->
        As_NetlinkError err = false
        /\ netlink.GetHostFlowsByNetlink X w opt = Err err
        /\ netlink.GetHostFlows X w opt = Err err).
Proof.
  split; [|split; [|split; [|split]]].
  - intros err H. unfold netlink.GetHostFlows. by rewrite H.
  - intros flows H. unfold netlink.GetHostFlows. by rewrite H.
  - intros e. eexists. split; reflexivity.
  - intros e Hd Hu.
    assert (Hn : netlink.GetHostFlowsByNetlink X w opt
                 = Err (Wrapped "NetlinkInetDiag" (NetlinkError ""))).
    { unfold netlink.GetHostFlowsByNetlink. rewrite Hd.
      destruct (netlink.Processes opt); [|reflexivity].
      destruct Hu as [Hu|Hu]; [done|].
      by destruct (netutil.BuildUserEntries X _ _). }
    unfold netlink.GetHostFlows. by rewrite Hn.
  - intros err Hp Hb.
    pose proof (AttributorFacts.BuildUserEntries_Err X _ _ _ Hb) as Has.
    assert (Hn : netlink.GetHostFlowsByNetlink X w opt = Err err).
    { unfold netlink.GetHostFlowsByNetlink. by rewrite Hp, Hb. }
    split; [done|]. split; [done|].
    unfold netlink.GetHostFlows. by rewrite Hn, Has.
Qed.

Lemma GetHostFlows_fallback_witness :
  netlink.GetHostFlows Samples.extern Samples.world_no_netlink
    (Samples.opt true true "all")
  = netlink.GetHostFlowsByProcfs Samples.world_no_netlink
  /\ netlink.GetHostFlows Samples.extern Samples.world_proc_denied
       (Samples.opt true true "all")
     = Err (OsError (PathError "open" "/proc" (Errno EACCES))).
Proof.
  split.
  - destruct (GetHostFlows_fallback Samples.extern Samples.world_no_netlink
                (Samples.opt true true "all")) as (_ & _ & _ & H & _).
    apply (H (Errno 1)); [reflexivity|]. right. vm_compute. reflexivity.
  - destruct (GetHostFlows_fallback Samples.extern Samples.world_proc_denied
                (Samples.opt true true "all")) as (_ & _ & _ & _ & H).
    apply H; reflexivity.
Defined.

(* ===================================================================== *)
(** ** Errors while walking /proc *)
(* ===================================================================== *)

(** C6, amended: for a directory entry of /proc that names a PID other than
    the probe's own,
      - when reading its fd directory fails with EACCES the PID is skipped
        silently (the walk goes on as if the entry were absent);
      - when reading the symlink of an fd fails with ENOENT that fd is
        skipped silently;
      - every other error is fatal, [BuildUserEntries] returns an error:
        any failure of the stat of the fd directory (ENOENT and EACCES
        included), any other errno while reading the fd directory, and an
        error in the scan of one of its fds, which is any other errno
        while reading a symlink, a link [parseSocketInode] rejects, and a
        stat file that [parseProcStat] cannot read when a first socket is
        found. *)
Theorem BuildUserEntries_error_policy (X : Extern) (self pid : Z)
    (d : netutil.DirEnt) :
  netutil.IsDir d = true -> Go.Atoi (netutil.Name d) = (pid, None) ->
  pid <> self ->
  (forall e pre post,
     netutil.Stat_fd d = inr true -> netutil.ReadDir_fd d = inl e ->
     netutil.errno_of e = Some EACCES ->
     netutil.BuildUserEntries_log X (inr (pre ++ d :: post)%list) self
     = netutil.BuildUserEntries_log X (inr (pre ++ post)%list) self)
  /\ (forall e d2 file acc,
        netutil.Readlink d2 = inl e -> netutil.errno_of e = Some ENOENT ->
        netutil.scan_fd X pid file acc d2 = Ok acc)
  /\ (forall s pre post,
        netutil.BuildUserEntries_log X (inr pre) self = Ok s ->
        (exists e, netutil.Stat_fd d = inl e)
        \/ (netutil.Stat_fd d = inr true
            /\ exists e n, netutil.ReadDir_fd d = inl e
                           /\ netutil.errno_of e = Some n /\ n <> EACCES)
        \/ (netutil.Stat_fd d = inr true
            /\ exists fds fpre d2 fpost acc,
                 netutil.ReadDir_fd d = inr fds
                 /\ fds = (fpre ++ d2 :: fpost)%list
                 /\ netutil.for_each (netutil.scan_fd X pid (netutil.Open_stat d))
                      (None, s) fpre = Ok acc
                 /\ is_Err (netutil.scan_fd X pid (netutil.Open_stat d) acc d2)
                    = true) ->
        is_Err (netutil.BuildUserEntries X (inr (pre ++ d :: post)%list) self)
        = true)
  /\ (forall file acc d2 fd,
        Go.Atoi (netutil.fd_Name d2) = (fd, None) ->
        (exists e n, netutil.Readlink d2 = inl e
                     /\ netutil.errno_of e = Some n /\ n <> ENOENT)
        \/ (exists lnk, netutil.Readlink d2 = inr lnk
                        /\ is_Err (netutil.parseSocketInode X lnk) = true)
        \/ (exists lnk ino, netutil.Readlink d2 = inr lnk
                            /\ netutil.parseSocketInode X lnk = Ok ino
                            /\ ino <> 0 /\ acc.1 = None
                            /\ is_Err (netutil.parseProcStat X file) = true) ->
        is_Err (netutil.scan_fd X pid file acc d2) = true).
Proof.
  intros HisDir Hpid Hself.
  assert (Hne : (pid =? self) = false) by by apply Z.eqb_neq.
  split; [|split; [|split]].
  - intros e pre post Hst Hrd He.
    unfold netutil.BuildUserEntries_log.
    apply AttributorFacts.for_each_skip. intros s'.
    unfold netutil.scan_pid. by rewrite HisDir, Hpid, Hne, Hst, Hrd, He.
  - intros e d2 file [stat s] Hrl He. unfold netutil.scan_fd.
    destruct (Go.Atoi (netutil.fd_Name d2)) as [fd [err|]]; [done|].
    by rewrite Hrl, He.
  - intros s pre post Hpre Hcases.
    assert (Hd : is_Err (netutil.scan_pid X self s d) = true).
    { unfold netutil.scan_pid. rewrite HisDir, Hpid, Hne. cbn [negb].
      destruct Hcases as [[e Hst]|[(Hst & e & n & Hrd & He & Hn)
        |(Hst & fds & fpre & d2 & fpost & acc & Hrd & -> & Hfpre & Herr)]].
      - by rewrite Hst.
      - rewrite Hst, Hrd, He. by destruct (Z.eqb_spec n EACCES).
      - rewrite Hst, Hrd, AttributorFacts.for_each_app, Hfpre.
        cbn [mbind outcome_bind netutil.for_each].
        by destruct (netutil.scan_fd X pid _ acc d2). }
    destruct (netutil.scan_pid X self s d) as [|e|] eqn:E; try done.
    unfold netutil.BuildUserEntries, netutil.BuildUserEntries_log in *.
    by rewrite (AttributorFacts.for_each_fatal _ _ _ _ _ _ _ Hpre E).
  - intros file [stat s] d2 fd Hfd Hcases. unfold netutil.scan_fd.
    rewrite Hfd.
    destruct Hcases as [(e & n & Hrl & He & Hn)|[(lnk & Hrl & Herr)
      |(lnk & ino & Hrl & Hino & Hnz & Hstat & Herr)]].
    + rewrite Hrl, He. by destruct (Z.eqb_spec n ENOENT).
    + rewrite Hrl. by destruct (netutil.parseSocketInode X lnk).
    + rewrite Hrl, Hino. simpl in *. subst stat.
      destruct (Z.eqb_spec ino 0); [done|].
      by destruct (netutil.parseProcStat X file).
Qed.

Lemma BuildUserEntries_error_policy_witness :
  netutil.BuildUserEntries_log Samples.extern
    (inr (Samples.proc_root ++ [Samples.denied])%list) 999
  = netutil.BuildUserEntries_log Samples.extern
      (inr (Samples.proc_root ++ [])%list) 999
  /\ is_Err (netutil.BuildUserEntries Samples.extern
               (inr (Samples.proc_root ++ [Samples.vanished_after_stat])%list)
               999) = true.
Proof.
  split.
  - destruct (BuildUserEntries_error_policy Samples.extern 999 1 Samples.denied)
      as (H & _); [reflexivity|reflexivity|lia|].
    apply (H (PathError "open" "/proc/1/fd" (Errno EACCES))); reflexivity.
  - destruct (BuildUserEntries_error_policy Samples.extern 999 1005
                Samples.vanished_after_stat)
      as (_ & _ & H & _); [reflexivity|reflexivity|lia|].
    eapply (H _ Samples.proc_root []); [vm_compute; reflexivity|].
    right. left. split; [reflexivity|].
    exists (PathError "open" "/proc/1005/fd" (Errno ENOENT)), ENOENT.
    split; [reflexivity|]. split; [reflexivity|]. unfold ENOENT, EACCES. lia.
Defined.

(** C6 as stated fails for a PID that disappears: whether it is gone when
    its fd directory is looked up or when that directory is read, the
    walk that succeeds without the entry returns an error with it. *)
Lemma vanished_pid_is_fatal :
  is_Ok (netutil.BuildUserEntries Samples.extern (inr Samples.proc_root) 999)
  = true
  /\ netutil.BuildUserEntries Samples.extern
       (inr (Samples.proc_root ++ [Samples.vanished])%list) 999
     = Err (ErrorString "stat")
  /\ netutil.BuildUserEntries Samples.extern
       (inr (Samples.proc_root ++ [Samples.vanished_after_stat])%list) 999
     = Err (ErrorString "readdir").
Proof. repeat split; vm_compute; reflexivity. Qed.

(* ===================================================================== *)
(** ** File descriptors that are not sockets *)
(* ===================================================================== *)

(** C10: [parseSocketInode] returns inode 0 and no error for every link
    target in which "socket:[" does not occur; [BuildUserEntries] skips an
    fd whose inode is 0, leaving the map, the cached stat and the log of
    stat files read as they are; so a PID all of whose fds are such links
    leaves the map and that log unchanged, and the walk goes on as if the
    PID were absent, whatever its stat file holds. *)
Theorem non_socket_fds_ignored (X : Extern) (self : Z) (d : netutil.DirEnt)
    (fds : list netutil.FdEnt) :
  (forall lnk, ~ Spec.has_substring "socket:[" lnk ->
     netutil.parseSocketInode X lnk = Ok 0)
  /\ (forall pid file acc d2 lnk,
        netutil.Readlink d2 = inr lnk ->
        netutil.parseSocketInode X lnk = Ok 0 ->
        netutil.scan_fd X pid file acc d2 = Ok acc)
  /\ ((exists b, netutil.Stat_fd d = inr b) ->
      netutil.ReadDir_fd d = inr fds ->
      Forall (fun d2 => exists lnk, netutil.Readlink d2 = inr lnk
                         /\ ~ Spec.has_substring "socket:[" lnk) fds ->
      (forall s, netutil.scan_pid X self s d = Ok s)
      /\ (forall pre post,
            netutil.BuildUserEntries_log X (inr (pre ++ d :: post)%list) self
            = netutil.BuildUserEntries_log X (inr (pre ++ post)%list) self)).
Proof.
  assert (Hfd : forall pid file acc d2 lnk,
            netutil.Readlink d2 = inr lnk ->
            netutil.parseSocketInode X lnk = Ok 0 ->
            netutil.scan_fd X pid file acc d2 = Ok acc).
  { intros pid file [stat s] d2 lnk Hrl Hino. unfold netutil.scan_fd.
    destruct (Go.Atoi (netutil.fd_Name d2)) as [fd [err|]]; [done|].
    by rewrite Hrl, Hino. }
  split; [apply AttributorFacts.parseSocketInode_no_socket|].
  split; [exact Hfd|].
  intros [b Hst] Hrd Hall.
  assert (Hpid : forall s, netutil.scan_pid X self s d = Ok s).
  { intros s. unfold netutil.scan_pid.
    destruct (negb (netutil.IsDir d)); [done|].
    destruct (Go.Atoi (netutil.Name d)) as [pid [err|]]; [done|].
    destruct (pid =? self); [done|].
    rewrite Hst. destruct b; [|done]. rewrite Hrd.
    assert (Hloop : forall acc,
              netutil.for_each (netutil.scan_fd X pid (netutil.Open_stat d))
                acc fds = Ok acc).
    { clear Hrd. induction Hall as [|d2 fds' (lnk & Hrl & Hno) _ IH];
        intros acc; simpl; [done|].
      rewrite (Hfd _ _ _ _ _ Hrl
                 (AttributorFacts.parseSocketInode_no_socket X lnk Hno)).
      apply IH. }
    by rewrite Hloop. }
  split; [exact Hpid|].
  intros pre post. unfold netutil.BuildUserEntries_log.
  by apply AttributorFacts.for_each_skip.
Qed.

Lemma non_socket_fds_ignored_witness :
  netutil.scan_pid Samples.extern 999
    {| netutil.userEnts := ∅; netutil.stat_reads := [] |} Samples.shell
  = Ok {| netutil.userEnts := ∅; netutil.stat_reads := [] |}
  /\ netutil.BuildUserEntries_log Samples.extern
       (inr ([Samples.denied] ++ Samples.shell :: [Samples.vanished])%list) 999
     = netutil.BuildUserEntries_log Samples.extern
         (inr ([Samples.denied] ++ [Samples.vanished])%list) 999.
Proof.
  destruct (non_socket_fds_ignored Samples.extern 999 Samples.shell
              [Samples.fdent "0" "/dev/pts/0"; Samples.fdent "1" "/dev/pts/0"])
    as (_ & _ & H).
  destruct H as [H1 H2].
  - exists true. reflexivity.
  - reflexivity.
  - repeat constructor; exists "/dev/pts/0"; (split; [reflexivity|]);
      apply AttributorFacts.Index_absent; vm_compute; reflexivity.
  - split; [apply H1|apply H2].
Defined.

(* ===================================================================== *)
(** ** Lines of /proc/net/tcp *)
(* ===================================================================== *)

Module ProcfsFacts.
Import Go netutil.

(** A line with fewer than ten fields is skipped. *)
Lemma parse_line_short line :
  (length (Fields line) < 10)%nat -> parse_line line = None.
Proof.
  intros H. unfold parse_line.
  destruct (Z.ltb_spec (Z.of_nat (length (Fields line))) 10); [done|lia].
Qed.

(** A line whose local or remote address does not decode is skipped. *)
Lemma parse_line_bad_address line :
  is_Ok (decodeAddress (nth 1 (Fields line) "")) = false
  \/ is_Ok (decodeAddress (nth 2 (Fields line) "")) = false ->
  parse_line line = None.
Proof.
  intros H. unfold parse_line.
  destruct (_ <? 10); [done|].
  destruct (ParseUint _ 16 8) as [status err].
  destruct (decodeAddress (nth 1 _ _)); simpl in H;
    [|done|done].
  destruct (decodeAddress (nth 2 _ _)); simpl in H; [|done|done].
  by destruct H.
Qed.

(** No line makes [ProcfsConnections] fail once the file has been read. *)
Lemma ProcfsConnections_total body :
  ProcfsConnections (inr body) = Ok (omap parse_line (body_lines body)).
Proof. reflexivity. Qed.

(** A line with ten fields and two addresses that decode is kept, with
    whatever [ParseUint] returned for its state field. *)
Lemma parse_line_kept line la ra :
  (10 <= length (Fields line))%nat ->
  decodeAddress (nth 1 (Fields line) "") = Ok la ->
  decodeAddress (nth 2 (Fields line) "") = Ok ra ->
  parse_line line
  = Some {| Laddr := la; Raddr := ra;
            Status := (ParseUint (nth 3 (Fields line) "") 16 8).1 |}.
Proof.
  intros Hlen Hla Hra. unfold parse_line.
  destruct (Z.ltb_spec (Z.of_nat (length (Fields line))) 10); [lia|].
  destruct (ParseUint _ 16 8) as [status err]. by rewrite Hla, Hra.
Qed.

End ProcfsFacts.

(** C7, at the failing input: a line of /proc/net/tcp whose state field
    does not parse is not skipped. [ProcfsConnections] keeps it as a
    connection in state 0, and [GetHostFlowsByProcfs] emits a flow for
    it. *)
Theorem unparseable_state_line_is_kept :
  Go.ParseUint "ZZ" 16 8 = (0, Some Go.ErrSyntax)
  /\ netutil.ProcfsConnections (inr Samples.proc_net_tcp_bad_state)
     = Ok [ {| netutil.Laddr := {| netutil.IP := "10.0.10.1"; netutil.Port := 54321 |};
               netutil.Raddr := {| netutil.IP := "10.0.10.2"; netutil.Port := 5432 |};
               netutil.Status := 0 |} ]
  /\ Spec.flows_of
       (netlink.GetHostFlowsByProcfs
          {| netlink.ReadDir_root := inr []; netlink.Getpid := 999;
             netlink.NetlinkInetDiag := inl (Errno 1);
             netlink.ReadFile_tcp := inr Samples.proc_net_tcp_bad_state |})
     = Some [ {| probe.Direction := probe.FlowActive;
                 probe.Local := {| probe.Addr := "10.0.10.1"; probe.Port := "many" |};
                 probe.Peer := {| probe.Addr := "10.0.10.2"; probe.Port := "5432" |};
                 probe.Process := None; probe.Connections := 1 |} ].
Proof. repeat split; vm_compute; reflexivity. Qed.

(* ===================================================================== *)
(** ** Decoding the addresses of /proc/net/tcp *)
(* ===================================================================== *)

Module DecodeFacts.
Import Go netutil Checks.

(** Checking a boolean property on every number below a bound. *)
Lemma range_forallb (P : Z -> bool) (n : nat) :
  forallb P (map Z.of_nat (seq 0 n)) = true ->
  forall v, 0 <= v < Z.of_nat n -> P v = true.
Proof.
  intros H v Hv. rewrite forallb_forall in H. apply H.
  apply in_map_iff. exists (Z.to_nat v). split; [lia|].
  apply in_seq. lia.
Qed.

Lemma hex_digit_facts k : 0 <= k < 16 ->
  (byte_of (Spec.hex_upper k) =? 95) = false
  /\ Ascii.eqb (Spec.hex_upper k) ":" = false
  /\ digit_val (byte_of (Spec.hex_upper k)) = Some k
  /\ fromHexChar (byte_of (Spec.hex_upper k)) = Some k.
Proof.
  intros Hk.
  assert (H : hex_digit_ok k = true).
  { apply (range_forallb hex_digit_ok 16); [vm_compute; reflexivity|lia]. }
  unfold hex_digit_ok in H. cbv zeta in H.
  apply andb_true_iff in H as [H H4]. apply andb_true_iff in H as [H H3].
  apply andb_true_iff in H as [H1 H2].
  apply negb_true_iff in H1, H2.
  destruct (digit_val _) as [d|]; [|done].
  destruct (fromHexChar _) as [d'|]; [|done].
  apply Z.eqb_eq in H3, H4. by subst.
Qed.

Lemma byte_facts v : 0 <= v < 256 ->
  Z.lor (Z.shiftl (v / 16) 4) (v mod 16) = v /\ uitoa v = pretty v.
Proof.
  intros Hv.
  assert (H : byte_ok v = true).
  { apply (range_forallb byte_ok 256); [vm_compute; reflexivity|lia]. }
  apply andb_true_iff in H as [H1 H2].
  apply Z.eqb_eq in H1. apply String.eqb_eq in H2. done.
Qed.

Lemma nibbles v : 0 <= v < 256 -> 0 <= v / 16 < 16 /\ 0 <= v mod 16 < 16.
Proof.
  intros Hv. split.
  - split; [apply Z.div_pos; lia|apply Z.div_lt_upper_bound; lia].
  - apply Z.mod_pos_bound. lia.
Qed.

(** *** [hex.DecodeString] *)

Lemma DecodeString_hex2 v s : 0 <= v < 256 ->
  DecodeString (Spec.hex2 v +:+ s) = cons v <$> DecodeString s.
Proof.
  intros Hv. destruct (nibbles v Hv) as [Hh Hl].
  destruct (hex_digit_facts _ Hh) as (_ & _ & _ & Hhi).
  destruct (hex_digit_facts _ Hl) as (_ & _ & _ & Hlo).
  change (Spec.hex2 v +:+ s)
    with (String (Spec.hex_upper (v / 16)) (String (Spec.hex_upper (v mod 16)) s)).
  cbn [DecodeString]. rewrite Hhi, Hlo.
  destruct (byte_facts v Hv) as [-> _]. by destruct (DecodeString s).
Qed.

(** *** [strings.Split] *)

Lemma Split_hex2 v s w ws : 0 <= v < 256 ->
  Split s ":" = w :: ws -> Split (Spec.hex2 v +:+ s) ":" = (Spec.hex2 v +:+ w) :: ws.
Proof.
  intros Hv Hs. destruct (nibbles v Hv) as [Hh Hl].
  destruct (hex_digit_facts _ Hh) as (_ & Hhi & _).
  destruct (hex_digit_facts _ Hl) as (_ & Hlo & _).
  change (Spec.hex2 v +:+ s)
    with (String (Spec.hex_upper (v / 16)) (String (Spec.hex_upper (v mod 16)) s)).
  cbn [Split]. by rewrite Hhi, Hlo, Hs.
Qed.

(** *** [strconv.ParseInt] on a hex number of four digits *)

Lemma parse_digits_hex k rest n : 0 <= k < 16 -> 0 <= n < 2 ^ 32 ->
  parse_digits true 16 (2 ^ 64 - 1) (String (Spec.hex_upper k) rest) n
  = parse_digits true 16 (2 ^ 64 - 1) rest (n * 16 + k).
Proof.
  intros Hk Hn. destruct (hex_digit_facts _ Hk) as (Hu & _ & Hd & _).
  cbn [parse_digits]. rewrite Hu, Hd. cbn [andb].
  change (maxUint64 / 16 + 1) with (2 ^ 60). unfold maxUint64.
  change (2 ^ 32) with 4294967296 in Hn.
  change (2 ^ 60) with 1152921504606846976.
  change (2 ^ 64 - 1) with 18446744073709551615.
  destruct (Z.leb_spec 16 k); [lia|].
  destruct (Z.leb_spec 1152921504606846976 n); [lia|].
  destruct (Z.ltb_spec 18446744073709551615 (n * 16 + k)); [lia|].
  reflexivity.
Qed.

Lemma has_underscore_hex2 v s : 0 <= v < 256 ->
  has_underscore (Spec.hex2 v +:+ s) = has_underscore s.
Proof.
  intros Hv. destruct (nibbles v Hv) as [Hh Hl].
  destruct (hex_digit_facts _ Hh) as (Hhi & _).
  destruct (hex_digit_facts _ Hl) as (Hlo & _).
  unfold has_underscore.
  change (Spec.hex2 v +:+ s)
    with (String (Spec.hex_upper (v / 16)) (String (Spec.hex_upper (v mod 16)) s)).
  cbn [list_ascii_of_string existsb]. by rewrite Hhi, Hlo.
Qed.

Lemma ParseInt_port p : 0 <= p < 65536 ->
  ParseInt ("0x" +:+ Spec.hex2 (p / 256) +:+ Spec.hex2 (p mod 256)) 0 64
  = (p, None).
Proof.
  intros Hp.
  assert (Hh : 0 <= p / 256 < 256).
  { split; [apply Z.div_pos; lia|apply Z.div_lt_upper_bound; lia]. }
  assert (Hl : 0 <= p mod 256 < 256) by (apply Z.mod_pos_bound; lia).
  destruct (nibbles _ Hh) as [Hhh Hhl]. destruct (nibbles _ Hl) as [Hlh Hll].
  set (digits := Spec.hex2 (p / 256) +:+ Spec.hex2 (p mod 256)).
  assert (Hdigits : parse_digits true 16 (2 ^ 64 - 1) digits 0 = (p, None)).
  { unfold digits.
    change (Spec.hex2 (p / 256) +:+ Spec.hex2 (p mod 256))
      with (String (Spec.hex_upper (p / 256 / 16))
             (String (Spec.hex_upper ((p / 256) mod 16))
               (String (Spec.hex_upper (p mod 256 / 16))
                 (String (Spec.hex_upper ((p mod 256) mod 16)) "")))).
    change (2 ^ 32) with 4294967296 in *.
    rewrite !parse_digits_hex; try lia.
    cbn [parse_digits]. f_equal.
    pose proof (Z.div_mod p 256 ltac:(lia)).
    pose proof (Z.div_mod (p / 256) 16 ltac:(lia)).
    pose proof (Z.div_mod (p mod 256) 16 ltac:(lia)). lia. }
  assert (Hunder : has_underscore digits = false).
  { unfold digits. rewrite has_underscore_hex2 by done.
    replace (Spec.hex2 (p mod 256)) with (Spec.hex2 (p mod 256) +:+ "")
      by reflexivity.
    by rewrite has_underscore_hex2. }
  assert (Hu : ParseUint ("0x" +:+ digits) 0 64 = (p, None)).
  { unfold ParseUint.
    change ("0x" +:+ digits) with (String "0" (String "x" digits)).
    cbv beta iota zeta.
    change (0 =? 0) with true. change (byte_of "0" =? 48) with true.
    change (lower (byte_of "x") =? 98) with false.
    change (lower (byte_of "x") =? 111) with false.
    change (lower (byte_of "x") =? 120) with true.
    replace (3 <=? Z.of_nat (String.length (String "0" (String "x" digits))))
      with true by reflexivity.
    cbn [andb]. rewrite Hdigits, Hunder. reflexivity. }
  unfold ParseInt.
  change ("0x" +:+ digits) with (String "0" (String "x" digits)) in *.
  cbv beta iota zeta.
  change (byte_of "0" =? 45) with false.
  change (is_sign (byte_of "0")) with false. cbv iota.
  rewrite Hu. cbn [negb andb].
  change (2 ^ (64 - 1)) with 9223372036854775808.
  destruct (Z.leb_spec 9223372036854775808 p); [lia|reflexivity].
Qed.

(** *** [net.IP.String] of four bytes *)

Lemma IP_String_v4 a b c d :
  IP_String [a; b; c; d]
  = uitoa a +:+ "." +:+ uitoa b +:+ "." +:+ uitoa c +:+ "." +:+ uitoa d.
Proof. reflexivity. Qed.

End DecodeFacts.

(** C5: for every IPv4 address a.b.c.d and every port p in [0, 65535],
    [decodeAddress] maps the /proc/net/tcp text of the endpoint (the
    address in little-endian hex, the port in big-endian hex) to the
    dotted-quad string "a.b.c.d" and the integer p. *)
Theorem decodeAddress_roundtrip (a b c d p : Z) :
  0 <= a < 256 -> 0 <= b < 256 -> 0 <= c < 256 -> 0 <= d < 256 ->
  0 <= p <= 65535 ->
  netutil.decodeAddress (Spec.encodeAddress a b c d p)
  = Ok {| netutil.IP := Spec.dotted_quad a b c d; netutil.Port := p |}.
Proof.
  intros Ha Hb Hc Hd Hp.
  assert (Hh : 0 <= p / 256 < 256).
  { split; [apply Z.div_pos; lia|apply Z.div_lt_upper_bound; lia]. }
  assert (Hl : 0 <= p mod 256 < 256) by (apply Z.mod_pos_bound; lia).
  unfold netutil.decodeAddress, Spec.encodeAddress.
  assert (Hsplit :
    Go.Split (Spec.hex2 d +:+ Spec.hex2 c +:+ Spec.hex2 b +:+ Spec.hex2 a +:+
              ":" +:+ Spec.hex2 (p / 256) +:+ Spec.hex2 (p mod 256)) ":"
    = [Spec.hex2 d +:+ Spec.hex2 c +:+ Spec.hex2 b +:+ Spec.hex2 a +:+ "";
       Spec.hex2 (p / 256) +:+ Spec.hex2 (p mod 256) +:+ ""]).
  { do 4 (apply DecodeFacts.Split_hex2; [done|]).
    change (":" +:+ Spec.hex2 (p / 256) +:+ Spec.hex2 (p mod 256))
      with (String ":" (Spec.hex2 (p / 256) +:+ Spec.hex2 (p mod 256))).
    cbn [Go.Split]. change (Ascii.eqb ":" ":") with true. cbv iota.
    f_equal. do 2 (apply DecodeFacts.Split_hex2; [done|]). reflexivity. }
  rewrite Hsplit.
  change (Spec.hex2 (p / 256) +:+ Spec.hex2 (p mod 256) +:+ "")
    with (Spec.hex2 (p / 256) +:+ Spec.hex2 (p mod 256)).
  rewrite DecodeFacts.ParseInt_port by lia.
  rewrite !DecodeFacts.DecodeString_hex2 by done.
  cbn [Go.DecodeString fmap option_fmap option_map Go.Reverse rev app].
  rewrite DecodeFacts.IP_String_v4.
  destruct (DecodeFacts.byte_facts a Ha) as [_ ->].
  destruct (DecodeFacts.byte_facts b Hb) as [_ ->].
  destruct (DecodeFacts.byte_facts c Hc) as [_ ->].
  destruct (DecodeFacts.byte_facts d Hd) as [_ ->].
  rewrite Z.mod_small by (change (2 ^ 32) with 4294967296; lia).
  reflexivity.
Qed.

Lemma decodeAddress_roundtrip_witness :
  netutil.decodeAddress "0500000A:0016"
  = Ok {| netutil.IP := "10.0.0.5"; netutil.Port := 22 |}.
Proof.
  apply (decodeAddress_roundtrip 10 0 0 5 22); lia.
Defined.

(* ===================================================================== *)
(** ** The two builders on the same connections *)
(* ===================================================================== *)

Module EquivalenceFacts.
Import Go probe netlink Spec FlowFacts BuilderFacts.

Lemma procfs_ports_of_diag msgs :
  netutil.FilterByLocalListeningPorts (map Spec.stat_of_diag msgs)
  = netlink_ports msgs.
Proof.
  unfold netlink_ports, netutil.FilterByLocalListeningPorts,
    netutil.NetlinkFilterByLocalListeningPorts.
  induction msgs as [|c t IH]; simpl; [done|].
  rewrite IH, map_app. f_equal.
  destruct (negb (linux.State c =? linux.TCP_LISTEN)); [done|].
  by destruct (_ || _ || _).
Qed.

Lemma procfs_flow_of_diag X opt u P lp c :
  filtered_out X opt c = false ->
  procfs_flow P (Spec.stat_of_diag c)
  = Spec.erase_process <$> netlink_flow X opt u P lp c.
Proof.
  intros Hf. unfold procfs_flow, netlink_flow. rewrite Hf. simpl.
  destruct (state_dropped (linux.State c)); [done|].
  by destruct (contains P _).
Qed.

Lemma omap_of_diag (bodyP : netutil.ConnectionStat -> option HostFlow)
    (bodyN : linux.InetDiagMsg -> option HostFlow) msgs :
  (forall c, c ∈ msgs -> bodyP (Spec.stat_of_diag c) = Spec.erase_process <$> bodyN c) ->
  omap bodyP (map Spec.stat_of_diag msgs) = Spec.erase_process <$> omap bodyN msgs.
Proof.
  induction msgs as [|c t IH]; intros H; csimpl; [done|].
  rewrite H by left. rewrite IH by (intros; apply H; by right).
  by destruct (bodyN c).
Qed.

Lemma with_key_erase k l :
  with_key k (Spec.erase_process <$> l) = Spec.erase_process <$> with_key k l.
Proof.
  unfold with_key. induction l as [|h t IH]; csimpl; [done|].
  rewrite !filter_cons. change (UniqKey (Spec.erase_process h)) with (UniqKey h).
  destruct (decide (UniqKey h = k)); csimpl; by rewrite IH.
Qed.

Lemma aggregate_erase l :
  aggregate None (Spec.erase_process <$> l) = Spec.erase_process <$> aggregate None l.
Proof. destruct l as [|h t]; simpl; [done|]. by rewrite length_fmap. Qed.

(** Erasing the processes commutes with the aggregation. *)
Lemma insert_all_of_diag (bodyP : netutil.ConnectionStat -> option HostFlow)
    (bodyN : linux.InetDiagMsg -> option HostFlow) msgs :
  (forall c, c ∈ msgs -> bodyP (Spec.stat_of_diag c) = Spec.erase_process <$> bodyN c) ->
  insert_all bodyP (map Spec.stat_of_diag msgs)
  = Spec.erase_process <$> insert_all bodyN msgs.
Proof.
  intros H. apply map_eq. intros k.
  rewrite lookup_fmap, !insert_all_lookup, (omap_of_diag _ _ _ H).
  by rewrite with_key_erase, aggregate_erase.
Qed.

(** The netlink builder fails with a netlink error when the request fails
    and the attributor did not. *)
Lemma GetHostFlowsByNetlink_request_fails X w opt e flows :
  GetHostFlowsByNetlink X w opt = Ok flows ->
  GetHostFlowsByNetlink X
    {| ReadDir_root := ReadDir_root w; Getpid := Getpid w;
       NetlinkInetDiag := inl e; ReadFile_tcp := ReadFile_tcp w |} opt
  = Err (Wrapped "NetlinkInetDiag" (NetlinkError "")).
Proof.
  unfold GetHostFlowsByNetlink. simpl.
  destruct (if Processes opt then _ else _); simpl; done.
Qed.

End EquivalenceFacts.

(** C8, amended: when numeric mode is on and the address filter of the
    options drops none of the connections (as with the filter "all"), the
    procfs builder returns for the same kernel connections the flows of the
    netlink builder without their process attribution; and when the netlink
    request fails on such a host, [GetHostFlows] switches to the procfs
    path and returns those flows. The procfs builder takes no options: it
    filters no address and resolves no name. *)
Theorem procfs_matches_netlink (X : Extern) (w : netlink.World)
    (opt : netlink.GetHostFlowsOption) (msgs : list linux.InetDiagMsg)
    (flows : gmap probe.key probe.HostFlow) :
  netlink.NetlinkInetDiag w = inr msgs ->
  netutil.ProcfsConnections (netlink.ReadFile_tcp w)
  = Ok (map Spec.stat_of_diag msgs) ->
  netlink.Numeric opt = true ->
  (forall c, c ∈ msgs -> netlink.filtered_out X opt c = false) ->
  netlink.GetHostFlowsByNetlink X w opt = Ok flows ->
  netlink.GetHostFlowsByProcfs w = Ok (Spec.erase_process <$> flows)
  /\ forall e,
       netlink.GetHostFlows X
         {| netlink.ReadDir_root := netlink.ReadDir_root w;
            netlink.Getpid := netlink.Getpid w;
            netlink.NetlinkInetDiag := inl e;
            netlink.ReadFile_tcp := netlink.ReadFile_tcp w |} opt
       = Ok (Spec.erase_process <$> flows).
Proof.
  intros Hd Hp Hnum Hfilter Hok.
  assert (Hprocfs : netlink.GetHostFlowsByProcfs w
                    = Ok (Spec.erase_process <$> flows)).
  { destruct (BuilderFacts.GetHostFlowsByNetlink_Ok _ _ _ _ _ Hd Hok)
      as (u & lp & ->).
    rewrite Hnum. simpl.
    unfold netlink.GetHostFlowsByProcfs. rewrite Hp. simpl. f_equal.
    rewrite EquivalenceFacts.procfs_ports_of_diag.
    apply EquivalenceFacts.insert_all_of_diag.
    intros c Hc. by apply EquivalenceFacts.procfs_flow_of_diag, Hfilter. }
  split; [exact Hprocfs|].
  intros e. unfold netlink.GetHostFlows.
  rewrite (EquivalenceFacts.GetHostFlowsByNetlink_request_fails _ _ _ e _ Hok).
  simpl. exact Hprocfs.
Qed.

Lemma procfs_matches_netlink_witness :
  exists flows,
    netlink.GetHostFlowsByNetlink Samples.extern Samples.world
      (Samples.opt true true "all") = Ok flows
    /\ netlink.GetHostFlowsByProcfs Samples.world
       = Ok (Spec.erase_process <$> flows)
    /\ netlink.GetHostFlows Samples.extern Samples.world_no_netlink
         (Samples.opt true true "all")
       = Ok (Spec.erase_process <$> flows).
Proof.
  eexists. split; [reflexivity|].
  edestruct (procfs_matches_netlink Samples.extern Samples.world
               (Samples.opt true true "all") Samples.conns) as [H1 H2];
    [reflexivity|vm_compute; reflexivity|reflexivity|intros; reflexivity
    |reflexivity|].
  split; [exact H1|exact (H2 (Errno 1))].
Defined.

(** C8 as stated fails under the filter "public": on the same two
    established connections to private addresses, with no process
    attribution asked for, the netlink builder returns no flow and the
    procfs builder, alone or after a failed netlink request, returns two. *)
Lemma procfs_ignores_filter :
  netlink.NetlinkInetDiag Samples.world = inr Samples.conns
  /\ netutil.ProcfsConnections (netlink.ReadFile_tcp Samples.world)
     = Ok (map Spec.stat_of_diag Samples.conns)
  /\ netlink.GetHostFlowsByNetlink Samples.extern Samples.world
       (Samples.opt true false "public") = Ok ∅
  /\ Spec.flows_of (netlink.GetHostFlowsByProcfs Samples.world)
     = Some [ {| probe.Direction := probe.FlowPassive;
                 probe.Local := {| probe.Addr := "10.0.10.1"; probe.Port := "80" |};
                 probe.Peer := {| probe.Addr := "10.0.10.2"; probe.Port := "many" |};
                 probe.Process := None; probe.Connections := 1 |};
              {| probe.Direction := probe.FlowActive;
                 probe.Local := {| probe.Addr := "10.0.10.1"; probe.Port := "many" |};
                 probe.Peer := {| probe.Addr := "10.0.10.2"; probe.Port := "5432" |};
                 probe.Process := None; probe.Connections := 1 |} ]
  /\ Spec.flows_of (netlink.GetHostFlows Samples.extern Samples.world_no_netlink
                      (Samples.opt true false "public"))
     = Spec.flows_of (netlink.GetHostFlowsByProcfs Samples.world).
Proof.
  split; [reflexivity|]. split; [vm_compute; reflexivity|].
  split; [apply FlowFacts.flows_of_nil; vm_compute; reflexivity|].
  split; vm_compute; reflexivity.
Qed.

(* ===================================================================== *)
(** ** The upsert engine *)
(* ===================================================================== *)

Module DecimalFacts.
Import Go Checks.

Lemma digit_val_digit_char d :
  0 <= d < 10 -> digit_val (byte_of (digit_char d)) = Some d.
Proof.
  intros Hd. rewrite GoFacts.byte_of_digit_char by done. unfold digit_val.
  destruct (Z.leb_spec 48 (48 + d)); [|lia].
  destruct (Z.leb_spec (48 + d) 57); [|lia]. simpl. f_equal. lia.
Qed.

(** One digit more in the loop of [ParseUint]. *)
Lemma parse_digits_step M d q acc :
  0 <= d < 10 -> 0 <= q -> q * 10 + d <= M -> q * 10 + d <= maxUint64 ->
  parse_digits false 10 M (String (digit_char d) acc) q
  = parse_digits false 10 M acc (q * 10 + d).
Proof.
  intros Hd Hq HM Hmax. cbn [parse_digits].
  rewrite andb_false_r, digit_val_digit_char by done.
  destruct (Z.leb_spec 10 d); [lia|].
  unfold maxUint64 in *.
  change (2 ^ 64 - 1) with 18446744073709551615 in *.
  change (18446744073709551615 / 10 + 1) with 1844674407370955162.
  destruct (Z.leb_spec 1844674407370955162 q); [lia|].
  destruct (Z.ltb_spec 18446744073709551615 (q * 10 + d)); [lia|].
  destruct (Z.ltb_spec M (q * 10 + d)); [lia|]. reflexivity.
Qed.

(** Reading back the digits [utoa_go] writes. *)
Lemma parse_digits_utoa M fuel : forall n acc,
  0 <= n < 10 ^ Z.of_nat fuel -> n <= M -> n <= maxUint64 ->
  parse_digits false 10 M (utoa_go fuel n acc) 0
  = parse_digits false 10 M acc n.
Proof.
  induction fuel as [|fuel IH]; intros n acc Hn HM Hmax.
  - change (10 ^ Z.of_nat 0) with 1 in Hn. by replace n with 0 by lia.
  - rewrite GoFacts.utoa_go_S.
    pose proof (Z.mod_pos_bound n 10 ltac:(lia)) as Hd.
    pose proof (Z.div_mod n 10 ltac:(lia)) as Hdm.
    assert (Hq : 0 <= n / 10) by (apply Z.div_pos; lia).
    destruct (Z.eqb_spec (n / 10) 0) as [Hz|Hnz].
    + rewrite (parse_digits_step M (n mod 10) 0) by lia.
      f_equal. lia.
    + rewrite IH.
      * rewrite parse_digits_step by lia. f_equal. lia.
      * split; [done|]. apply Z.div_lt_upper_bound; [lia|].
        rewrite Nat2Z.inj_succ, Z.pow_succ_r in Hn by lia. lia.
      * lia.
      * lia.
Qed.

Lemma has_underscore_utoa fuel : forall n acc,
  has_underscore (utoa_go fuel n acc) = has_underscore acc.
Proof.
  induction fuel as [|fuel IH]; intros n acc; [done|].
  rewrite GoFacts.utoa_go_S.
  pose proof (Z.mod_pos_bound n 10 ltac:(lia)) as Hd.
  assert (Hc : has_underscore (String (digit_char (n mod 10)) acc)
               = has_underscore acc).
  { unfold has_underscore. simpl.
    rewrite GoFacts.byte_of_digit_char by done.
    destruct (Z.eqb_spec (48 + n mod 10) 95); [lia|done]. }
  destruct (n / 10 =? 0); [exact Hc|]. by rewrite IH.
Qed.

(** [strconv.Atoi] reads back what [%d] prints. *)
Lemma Atoi_Sprintf_d p :
  0 <= p < 2 ^ 63 -> Atoi (Sprintf_d p) = (p, None).
Proof.
  intros Hp. unfold Sprintf_d.
  destruct (Z.ltb_spec p 0); [lia|].
  pose proof (GoFacts.uitoa_digit p) as Hdig.
  assert (Hpd : parse_digits false 10 (2 ^ 64 - 1) (uitoa p) 0 = (p, None)).
  { unfold uitoa. rewrite parse_digits_utoa; [done| | |].
    - change (10 ^ Z.of_nat 20) with 100000000000000000000.
      change (2 ^ 63) with 9223372036854775808 in Hp. lia.
    - change (2 ^ 63) with 9223372036854775808 in Hp.
      change (2 ^ 64 - 1) with 18446744073709551615. lia.
    - unfold maxUint64. change (2 ^ 63) with 9223372036854775808 in Hp.
      change (2 ^ 64 - 1) with 18446744073709551615. lia. }
  assert (Hu : has_underscore (uitoa p) = false).
  { unfold uitoa. by rewrite has_underscore_utoa. }
  destruct (uitoa p) as [|c s] eqn:E; [done|]. simpl in Hdig.
  unfold Atoi, ParseInt.
  assert (Hs : is_sign (byte_of c) = false).
  { unfold is_sign. destruct (Z.eqb_spec (byte_of c) 43); [lia|].
    destruct (Z.eqb_spec (byte_of c) 45); [lia|done]. }
  rewrite Hs.
  assert (HU : ParseUint (String c s) 10 64 = (p, None)).
  { unfold ParseUint. change (10 =? 0) with false. cbv iota beta.
    rewrite Hpd, Hu. reflexivity. }
  rewrite HU.
  destruct (Z.eqb_spec (byte_of c) 45); [lia|].
  change (2 ^ (64 - 1)) with (2 ^ 63).
  destruct (Z.leb_spec (2 ^ 63) p); [lia|]. reflexivity.
Qed.

End DecimalFacts.

Module DbFacts.
Import probe db Spec Checks.

Lemma local_key_node hf : local_key hf = local_node hf.
Proof. unfold local_key, local_node. by destruct (Process hf). Qed.

Lemma peer_key_node hf : peer_key hf = peer_node hf.
Proof. reflexivity. Qed.

(** The id of a node that has a row names the first row that holds it. *)
Lemma node_id_row rows n :
  n ∈ rows ->
  1 <= node_id rows n /\ rows !! Z.to_nat (node_id rows n - 1) = Some n.
Proof.
  intros Hin. unfold node_id.
  destruct (list_find_elem_of (fun m => m = n) rows n Hin eq_refl)
    as [[i m] Hf].
  rewrite Hf. apply list_find_Some in Hf as (Hi & -> & _).
  split; [lia|]. by replace (Z.to_nat (Z.of_nat i + 1 - 1)) with i by lia.
Qed.

(** Rows added later leave the id of a node as it is. *)
Lemma node_id_app rows ext n :
  n ∈ rows -> node_id (rows ++ ext) n = node_id rows n.
Proof.
  intros Hin. unfold node_id.
  destruct (list_find_elem_of (fun m => m = n) rows n Hin eq_refl)
    as [[i m] Hf].
  by rewrite (list_find_app_l _ _ _ _ _ Hf), Hf.
Qed.

(** Two nodes with a row and the same id are the same node. *)
Lemma node_id_inj rows n1 n2 :
  n1 ∈ rows -> n2 ∈ rows -> node_id rows n1 = node_id rows n2 -> n1 = n2.
Proof.
  intros H1 H2 Heq.
  apply node_id_row in H1 as [_ H1]. apply node_id_row in H2 as [_ H2].
  rewrite Heq in H1. congruence.
Qed.

(** [upsert_node] returns the id of the node in the table it leaves, which
    is the old table with at most one row more. *)
Lemma upsert_node_id st n id st' :
  upsert_node st n = (id, st') ->
  id = node_id (nodes st') n /\ n ∈ nodes st'
  /\ (exists ext, nodes st' = (nodes st ++ ext)%list)
  /\ flows st' = flows st.
Proof.
  unfold upsert_node, node_id.
  destruct (list_find (fun m => m = n) (nodes st)) as [[i m]|] eqn:Hf.
  - intros [= <- <-]. rewrite Hf.
    apply list_find_Some in Hf as (Hi & -> & _).
    split; [done|]. split; [by eapply list_elem_of_lookup_2|].
    split; [|done]. exists []. by rewrite app_nil_r.
  - intros [= <- <-]. simpl.
    assert (Hnew : list_find (fun m => m = n) (nodes st ++ [n])
                   = Some (length (nodes st), n)).
    { apply list_find_Some. split; [|split; [done|]].
      - rewrite lookup_app_r by lia. by rewrite Nat.sub_diag.
      - intros j y Hj Hlt. rewrite lookup_app_l in Hj by lia.
        apply list_find_None in Hf.
        eapply (proj1 (Forall_forall _ _) Hf). by eapply list_elem_of_lookup_2. }
    rewrite Hnew. split; [done|]. split; [|split; [eauto|done]].
    apply elem_of_app. right. by left.
Qed.

(** One host flow: the statements sent are those of section 4.4 with the
    ids of the table the step leaves. *)
Lemma upsert_host_flow_step now st hf st' ss ids :
  upsert_host_flow now st hf = (st', ss, ids) ->
  ss = upsert_statements (node_id (nodes st')) hf
  /\ local_key hf ∈ nodes st' /\ peer_key hf ∈ nodes st'
  /\ (exists ext, nodes st' = (nodes st ++ ext)%list)
  /\ flows st'
     = <[(Direction hf, (edge (node_id (nodes st')) hf).1,
                        (edge (node_id (nodes st')) hf).2)
         := (Connections hf, now)]> (flows st).
Proof.
  unfold upsert_host_flow. rewrite <- local_key_node, <- peer_key_node.
  destruct (upsert_node st (local_key hf)) as [lid st1] eqn:E1.
  destruct (upsert_node st1 (peer_key hf)) as [pid st2] eqn:E2.
  apply upsert_node_id in E1 as (Hl & Hlin & [e1 He1] & Hf1).
  apply upsert_node_id in E2 as (Hp & Hpin & [e2 He2] & Hf2).
  assert (Hl2 : lid = node_id (nodes st2) (local_key hf)).
  { by rewrite He2, node_id_app. }
  assert (Hlin2 : local_key hf ∈ nodes st2).
  { rewrite He2. apply elem_of_app. by left. }
  assert (Hext : exists ext, nodes st2 = (nodes st ++ ext)%list).
  { exists (e1 ++ e2)%list. by rewrite He2, He1, app_assoc. }
  clear Hl. subst lid pid. unfold upsert_statements, edge.
  destruct (Direction hf) eqn:Hd; intros [= <- <- _]; simpl;
    rewrite Hf2, Hf1; done.
Qed.

Lemma flat_map_ext_elem {A B} (f g : A -> list B) l :
  (forall a, a ∈ l -> f a = g a) -> flat_map f l = flat_map g l.
Proof.
  induction l as [|a l IH]; intros H; simpl; [done|].
  rewrite (H a) by left. rewrite IH; [done|]. intros b Hb. apply H. by right.
Qed.

Lemma edge_app rows ext hf :
  local_key hf ∈ rows -> peer_key hf ∈ rows ->
  edge (node_id (rows ++ ext)) hf = edge (node_id rows) hf.
Proof. intros Hl Hp. unfold edge. by rewrite !node_id_app. Qed.

(** Two flows whose nodes have rows and whose flow rows have the same key
    have the same local and the same peer node. *)
Lemma edge_inj rows hf1 hf2 :
  local_key hf1 ∈ rows -> peer_key hf1 ∈ rows ->
  local_key hf2 ∈ rows -> peer_key hf2 ∈ rows ->
  Direction hf1 = Direction hf2 ->
  edge (node_id rows) hf1 = edge (node_id rows) hf2 ->
  local_key hf1 = local_key hf2 /\ peer_key hf1 = peer_key hf2.
Proof.
  intros Hl1 Hp1 Hl2 Hp2 Hd. unfold edge. rewrite Hd.
  destruct (Direction hf2); intros [= H1 H2];
    split; by eapply node_id_inj.
Qed.

(** What holds of the store and of the statements sent after any number of
    host flows. *)
Lemma tick_loop now st pre hfs :
  (exists ext, nodes (fold_left (tick_step now) hfs (st, pre)).1
               = (nodes st ++ ext)%list)
  /\ (fold_left (tick_step now) hfs (st, pre)).2
     = (pre ++ flat_map
                 (upsert_statements
                    (node_id (nodes (fold_left (tick_step now) hfs (st, pre)).1)))
                 hfs)%list
  /\ forall hf, hf ∈ hfs ->
       local_key hf ∈ nodes (fold_left (tick_step now) hfs (st, pre)).1
       /\ peer_key hf ∈ nodes (fold_left (tick_step now) hfs (st, pre)).1
       /\ exists hf', hf' ∈ hfs
            /\ Direction hf' = Direction hf
            /\ local_key hf' = local_key hf /\ peer_key hf' = peer_key hf
            /\ flows (fold_left (tick_step now) hfs (st, pre)).1
               !! (Direction hf,
                   (edge (node_id
                            (nodes (fold_left (tick_step now) hfs (st, pre)).1))
                         hf).1,
                   (edge (node_id
                            (nodes (fold_left (tick_step now) hfs (st, pre)).1))
                         hf).2)
               = Some (Connections hf', now).
Proof.
  induction hfs as [|x l IH] using rev_ind.
  - simpl. split; [exists []; by rewrite app_nil_r|].
    split; [by rewrite app_nil_r|]. by intros hf ?%not_elem_of_nil.
  - rewrite fold_left_app. simpl.
    destruct IH as ([ext Hext] & Hsent & Hrows).
    destruct (fold_left (tick_step now) l (st, pre)) as [st0 sent0].
    simpl in Hext, Hsent, Hrows.
    destruct (upsert_host_flow now st0 x) as [[st1 ss] ids] eqn:E.
    assert (Hstep : tick_step now (st0, sent0) x = (st1, (sent0 ++ ss)%list)).
    { unfold tick_step. simpl. by rewrite E. }
    rewrite Hstep. clear Hstep.
    apply upsert_host_flow_step in E as (-> & Hl & Hp & [e He] & Hfl).
    simpl.
    assert (Hold : forall hf, hf ∈ l ->
              local_key hf ∈ nodes st1 /\ peer_key hf ∈ nodes st1
              /\ edge (node_id (nodes st1)) hf = edge (node_id (nodes st0)) hf).
    { intros hf Hin. destruct (Hrows hf Hin) as (H1 & H2 & _).
      rewrite He. split; [apply elem_of_app; by left|].
      split; [apply elem_of_app; by left|]. by apply edge_app. }
    split; [|split].
    + exists (ext ++ e)%list. by rewrite He, Hext, app_assoc.
    + rewrite Hsent, flat_map_app, <- app_assoc. f_equal.
      change (flat_map (upsert_statements (node_id (nodes st1))) [x])
        with (upsert_statements (node_id (nodes st1)) x ++ [])%list.
      rewrite app_nil_r. f_equal.
      apply flat_map_ext_elem. intros hf Hin.
      destruct (Hold hf Hin) as (_ & _ & Hedge).
      unfold upsert_statements. by rewrite Hedge.
    + intros hf [Hin| ->%list_elem_of_singleton]%elem_of_app.
      * destruct (Hold hf Hin) as (H1 & H2 & Hedge).
        split; [done|]. split; [done|].
        destruct (Hrows hf Hin) as (_ & _ & hf' & Hin' & Hd & Hlk & Hpk & Hrow).
        destruct (decide ((Direction x, (edge (node_id (nodes st1)) x).1,
                           (edge (node_id (nodes st1)) x).2)
                          = (Direction hf, (edge (node_id (nodes st1)) hf).1,
                             (edge (node_id (nodes st1)) hf).2))) as [Hk|Hk].
        -- exists x. injection Hk as Hkd Hk1 Hk2.
           destruct (edge_inj (nodes st1) x hf Hl Hp H1 H2 Hkd) as [Ha Hb].
           { destruct (edge _ x), (edge _ hf). simpl in *. congruence. }
           split; [apply elem_of_app; right; by left|].
           split; [done|]. split; [done|]. split; [done|].
           rewrite Hfl, <- Hkd, <- Hk1, <- Hk2. apply lookup_insert_eq.
        -- exists hf'. split; [apply elem_of_app; by left|].
           split; [done|]. split; [done|]. split; [done|].
           rewrite Hfl, lookup_insert_ne by done. by rewrite Hedge.
      * split; [done|]. split; [done|]. exists x.
        split; [apply elem_of_app; right; by left|].
        split; [done|]. split; [done|]. split; [done|].
        rewrite Hfl. apply lookup_insert_eq.
Qed.

Lemma InsertOrUpdateHostFlows_loop now st hfs :
  InsertOrUpdateHostFlows now st hfs
  = ((fold_left (tick_step now) hfs
        (st, [Begin; Prepare "INSERT INTO nodes";
              Prepare "SELECT node_id FROM nodes";
              Prepare "INSERT INTO flows"])).1,
     ((fold_left (tick_step now) hfs
         (st, [Begin; Prepare "INSERT INTO nodes";
               Prepare "SELECT node_id FROM nodes";
               Prepare "INSERT INTO flows"])).2 ++ [Commit])%list).
Proof.
  unfold InsertOrUpdateHostFlows.
  change (fun (acc : store * list stmt) hf =>
            let '(st1, ss, _) := upsert_host_flow now acc.1 hf in
            (st1, (acc.2 ++ ss)%list)) with (tick_step now).
  by destruct (fold_left _ _ _).
Qed.

End DbFacts.

(** C2: what the upsert engine sends for the host flows of a tick. After
    the transaction is begun and the three statements are prepared, it
    executes for every host flow, in order: upsert-node with (local.addr,
    numeric(local.port), process.pgid or 0, process.name or ""), upsert-node
    with (peer.addr, numeric(peer.port), 0, ""), and upsert-flow with the
    direction, src = local node and dst = peer node when the direction is
    active, src = peer node and dst = local node when it is passive, and the
    connections of the flow; then it commits. The src and dst sent are the
    ids of the rows of [nodes] that hold the two nodes when the tick ends;
    the row of [flows] under (direction, src, dst) holds the connections of
    a flow of the tick with that direction and those two nodes, and the
    time of the tick; the rows of [nodes] that were there keep their ids.
    [numeric] maps "many" to 0 and a port printed in decimal to its
    number. *)
Theorem upsert_arguments (now : Z) (st : db.store)
    (hfs : list probe.HostFlow) :
  (db.InsertOrUpdateHostFlows now st hfs).2
  = ([db.Begin; db.Prepare "INSERT INTO nodes";
      db.Prepare "SELECT node_id FROM nodes"; db.Prepare "INSERT INTO flows"]
     ++ flat_map
          (Spec.upsert_statements
             (Spec.node_id (db.nodes (db.InsertOrUpdateHostFlows now st hfs).1)))
          hfs
     ++ [db.Commit])%list
  /\ (forall hf, hf ∈ hfs ->
        db.nodes (db.InsertOrUpdateHostFlows now st hfs).1
          !! Z.to_nat
               (Spec.node_id (db.nodes (db.InsertOrUpdateHostFlows now st hfs).1)
                  (Spec.local_key hf) - 1)
        = Some (Spec.local_key hf)
        /\ db.nodes (db.InsertOrUpdateHostFlows now st hfs).1
             !! Z.to_nat
                  (Spec.node_id
                     (db.nodes (db.InsertOrUpdateHostFlows now st hfs).1)
                     (Spec.peer_key hf) - 1)
           = Some (Spec.peer_key hf)
        /\ exists hf', hf' ∈ hfs
             /\ probe.Direction hf' = probe.Direction hf
             /\ Spec.local_key hf' = Spec.local_key hf
             /\ Spec.peer_key hf' = Spec.peer_key hf
             /\ db.flows (db.InsertOrUpdateHostFlows now st hfs).1
                !! (probe.Direction hf,
                    (Spec.edge
                       (Spec.node_id
                          (db.nodes (db.InsertOrUpdateHostFlows now st hfs).1))
                       hf).1,
                    (Spec.edge
                       (Spec.node_id
                          (db.nodes (db.InsertOrUpdateHostFlows now st hfs).1))
                       hf).2)
                = Some (probe.Connections hf', now))
  /\ (forall i m, db.nodes st !! i = Some m ->
        db.nodes (db.InsertOrUpdateHostFlows now st hfs).1 !! i = Some m)
  /\ db.numeric "many" = 0
  /\ (forall p, 0 <= p < 2 ^ 63 -> db.numeric (Go.Sprintf_d p) = p).
Proof.
  rewrite DbFacts.InsertOrUpdateHostFlows_loop. simpl.
  destruct (DbFacts.tick_loop now st
              [db.Begin; db.Prepare "INSERT INTO nodes";
               db.Prepare "SELECT node_id FROM nodes";
               db.Prepare "INSERT INTO flows"] hfs)
    as ([ext Hext] & Hsent & Hrows).
  split; [|split; [|split; [|split]]].
  - rewrite Hsent. by rewrite <- app_assoc.
  - intros hf Hin. destruct (Hrows hf Hin) as (Hl & Hp & Hrow).
    split; [by apply DbFacts.node_id_row|].
    split; [by apply DbFacts.node_id_row|]. exact Hrow.
  - intros i m Hi. rewrite Hext. by apply lookup_app_l_Some.
  - reflexivity.
  - intros p Hp. unfold db.numeric.
    destruct (String.eqb_spec (Go.Sprintf_d p) "many") as [Hm|_].
    + by apply GoFacts.Sprintf_d_not_many in Hm.
    + by rewrite DecimalFacts.Atoi_Sprintf_d.
Qed.

Lemma upsert_arguments_witness :
  (db.InsertOrUpdateHostFlows 0 Samples.empty_store
     [Samples.flow_python; Samples.flow_nginx]).2
  = [db.Begin; db.Prepare "INSERT INTO nodes";
     db.Prepare "SELECT node_id FROM nodes"; db.Prepare "INSERT INTO flows";
     db.UpsertNode "10.0.10.1" 0 1001 "python";
     db.UpsertNode "10.0.10.2" 5432 0 "";
     db.UpsertFlow probe.FlowActive 1 2 10;
     db.UpsertNode "10.0.10.1" 80 1002 "nginx";
     db.UpsertNode "10.0.10.2" 0 0 "";
     db.UpsertFlow probe.FlowPassive 4 3 12;
     db.Commit]
  /\ db.numeric (Go.Sprintf_d 5432) = 5432.
Proof.
  destruct (upsert_arguments 0 Samples.empty_store
              [Samples.flow_python; Samples.flow_nginx])
    as (Hsent & _ & _ & _ & Hnum).
  split.
  - rewrite Hsent. vm_compute. reflexivity.
  - apply Hnum. split; [done|reflexivity].
Defined.

(* ===================================================================== *)
(** ** Endpoints of any length *)
(* ===================================================================== *)

Module EndpointFacts.
Import Go netutil Spec Kernel.

Lemma Split_hexs bs : forall s w ws,
  Forall is_byte bs -> Split s ":" = w :: ws ->
  Split (hexs bs +:+ s) ":" = (hexs bs +:+ w) :: ws.
Proof.
  induction bs as [|b t IH]; intros s w ws Hbs Hs; [exact Hs|].
  inversion Hbs as [|? ? Hb Ht]; subst.
  change (hexs (b :: t) +:+ s) with (hex2 b +:+ (hexs t +:+ s)).
  change (hexs (b :: t) +:+ w) with (hex2 b +:+ (hexs t +:+ w)).
  apply DecodeFacts.Split_hex2; [exact Hb|]. by apply IH.
Qed.

Lemma DecodeString_hexs bs :
  Forall is_byte bs -> DecodeString (hexs bs +:+ "") = Some bs.
Proof.
  induction 1 as [|b t Hb Ht IH]; [reflexivity|].
  change (hexs (b :: t) +:+ "") with (hex2 b +:+ (hexs t +:+ "")).
  rewrite DecodeFacts.DecodeString_hex2 by exact Hb. by rewrite IH.
Qed.

Lemma Split_endpoint ip p :
  Forall is_byte ip -> 0 <= p <= 65535 ->
  Split (endpoint ip p) ":"
  = [hexs (rev ip) +:+ ""; hex2 (p / 256) +:+ hex2 (p mod 256) +:+ ""].
Proof.
  intros Hip Hp.
  assert (Hh : 0 <= p / 256 < 256).
  { split; [apply Z.div_pos; lia|apply Z.div_lt_upper_bound; lia]. }
  assert (Hl : 0 <= p mod 256 < 256) by (apply Z.mod_pos_bound; lia).
  unfold endpoint. apply Split_hexs; [by apply Forall_rev|].
  change (":" +:+ hex2 (p / 256) +:+ hex2 (p mod 256))
    with (String ":" (hex2 (p / 256) +:+ hex2 (p mod 256))).
  cbn [Split]. change (Ascii.eqb ":" ":") with true. cbv iota.
  f_equal. do 2 (apply DecodeFacts.Split_hex2; [done|]). reflexivity.
Qed.

(** An endpoint decodes to the text of its address and to its port. *)
Lemma decodeAddress_endpoint ip p :
  Forall is_byte ip -> 0 <= p <= 65535 ->
  decodeAddress (endpoint ip p) = Ok {| IP := IP_String ip; Port := p |}.
Proof.
  intros Hip Hp. unfold decodeAddress. rewrite Split_endpoint by done.
  change (hex2 (p / 256) +:+ hex2 (p mod 256) +:+ "")
    with (hex2 (p / 256) +:+ hex2 (p mod 256)).
  rewrite DecodeFacts.ParseInt_port by lia.
  rewrite DecodeString_hexs by (by apply Forall_rev).
  unfold Reverse. rewrite rev_involutive.
  rewrite Z.mod_small by (change (2 ^ 32) with 4294967296; lia).
  reflexivity.
Qed.

Lemma length_Split s sep : length (Split s sep) = S (count_char sep s).
Proof.
  induction s as [|c s IH]; [reflexivity|].
  cbn [Split count_char]. destruct (Ascii.eqb c sep); simpl.
  - by rewrite IH.
  - destruct (Split s sep) as [|w ws]; simpl in *; lia.
Qed.

End EndpointFacts.

(** X1: [decodeAddress] decodes an endpoint of any address length: for
    the bytes of an address in network order and a port in [0, 65535], the
    text the kernel prints (bytes from last to first in hex, colon, port in
    hex) decodes to [net.IP.String] of those bytes and to the port. A 16-byte
    address is reversed whole, like a 4-byte one. *)
Theorem decodeAddress_any_length (ip : list Z) (p : Z) :
  Forall Kernel.is_byte ip -> 0 <= p <= 65535 ->
  netutil.decodeAddress (Kernel.endpoint ip p)
  = Ok {| netutil.IP := Go.IP_String ip; netutil.Port := p |}.
Proof. apply EndpointFacts.decodeAddress_endpoint. Qed.

Lemma decodeAddress_any_length_witness :
  netutil.decodeAddress "01000000000000000000000000000000:0035"
  = Ok {| netutil.IP := "::1"; netutil.Port := 53 |}.
Proof.
  apply (decodeAddress_any_length
           [0; 0; 0; 0; 0; 0; 0; 0; 0; 0; 0; 0; 0; 0; 0; 1] 53);
    [repeat constructor; unfold Kernel.is_byte; lia|lia].
Defined.

(** X2: [decodeAddress] rejects, with the error "does not contain port",
    every text in which the number of colons is not one: a text without
    colon, and a text with two or more. *)
Theorem decodeAddress_colons (src : string) :
  Kernel.count_char ":" src <> 1%nat ->
  netutil.decodeAddress src = Err (ErrorString "does not contain port").
Proof.
  intros Hn. unfold netutil.decodeAddress.
  pose proof (EndpointFacts.length_Split src ":") as Hlen.
  destruct (Go.Split src ":") as [|a [|b [|c t]]]; simpl in Hlen; try done.
  lia.
Qed.

Lemma decodeAddress_colons_witness :
  netutil.decodeAddress "0500000A"
  = Err (ErrorString "does not contain port")
  /\ netutil.decodeAddress "::1:0016"
     = Err (ErrorString "does not contain port").
Proof.
  split; apply decodeAddress_colons; vm_compute; lia.
Defined.

(* ===================================================================== *)
(** ** Files of /proc/net/tcp *)
(* ===================================================================== *)

Module LineFacts.
Import Go netutil Spec Kernel.

Lemma hex_plain k : 0 <= k < 16 -> is_space (hex_upper k) = false.
Proof.
  intros Hk. apply negb_true_iff.
  apply (DecodeFacts.range_forallb hex_digit_plain 16); [vm_compute; reflexivity|lia].
Qed.

Lemma state_parses v : is_byte v -> ParseUint (hex2 v) 16 8 = (v, None).
Proof.
  intros Hv.
  assert (H : state_ok v = true).
  { apply (DecodeFacts.range_forallb state_ok 256); [vm_compute; reflexivity|].
    unfold is_byte in Hv. lia. }
  unfold state_ok in H.
  destruct (ParseUint (hex2 v) 16 8) as [n [e|]]; [done|].
  apply Z.eqb_eq in H. by subst.
Qed.

(** *** Texts without white space *)

Lemma spaceless_app a b : spaceless a -> spaceless b -> spaceless (a +:+ b).
Proof.
  unfold spaceless. induction a as [|c a IH]; intros Ha Hb; [exact Hb|].
  change (String c a +:+ b) with (String c (a +:+ b)).
  cbn [list_ascii_of_string forallb] in *.
  apply andb_true_iff in Ha as [Hc Ha].
  apply andb_true_iff. split; [exact Hc|by apply IH].
Qed.

Lemma spaceless_hex2 v : is_byte v -> spaceless (hex2 v).
Proof.
  intros Hv. destruct (DecodeFacts.nibbles v Hv) as [Hh Hl].
  unfold spaceless, hex2. cbn [list_ascii_of_string forallb].
  by rewrite (hex_plain _ Hh), (hex_plain _ Hl).
Qed.

Lemma spaceless_hexs bs : Forall is_byte bs -> spaceless (hexs bs).
Proof.
  induction 1 as [|b t Hb Ht IH]; [reflexivity|].
  cbn [hexs]. apply spaceless_app; [by apply spaceless_hex2|exact IH].
Qed.

Lemma spaceless_endpoint ip p :
  Forall is_byte ip -> 0 <= p <= 65535 -> spaceless (endpoint ip p).
Proof.
  intros Hip Hp.
  assert (Hh : is_byte (p / 256)).
  { split; [apply Z.div_pos; lia|apply Z.div_lt_upper_bound; lia]. }
  assert (Hl : is_byte (p mod 256)) by (apply Z.mod_pos_bound; lia).
  unfold endpoint.
  apply spaceless_app; [by apply spaceless_hexs, Forall_rev|].
  apply (spaceless_app ":"); [reflexivity|].
  apply spaceless_app; by apply spaceless_hex2.
Qed.

Lemma endpoint_nonempty ip p : endpoint ip p <> "".
Proof.
  unfold endpoint. destruct (hexs (rev ip)); discriminate.
Qed.

(** *** ASCII texts *)

Lemma all_ascii_app a b :
  all_ascii a = true -> all_ascii b = true -> all_ascii (a +:+ b) = true.
Proof.
  unfold all_ascii. induction a as [|c a IH]; intros Ha Hb; [exact Hb|].
  change (String c a +:+ b) with (String c (a +:+ b)).
  cbn [list_ascii_of_string forallb] in *.
  apply andb_true_iff in Ha as [Hc Ha].
  apply andb_true_iff. split; [exact Hc|by apply IH].
Qed.

Lemma all_ascii_hex2 v : is_byte v -> all_ascii (hex2 v) = true.
Proof.
  intros Hv. destruct (DecodeFacts.nibbles v Hv) as [Hh Hl].
  assert (H : forall k, 0 <= k < 16 -> (byte_of (hex_upper k) <? 128) = true).
  { intros k Hk.
    apply (DecodeFacts.range_forallb hex_digit_low 16);
      [vm_compute; reflexivity|lia]. }
  unfold all_ascii, hex2. cbn [list_ascii_of_string forallb].
  by rewrite (H _ Hh), (H _ Hl).
Qed.

Lemma all_ascii_hexs bs : Forall is_byte bs -> all_ascii (hexs bs) = true.
Proof.
  induction 1 as [|b t Hb Ht IH]; [reflexivity|].
  cbn [hexs]. apply all_ascii_app; [by apply all_ascii_hex2|exact IH].
Qed.

Lemma all_ascii_endpoint ip p :
  Forall is_byte ip -> 0 <= p <= 65535 -> all_ascii (endpoint ip p) = true.
Proof.
  intros Hip Hp.
  assert (Hh : is_byte (p / 256)).
  { split; [apply Z.div_pos; lia|apply Z.div_lt_upper_bound; lia]. }
  assert (Hl : is_byte (p mod 256)) by (apply Z.mod_pos_bound; lia).
  unfold endpoint.
  apply all_ascii_app; [by apply all_ascii_hexs, Forall_rev|].
  apply (all_ascii_app ":"); [reflexivity|].
  apply all_ascii_app; by apply all_ascii_hex2.
Qed.

Lemma all_ascii_line k : well_formed k -> all_ascii (line k) = true.
Proof.
  intros (Hl & Hr & Hlp & Hrp & Hst). unfold line.
  apply (all_ascii_app "   0: "); [reflexivity|].
  apply all_ascii_app; [by apply all_ascii_endpoint|].
  apply (all_ascii_app " "); [reflexivity|].
  apply all_ascii_app; [by apply all_ascii_endpoint|].
  apply (all_ascii_app " "); [reflexivity|].
  apply all_ascii_app; [by apply all_ascii_hex2|].
  apply (all_ascii_app " "); reflexivity.
Qed.

(** *** [strings.Fields] *)

Lemma fields_go_word w : forall rest cur,
  spaceless w ->
  fields_go (w +:+ rest) cur
  = fields_go rest (rev (list_ascii_of_string w) ++ cur)%list.
Proof.
  unfold spaceless. induction w as [|c w IH]; intros rest cur Hw; [reflexivity|].
  change (String c w +:+ rest) with (String c (w +:+ rest)).
  cbn [list_ascii_of_string forallb] in *.
  apply andb_true_iff in Hw as [Hc Hw]. apply negb_true_iff in Hc.
  cbn [fields_go]. rewrite Hc, IH by exact Hw.
  cbn [rev]. by rewrite <- app_assoc.
Qed.

(** A word followed by a space is the next field. *)
Lemma fields_go_field w rest :
  spaceless w -> w <> "" ->
  fields_go (w +:+ " " +:+ rest) [] = w :: fields_go rest [].
Proof.
  intros Hw Hne. rewrite fields_go_word by exact Hw. rewrite app_nil_r.
  change (" " +:+ rest) with (String " " rest). cbn [fields_go].
  change (is_space " ") with true. cbv iota.
  destruct (rev (list_ascii_of_string w)) as [|c l] eqn:E.
  - destruct w; [done|]. cbn [list_ascii_of_string rev] in E.
    symmetry in E. by apply app_cons_not_nil in E.
  - rewrite <- E, rev_involutive, string_of_list_ascii_of_string. reflexivity.
Qed.

Lemma Fields_line k :
  well_formed k ->
  Fields (line k)
  = "0:" :: endpoint (lip k) (lport k) :: endpoint (rip k) (rport k)
    :: hex2 (st k) :: Fields rest_of_line.
Proof.
  intros Hk. pose proof Hk as (Hl & Hr & Hlp & Hrp & Hst).
  unfold Fields. rewrite (all_ascii_line k Hk).
  change (all_ascii rest_of_line) with true. cbv iota. unfold line.
  change ("   0: " +:+ ?x)
    with (String " " (String " " (String " " ("0:" +:+ " " +:+ x)))).
  cbn [fields_go]. change (is_space " ") with true. cbv iota.
  cbn [app].
  rewrite (fields_go_field "0:") by done. f_equal.
  rewrite fields_go_field
    by (by apply spaceless_endpoint || apply endpoint_nonempty). f_equal.
  rewrite fields_go_field
    by (by apply spaceless_endpoint || apply endpoint_nonempty). f_equal.
  rewrite fields_go_field by (by apply spaceless_hex2 || done). reflexivity.
Qed.

(** A line the kernel prints for a socket parses to that socket. *)
Lemma parse_line_line k : well_formed k -> parse_line (line k) = Some (stat_of k).
Proof.
  intros Hk. pose proof Hk as (Hl & Hr & Hlp & Hrp & Hst).
  unfold parse_line. rewrite (Fields_line k Hk).
  replace (Fields rest_of_line)
    with ["00000000:00000000"; "00:00000000"; "00000000"; "1000"; "0";
          "12345"; "1"; "ffff8800"; "20"; "4"; "30"; "10"; "-1"]
    by (vm_compute; reflexivity).
  cbn [length nth]. change (Z.of_nat 17 <? 10) with false. cbv iota.
  rewrite (state_parses _ Hst).
  rewrite !EndpointFacts.decodeAddress_endpoint by done.
  reflexivity.
Qed.

(** *** Lines *)

Lemma count_char_app c a b :
  count_char c (a +:+ b) = (count_char c a + count_char c b)%nat.
Proof.
  induction a as [|x a IH]; [reflexivity|].
  change (String x a +:+ b) with (String x (a +:+ b)).
  cbn [count_char]. rewrite IH. lia.
Qed.

Lemma spaceless_free_newline w : spaceless w -> free_of "010" w.
Proof.
  unfold spaceless, free_of. induction w as [|c w IH]; intros Hw; [reflexivity|].
  cbn [list_ascii_of_string forallb count_char] in *.
  apply andb_true_iff in Hw as [Hc Hw]. rewrite (IH Hw).
  destruct (Ascii.eqb_spec c "010") as [->|_]; [discriminate Hc|reflexivity].
Qed.

Lemma line_free_newline k : well_formed k -> free_of "010" (line k).
Proof.
  intros (Hl & Hr & Hlp & Hrp & Hst). unfold free_of, line.
  rewrite !count_char_app.
  rewrite (spaceless_free_newline _ (spaceless_endpoint _ _ Hl Hlp)).
  rewrite (spaceless_free_newline _ (spaceless_endpoint _ _ Hr Hrp)).
  rewrite (spaceless_free_newline _ (spaceless_hex2 _ Hst)).
  reflexivity.
Qed.

(** [Split] cuts at the first separator. *)
Lemma Split_first w sep rest :
  free_of sep w -> Split (w +:+ String sep rest) sep = w :: Split rest sep.
Proof.
  unfold free_of. induction w as [|c w IH]; intros Hw.
  - change ("" +:+ String sep rest) with (String sep rest).
    cbn [Split]. by rewrite Ascii.eqb_refl.
  - change (String c w +:+ String sep rest)
      with (String c (w +:+ String sep rest)).
    cbn [Split count_char] in *.
    destruct (Ascii.eqb c sep); [discriminate Hw|].
    by rewrite IH.
Qed.

Lemma Split_free w sep : free_of sep w -> Split w sep = [w].
Proof.
  unfold free_of. induction w as [|c w IH]; intros Hw; [reflexivity|].
  cbn [Split count_char] in *.
  destruct (Ascii.eqb c sep); [discriminate Hw|]. by rewrite IH.
Qed.

Lemma Split_lines ks :
  Forall well_formed ks ->
  Split (lines ks) "010" = (map line ks ++ [""])%list.
Proof.
  induction 1 as [|k t Hk Ht IH]; [reflexivity|].
  cbn [lines map app]. rewrite Split_first by (by apply line_free_newline).
  by rewrite IH.
Qed.

Lemma omap_lines ks :
  Forall well_formed ks -> omap parse_line (map line ks) = map stat_of ks.
Proof.
  induction 1 as [|k t Hk Ht IH]; [reflexivity|].
  csimpl. rewrite (parse_line_line k Hk). by rewrite IH.
Qed.

Lemma body_lines_header header rest :
  free_of "010" header ->
  body_lines (header +:+ String "010" rest) = Split rest "010".
Proof.
  intros Hh. unfold body_lines. by rewrite Split_first.
Qed.

(** *** Values *)

Lemma digit_val_nonneg c d : digit_val c = Some d -> 0 <= d.
Proof.
  unfold digit_val.
  destruct (Z.leb_spec 48 c); simpl.
  - destruct (c <=? 57); [intros [= <-]; lia|].
    destruct (Z.leb_spec 97 (lower c)); simpl; [|done].
    destruct (lower c <=? 122); [intros [= <-]; lia|done].
  - destruct (Z.leb_spec 97 (lower c)); simpl; [|done].
    destruct (lower c <=? 122); [intros [= <-]; lia|done].
Qed.

(** The digit loop never leaves the range of the result type. *)
Lemma parse_digits_range base0 base maxVal s : forall n,
  0 < base -> 0 <= maxVal -> 0 <= n <= maxVal ->
  0 <= (parse_digits base0 base maxVal s n).1 <= maxVal.
Proof.
  induction s as [|ch s IH]; intros n Hb Hm Hn; [exact Hn|].
  cbn [parse_digits].
  destruct ((byte_of ch =? 95) && base0); [by apply IH|].
  destruct (digit_val (byte_of ch)) as [d|] eqn:Hd; [|simpl; lia].
  apply digit_val_nonneg in Hd.
  destruct (base <=? d); [simpl; lia|].
  destruct (maxUint64 / base + 1 <=? n); [simpl; lia|].
  destruct (Z.ltb_spec maxUint64 (n * base + d)); simpl; [lia|].
  destruct (Z.ltb_spec maxVal (n * base + d)); simpl; [lia|].
  apply IH; [done|done|nia].
Qed.

Lemma ParseUint_state_range s : 0 <= (ParseUint s 16 8).1 <= 255.
Proof.
  unfold ParseUint. destruct s as [|ch0 rest0]; [simpl; lia|].
  change (16 =? 0) with false. cbv iota beta zeta.
  pose proof (parse_digits_range false 16 (2 ^ 8 - 1) (String ch0 rest0) 0
                ltac:(lia) ltac:(simpl; lia) ltac:(simpl; lia)) as H.
  destruct (parse_digits false 16 (2 ^ 8 - 1) (String ch0 rest0) 0) as [n [e|]];
    simpl in H |- *; [lia|].
  destruct (has_underscore _ && _); simpl; lia.
Qed.

Lemma decodeAddress_port_range src a :
  decodeAddress src = Ok a -> 0 <= Port a < 2 ^ 32.
Proof.
  unfold decodeAddress.
  destruct (Split src ":") as [|x [|y [|z t]]]; try done.
  destruct (ParseInt _ 0 64) as [port [e|]]; [done|].
  destruct (DecodeString x); [|done].
  intros [= <-]. simpl. apply Z.mod_pos_bound. lia.
Qed.

Lemma parse_line_range line c :
  parse_line line = Some c ->
  0 <= Status c <= 255 /\ 0 <= Port (Laddr c) < 2 ^ 32
  /\ 0 <= Port (Raddr c) < 2 ^ 32.
Proof.
  unfold parse_line. destruct (_ <? 10); [done|].
  pose proof (ParseUint_state_range (nth 3 (Fields line) "")) as Hs.
  destruct (ParseUint _ 16 8) as [status err]. simpl in Hs.
  destruct (decodeAddress (nth 1 _ _)) as [la| |] eqn:Hla; [|done|done].
  destruct (decodeAddress (nth 2 _ _)) as [ra| |] eqn:Hra; [|done|done].
  intros [= <-]. simpl.
  apply decodeAddress_port_range in Hla, Hra. done.
Qed.

End LineFacts.

(** X3: [ProcfsConnections] reads back a file the kernel printed: for a
    header line and one line per socket (addresses of any length, ports in
    [0, 65535], state a byte), it returns exactly those sockets, in order,
    each with the text of its two addresses, its two ports and its state. *)
Theorem ProcfsConnections_reads_back (header : string) (ks : list Kernel.sock) :
  Kernel.free_of "010" header -> Forall Kernel.well_formed ks ->
  netutil.ProcfsConnections (inr (header +:+ String "010" (Kernel.lines ks)))
  = Ok (map Kernel.stat_of ks).
Proof.
  intros Hh Hks. unfold netutil.ProcfsConnections.
  rewrite LineFacts.body_lines_header by exact Hh.
  rewrite LineFacts.Split_lines by exact Hks.
  rewrite omap_app, LineFacts.omap_lines by exact Hks.
  change (omap netutil.parse_line [""]) with (@nil netutil.ConnectionStat).
  by rewrite app_nil_r.
Qed.

Lemma ProcfsConnections_reads_back_witness :
  netutil.ProcfsConnections
    (inr (Kernel.header +:+ String "010"
            (Kernel.lines [Kernel.listener_any; Kernel.established])))
  = Ok [ {| netutil.Laddr := {| netutil.IP := "0.0.0.0"; netutil.Port := 80 |};
            netutil.Raddr := {| netutil.IP := "0.0.0.0"; netutil.Port := 0 |};
            netutil.Status := 10 |};
         {| netutil.Laddr := {| netutil.IP := "10.0.10.1"; netutil.Port := 54321 |};
            netutil.Raddr := {| netutil.IP := "10.0.10.2"; netutil.Port := 5432 |};
            netutil.Status := 1 |} ].
Proof.
  apply (ProcfsConnections_reads_back Kernel.header
           [Kernel.listener_any; Kernel.established]).
  - reflexivity.
  - repeat constructor; unfold Kernel.is_byte; simpl; lia.
Defined.

(** X4: [ProcfsConnections] never parses the first line of the file: two
    files that differ in their first line only give the same result, and
    a file of one line gives no connection and no error. *)
Theorem ProcfsConnections_skips_first_line (h1 h2 rest : string) :
  Kernel.free_of "010" h1 -> Kernel.free_of "010" h2 ->
  netutil.ProcfsConnections (inr (h1 +:+ String "010" rest))
  = netutil.ProcfsConnections (inr (h2 +:+ String "010" rest))
  /\ netutil.ProcfsConnections (inr h1) = Ok [].
Proof.
  intros H1 H2. unfold netutil.ProcfsConnections. split.
  - by rewrite !LineFacts.body_lines_header.
  - unfold netutil.body_lines. by rewrite LineFacts.Split_free.
Qed.

Lemma ProcfsConnections_skips_first_line_witness :
  netutil.ProcfsConnections
    (inr (Kernel.line Kernel.established +:+ String "010" ""))
  = netutil.ProcfsConnections (inr (Kernel.header +:+ String "010" ""))
  /\ netutil.ProcfsConnections (inr (Kernel.line Kernel.established)) = Ok [].
Proof.
  apply ProcfsConnections_skips_first_line; reflexivity.
Defined.

(** X5: every connection [ProcfsConnections] returns has a state in
    [0, 255] and both ports in [0, 2^32), whatever the file holds: the
    state is what [ParseUint] with bit size 8 returned, error or not, and a
    port is the low 32 bits of the parsed number. *)
Theorem ProcfsConnections_ranges (file : oserror + string)
    (conns : list netutil.ConnectionStat) (c : netutil.ConnectionStat) :
  netutil.ProcfsConnections file = Ok conns -> c ∈ conns ->
  0 <= netutil.Status c <= 255
  /\ 0 <= netutil.Port (netutil.Laddr c) < 2 ^ 32
  /\ 0 <= netutil.Port (netutil.Raddr c) < 2 ^ 32.
Proof.
  unfold netutil.ProcfsConnections. destruct file as [e|body]; [done|].
  intros [= <-] Hc. apply list_elem_of_omap in Hc as (l & _ & Hl).
  by apply LineFacts.parse_line_range in Hl.
Qed.

Lemma ProcfsConnections_ranges_witness :
  0 <= 255 <= 255 /\ 0 <= 22 < 2 ^ 32 /\ 0 <= 4294967295 < 2 ^ 32.
Proof.
  apply (ProcfsConnections_ranges
           (inr (String "010"
              "0: 0500000A:100000016 0500000A:FFFFFFFFFFFF FFF 0 0 0 0 0 0 0"))
           [ {| netutil.Laddr := {| netutil.IP := "10.0.0.5"; netutil.Port := 22 |};
                netutil.Raddr := {| netutil.IP := "10.0.0.5";
                                    netutil.Port := 4294967295 |};
                netutil.Status := 255 |} ]
           {| netutil.Laddr := {| netutil.IP := "10.0.0.5"; netutil.Port := 22 |};
              netutil.Raddr := {| netutil.IP := "10.0.0.5";
                                  netutil.Port := 4294967295 |};
              netutil.Status := 255 |}).
  - vm_compute. reflexivity.
  - repeat constructor.
Defined.

(* ===================================================================== *)
(** ** The two lists of local listening ports *)
(* ===================================================================== *)

Module PortsFacts.
Import Go netutil Spec Kernel.

Lemma ProcfsConnections_lines header ks :
  free_of "010" header -> Forall well_formed ks ->
  ProcfsConnections (inr (header +:+ String "010" (lines ks)))
  = Ok (map stat_of ks).
Proof.
  intros Hh Hks. unfold ProcfsConnections.
  rewrite LineFacts.body_lines_header, LineFacts.Split_lines by done.
  rewrite omap_app, LineFacts.omap_lines by exact Hks.
  change (omap parse_line [""]) with (@nil ConnectionStat).
  by rewrite app_nil_r.
Qed.

Lemma netlink_all_listeners_elem msgs p :
  p ∈ flat_map (fun d => if negb (linux.State d =? linux.TCP_LISTEN) then []
                         else [Sprintf_d (linux.SrcPort d)]) msgs <->
  exists c, c ∈ msgs /\ linux.State c = linux.TCP_LISTEN
            /\ p = Sprintf_d (linux.SrcPort c).
Proof.
  rewrite list_elem_of_In, in_flat_map. split.
  - intros (c & Hc & Hp). exists c. apply list_elem_of_In in Hc.
    destruct (Z.eqb_spec (linux.State c) linux.TCP_LISTEN) as [Hs|Hs];
      simpl in Hp; [|done].
    destruct Hp as [<-|[]]. done.
  - intros (c & Hc & Hs & ->). exists c. split; [by apply list_elem_of_In|].
    rewrite Hs. simpl. by left.
Qed.

End PortsFacts.

(** X6: [NetlinkLocalListeningPorts] returns the local port, printed in
    decimal, of every socket in state LISTEN, whatever address it is bound
    to; so it holds every port the flow builder takes for a listening port,
    which are those bound to 0.0.0.0, 127.0.0.1 or :: only. A failed
    netlink request gives an error in which a [NetlinkError] is found. *)
Theorem NetlinkLocalListeningPorts_all_listeners
    (diag : oserror + list linux.InetDiagMsg) (p : string) :
  (forall e, diag = inl e ->
     exists err, netutil.NetlinkLocalListeningPorts diag = Err err
                 /\ As_NetlinkError err = true)
  /\ (forall msgs, diag = inr msgs ->
        exists ports,
          netutil.NetlinkLocalListeningPorts diag = Ok ports
          /\ (p ∈ ports <->
              exists c, c ∈ msgs /\ linux.State c = linux.TCP_LISTEN
                        /\ p = Go.Sprintf_d (linux.SrcPort c))
          /\ (p ∈ Spec.netlink_ports msgs -> p ∈ ports)).
Proof.
  split.
  - intros e ->. eexists. split; reflexivity.
  - intros msgs ->. eexists. split; [reflexivity|].
    split; [apply PortsFacts.netlink_all_listeners_elem|].
    intros Hp. apply PortsFacts.netlink_all_listeners_elem.
    unfold Spec.netlink_ports in Hp.
    apply list_elem_of_fmap in Hp as (c & -> & Hc).
    apply ListeningFacts.netlink_listening_elem in Hc as (Hc & Hs & _).
    eauto.
Qed.

Lemma NetlinkLocalListeningPorts_all_listeners_witness :
  netutil.NetlinkLocalListeningPorts
    (inr [Samples.listener;
          Samples.diag linux.TCP_LISTEN [10; 0; 10; 1] 8080 [0; 0; 0; 0] 0 8;
          Samples.outgoing])
  = Ok ["80"; "8080"]
  /\ ("8080" ∈ ["80"; "8080"] <->
      exists c, c ∈ [Samples.listener;
                     Samples.diag linux.TCP_LISTEN [10; 0; 10; 1] 8080 [0; 0; 0; 0] 0 8;
                     Samples.outgoing]
                /\ linux.State c = linux.TCP_LISTEN
                /\ "8080" = Go.Sprintf_d (linux.SrcPort c)).
Proof.
  destruct (NetlinkLocalListeningPorts_all_listeners
              (inr [Samples.listener;
                    Samples.diag linux.TCP_LISTEN [10; 0; 10; 1] 8080 [0; 0; 0; 0] 0 8;
                    Samples.outgoing]) "8080") as [_ H].
  destruct (H _ eq_refl) as (ports & Hok & Hiff & _).
  injection Hok as <-. split; [reflexivity|exact Hiff].
Defined.

(** X7: on a file the kernel printed, [LocalListeningPorts] returns
    exactly the local ports, printed in decimal, of the sockets in state
    LISTEN whose local address reads 0.0.0.0, :: or 127.0.0.1; a listener
    bound to another address is left out. When the file cannot be read
    the error of the read is returned as it is. *)
Theorem LocalListeningPorts_of_file (header : string) (ks : list Kernel.sock)
    (p : string) :
  Kernel.free_of "010" header -> Forall Kernel.well_formed ks ->
  (exists ports,
     netutil.LocalListeningPorts
       (inr (header +:+ String "010" (Kernel.lines ks))) = Ok ports
     /\ (p ∈ ports <->
         exists k, k ∈ ks /\ Kernel.st k = linux.TCP_LISTEN
                   /\ Spec.local_bind (Go.IP_String (Kernel.lip k))
                   /\ p = Go.Sprintf_d (Kernel.lport k)))
  /\ (forall e, netutil.LocalListeningPorts (inl e) = Err (OsError e)).
Proof.
  intros Hh Hks. split; [|reflexivity].
  unfold netutil.LocalListeningPorts.
  rewrite PortsFacts.ProcfsConnections_lines by done.
  eexists. split; [reflexivity|].
  rewrite ListeningFacts.procfs_listening_elem. split.
  - intros (c & Hc & Hs & Hb & ->).
    apply list_elem_of_fmap in Hc as (k & -> & Hk). eauto 6.
  - intros (k & Hk & Hs & Hb & ->). exists (Kernel.stat_of k).
    split; [by apply list_elem_of_fmap_2|done].
Qed.

Lemma LocalListeningPorts_of_file_witness :
  exists ports,
    netutil.LocalListeningPorts
      (inr (Kernel.header +:+ String "010"
              (Kernel.lines [Kernel.listener_any; Kernel.listener_one;
                             Kernel.established]))) = Ok ports
    /\ ("8080" ∈ ports <->
        exists k, k ∈ [Kernel.listener_any; Kernel.listener_one;
                       Kernel.established]
                  /\ Kernel.st k = linux.TCP_LISTEN
                  /\ Spec.local_bind (Go.IP_String (Kernel.lip k))
                  /\ "8080" = Go.Sprintf_d (Kernel.lport k)).
Proof.
  apply (LocalListeningPorts_of_file Kernel.header
           [Kernel.listener_any; Kernel.listener_one; Kernel.established]
           "8080").
  - reflexivity.
  - repeat constructor; unfold Kernel.is_byte; simpl; lia.
Defined.

(* ===================================================================== *)
(** ** The walk over /proc *)
(* ===================================================================== *)

Module WalkFacts.
Import Go netutil Walk.

(** A property every step keeps holds at the end of the loop. *)
Lemma for_each_inv {A S} (P : S -> Prop) (body : S -> A -> outcome S) l :
  (forall s a s', a ∈ l -> P s -> body s a = Ok s' -> P s') ->
  forall s s', P s -> for_each body s l = Ok s' -> P s'.
Proof.
  induction l as [|a l IH]; intros Hstep s s' Hs; simpl.
  - by intros [= <-].
  - destruct (body s a) as [s1| |] eqn:Ha; simpl; [|done|done].
    apply IH; [|by apply (Hstep s a); [left|..]].
    intros s2 b s3 Hb. apply Hstep. by right.
Qed.

Lemma omap_shorter {A B} (f : A -> option B) l :
  (length (omap f l) <= length l)%nat.
Proof.
  induction l as [|a l IH]; csimpl; [done|].
  destruct (f a); simpl; lia.
Qed.

Section walk.
Variable X : Extern.
Variable self : Z.
Variable dir : list DirEnt.

Lemma scan_fd_entries d pid fds d2 acc acc' :
  d ∈ dir -> IsDir d = true -> Atoi (Name d) = (pid, None) -> pid <> self ->
  Stat_fd d = inr true -> ReadDir_fd d = inr fds -> d2 ∈ fds ->
  (forall st, acc.1 = Some st -> parseProcStat X (Open_stat d) = Ok st) ->
  entries_ok X self dir acc.2 ->
  scan_fd X pid (Open_stat d) acc d2 = Ok acc' ->
  (forall st, acc'.1 = Some st -> parseProcStat X (Open_stat d) = Ok st)
  /\ entries_ok X self dir acc'.2.
Proof.
  intros Hd HisDir Hpid Hself Hst Hrd Hd2 Hstat Hents.
  destruct acc as [stat s]. simpl in Hstat, Hents. unfold scan_fd.
  destruct (Atoi (fd_Name d2)) as [fd [err|]] eqn:Hfd; [by intros [= <-]|].
  destruct (Readlink d2) as [e0|lnk] eqn:Hrl.
  { destruct (errno_of e0) as [n|]; [|done].
    destruct (n =? ENOENT); [by intros [= <-]|done]. }
  destruct (parseSocketInode X lnk) as [ino| |] eqn:Hino; simpl; [|done|done].
  destruct (Z.eqb_spec ino 0) as [->|Hnz]; [by intros [= <-]|].
  assert (Hnew : forall st, parseProcStat X (Open_stat d) = Ok st ->
            entries_ok X self dir
              {| userEnts := <[ino := {| inode := ino; fd := fd; pid := pid;
                                         pname := Pname st; ppid := Ppid st;
                                         pgrp := Pgrp st |}]> (userEnts s);
                 stat_reads := stat_reads s |}).
  { intros st Hp ino' e. simpl. rewrite lookup_insert.
    destruct (decide (ino = ino')) as [<-|Hne]; [|apply Hents].
    intros [= <-]. split; [done|]. split; [done|]. split; [done|].
    exists d, fds, d2, lnk, st. simpl. done. }
  destruct stat as [st|]; simpl.
  - intros [= <-]. simpl. split; [exact Hstat|].
    intros ino' e He. by apply (Hnew st (Hstat st eq_refl)).
  - destruct (parseProcStat X (Open_stat d)) as [st| |] eqn:Hp; simpl;
      [|done|done].
    intros [= <-]. simpl. split; [by intros st' [= <-]|].
    intros ino' e He. by apply (Hnew st eq_refl).
Qed.

Lemma scan_pid_entries s d s' :
  d ∈ dir -> entries_ok X self dir s -> scan_pid X self s d = Ok s' ->
  entries_ok X self dir s'.
Proof.
  intros Hd Hents. unfold scan_pid.
  destruct (IsDir d) eqn:HisDir; simpl; [|by intros [= <-]].
  destruct (Atoi (Name d)) as [pid [err|]] eqn:Hpid; [by intros [= <-]|].
  destruct (Z.eqb_spec pid self) as [_|Hself]; [by intros [= <-]|].
  destruct (Stat_fd d) as [e0|[|]] eqn:Hst; [done| |by intros [= <-]].
  destruct (ReadDir_fd d) as [e0|fds] eqn:Hrd.
  { destruct (errno_of e0) as [n|]; [|done].
    destruct (n =? EACCES); [by intros [= <-]|done]. }
  destruct (for_each _ _ fds) as [r| |] eqn:Hloop; simpl; [|done|done].
  intros [= <-].
  enough (Hr : (forall st, r.1 = Some st ->
                  parseProcStat X (Open_stat d) = Ok st)
               /\ entries_ok X self dir r.2) by exact (proj2 Hr).
  eapply (for_each_inv
            (fun acc => (forall st, acc.1 = Some st ->
                           parseProcStat X (Open_stat d) = Ok st)
                        /\ entries_ok X self dir acc.2)); [| |exact Hloop].
  - intros acc d2 acc' Hd2 [H1 H2] Hstep.
    by eapply (scan_fd_entries d pid fds d2 acc acc').
  - split; [done|exact Hents].
Qed.

(** What one directory entry adds to the log of stat files read. *)
Lemma scan_fd_reads pid file reads0 acc d2 acc' :
  (acc.1 = None /\ stat_reads acc.2 = reads0
   \/ is_Some acc.1 /\ stat_reads acc.2 = pid :: reads0) ->
  scan_fd X pid file acc d2 = Ok acc' ->
  acc'.1 = None /\ stat_reads acc'.2 = reads0
  \/ is_Some acc'.1 /\ stat_reads acc'.2 = pid :: reads0.
Proof.
  destruct acc as [stat s]. simpl. intros Hacc. unfold scan_fd.
  destruct (Atoi (fd_Name d2)) as [fd [err|]]; [by intros [= <-]|].
  destruct (Readlink d2) as [e0|lnk].
  { destruct (errno_of e0) as [n|]; [|done].
    destruct (n =? ENOENT); [by intros [= <-]|done]. }
  destruct (parseSocketInode X lnk) as [ino| |]; simpl; [|done|done].
  destruct (ino =? 0); [by intros [= <-]|].
  destruct stat as [st|]; simpl.
  - intros [= <-]. simpl. right. destruct Hacc as [[? _]|[_ ?]]; [done|].
    split; [by eexists|done].
  - destruct (parseProcStat X file) as [st| |]; simpl; [|done|done].
    intros [= <-]. simpl. right. destruct Hacc as [[_ ->]|[[? ?] _]]; [|done].
    split; [by eexists|done].
Qed.

Lemma scan_pid_reads s d s' :
  scan_pid X self s d = Ok s' ->
  stat_reads s' = stat_reads s
  \/ exists pid, pid_of d = Some pid /\ stat_reads s' = pid :: stat_reads s.
Proof.
  unfold scan_pid, pid_of.
  destruct (negb (IsDir d)); [intros [= <-]; by left|].
  destruct (Atoi (Name d)) as [pid [err|]]; [intros [= <-]; by left|].
  destruct (pid =? self); [intros [= <-]; by left|].
  destruct (Stat_fd d) as [e0|[|]]; [done| |intros [= <-]; by left].
  destruct (ReadDir_fd d) as [e0|fds].
  { destruct (errno_of e0) as [n|]; [|done].
    destruct (n =? EACCES); [intros [= <-]; by left|done]. }
  destruct (for_each _ _ fds) as [r| |] eqn:Hloop; simpl; [|done|done].
  intros [= <-].
  assert (Hr : r.1 = None /\ stat_reads r.2 = stat_reads s
               \/ is_Some r.1 /\ stat_reads r.2 = pid :: stat_reads s).
  { eapply (for_each_inv
              (fun acc => acc.1 = None /\ stat_reads acc.2 = stat_reads s
                          \/ is_Some acc.1
                             /\ stat_reads acc.2 = pid :: stat_reads s));
      [| |exact Hloop].
    - intros acc d2 acc' _ Hacc Hstep.
      by eapply (scan_fd_reads pid (Open_stat d)).
    - by left. }
  destruct Hr as [[_ H]|[_ H]]; [by left|].
  right. by exists pid.
Qed.

Lemma for_each_reads l : forall s s',
  for_each (scan_pid X self) s l = Ok s' ->
  exists r, stat_reads s' = (r ++ stat_reads s)%list
            /\ sublist (rev r) (omap pid_of l).
Proof.
  induction l as [|d l IH]; intros s s'; simpl.
  - intros [= <-]. exists []. done.
  - destruct (scan_pid X self s d) as [s1| |] eqn:Hd; simpl; [|done|done].
    intros Hl. destruct (IH _ _ Hl) as (r & Hr & Hsub).
    destruct (scan_pid_reads _ _ _ Hd) as [Hsame|(pid & Hpid & Hread)].
    + exists r. rewrite Hr, Hsame. split; [done|].
      destruct (pid_of d); [by apply sublist_cons|done].
    + exists (r ++ [pid])%list. rewrite Hr, Hread, <- app_assoc.
      split; [done|]. rewrite Hpid, rev_app_distr. simpl.
      by apply sublist_skip.
Qed.

End walk.

End WalkFacts.

(** X8: every entry of the map [BuildUserEntries] returns comes from a
    socket link of a PID directory of /proc: it is stored under its own
    inode, which is not 0, the PID is the number the directory name parses
    to and is never the probe's own, the fd is the number the name of the
    link parses to, [parseSocketInode] returned the inode for the target of
    the link, and the process name, parent and group are those
    [parseProcStat] returned for the stat file of that PID. *)
Theorem BuildUserEntries_entries (X : Extern) (dir : list netutil.DirEnt)
    (self : Z) (u : gmap Z netutil.UserEnt) (ino : Z) (e : netutil.UserEnt) :
  netutil.BuildUserEntries X (inr dir) self = Ok u ->
  u !! ino = Some e ->
  Walk.entry_from X self dir ino e.
Proof.
  unfold netutil.BuildUserEntries, netutil.BuildUserEntries_log.
  destruct (netutil.for_each _ _ dir) as [s| |] eqn:Hloop; simpl; [|done|done].
  intros [= <-]. revert ino e.
  change (Walk.entries_ok X self dir s).
  eapply (WalkFacts.for_each_inv (Walk.entries_ok X self dir));
    [| |exact Hloop].
  - intros s0 d s' Hd Hs Hstep.
    by apply (WalkFacts.scan_pid_entries X self dir s0 d s').
  - intros ino e H. simpl in H. by rewrite lookup_empty in H.
Qed.

Lemma BuildUserEntries_entries_witness :
  Walk.entry_from Samples.extern 999 Samples.proc_root 42
    {| netutil.inode := 42; netutil.fd := 3; netutil.pid := 1001;
       netutil.pname := "python"; netutil.ppid := 1; netutil.pgrp := 1001 |}.
Proof.
  eapply (BuildUserEntries_entries Samples.extern Samples.proc_root 999).
  - reflexivity.
  - vm_compute. reflexivity.
Defined.

(** X9: during one walk the stat file of a PID is read at most once per
    directory entry and in the order of the listing: the PIDs whose stat
    file was read, from first to last, are a subsequence of the PIDs the
    entries of /proc name. *)
Theorem BuildUserEntries_reads_once (X : Extern) (dir : list netutil.DirEnt)
    (self : Z) (s : netutil.scan) :
  netutil.BuildUserEntries_log X (inr dir) self = Ok s ->
  sublist (rev (netutil.stat_reads s)) (omap Walk.pid_of dir)
  /\ (length (netutil.stat_reads s) <= length dir)%nat.
Proof.
  unfold netutil.BuildUserEntries_log. intros Hloop.
  destruct (WalkFacts.for_each_reads X self dir _ _ Hloop) as (r & Hr & Hsub).
  simpl in Hr. rewrite app_nil_r in Hr. subst r.
  split; [exact Hsub|].
  apply sublist_length in Hsub. rewrite length_rev in Hsub.
  etransitivity; [exact Hsub|]. apply WalkFacts.omap_shorter.
Qed.

Lemma BuildUserEntries_reads_once_witness :
  sublist [1001; 1002] [999; 1001; 1002; 1003] /\ (2 <= 5)%nat.
Proof.
  apply (BuildUserEntries_reads_once Samples.extern Samples.proc_root 999
           {| netutil.userEnts :=
                <[7 := {| netutil.inode := 7; netutil.fd := 6; netutil.pid := 1002;
                          netutil.pname := "nginx"; netutil.ppid := 1;
                          netutil.pgrp := 1002 |}]>
                (<[42 := {| netutil.inode := 42; netutil.fd := 3;
                            netutil.pid := 1001; netutil.pname := "python";
                            netutil.ppid := 1; netutil.pgrp := 1001 |}]> ∅);
              netutil.stat_reads := [1002; 1001] |}).
  vm_compute. reflexivity.
Defined.

(* ===================================================================== *)
(** ** Processes, filters and errors of the flow builder *)
(* ===================================================================== *)

Module AttributionFacts.
Import Go probe netlink Spec Kernel FlowFacts.

(** Every listener entry of the port map is an entry of the user map. *)
Lemma listening_entries (u : option (gmap Z netutil.UserEnt)) lconns p e :
  (listening u lconns).2 !! p = Some (Some e) ->
  exists u' ino, u = Some u' /\ u' !! ino = Some e.
Proof.
  unfold listening.
  enough (H : forall acc : list string * gmap string (option netutil.UserEnt),
             (forall q e', acc.2 !! q = Some (Some e') ->
                exists u' ino, u = Some u' /\ u' !! ino = Some e') ->
             (fold_left (fun acc lconn =>
                let sport := Sprintf_d (linux.SrcPort lconn) in
                ((acc.1 ++ [sport])%list,
                 match u with
                 | Some u0 => <[sport := u0 !! linux.Inode lconn]> acc.2
                 | None => acc.2
                 end)) lconns acc).2 !! p = Some (Some e) ->
             exists u' ino, u = Some u' /\ u' !! ino = Some e).
  { apply H. intros q e' Hq. simpl in Hq. by rewrite lookup_empty in Hq. }
  induction lconns as [|c t IH]; intros acc Hacc; simpl; [apply Hacc|].
  apply IH. simpl. intros q e'. destruct u as [u0|]; [|apply Hacc].
  rewrite lookup_insert. case_decide; [|apply Hacc].
  intros [= He]. eauto.
Qed.

(** The process of a flow the loop body emits is that of a user entry. *)
Lemma netlink_flow_process X opt u lconns P c hf pr :
  netlink_flow X opt u P (listening u lconns).2 c = Some hf ->
  Process hf = Some pr ->
  exists u' ino e, u = Some u' /\ u' !! ino = Some e /\ pr = process_of e.
Proof.
  unfold netlink_flow.
  destruct (state_dropped _); [done|]. destruct (filtered_out X opt c); [done|].
  set (own := match u with
              | Some u0 => if negb (linux.Inode c =? 0)
                           then u0 !! linux.Inode c else None
              | None => None
              end).
  assert (Hown : forall e, own = Some e ->
            exists u' ino, u = Some u' /\ u' !! ino = Some e).
  { unfold own. intros e. destruct u as [u0|]; [|done].
    destruct (negb _); [|done]. eauto. }
  destruct (contains P _).
  - intros [= <-]. simpl. destruct own as [e|] eqn:Eo.
    + intros [= <-]. destruct (Hown e eq_refl) as (u' & ino & ? & ?).
      by exists u', ino, e.
    + destruct (_ !! _) as [[e|]|] eqn:El; simpl; try done.
      intros [= <-]. apply listening_entries in El as (u' & ino & ? & ?).
      by exists u', ino, e.
  - intros [= <-]. simpl. destruct own as [e|]; [|done].
    intros [= <-]. destruct (Hown e eq_refl) as (u' & ino & ? & ?).
    by exists u', ino, e.
Qed.

(** The netlink builder, with the user map it worked on. *)
Lemma GetHostFlowsByNetlink_parts X w opt flows :
  GetHostFlowsByNetlink X w opt = Ok flows ->
  exists msgs u,
    NetlinkInetDiag w = inr msgs
    /\ (Processes opt = false /\ u = None
        \/ Processes opt = true
           /\ exists u', u = Some u'
                /\ netutil.BuildUserEntries X (ReadDir_root w) (Getpid w) = Ok u')
    /\ flows = (if Numeric opt then id
                else fmap (SetLookupedName (ResolveAddr X)))
                 (insert_all
                    (netlink_flow X opt u
                       (listening u (netutil.NetlinkFilterByLocalListeningPorts msgs)).1
                       (listening u (netutil.NetlinkFilterByLocalListeningPorts msgs)).2)
                    msgs).
Proof.
  unfold GetHostFlowsByNetlink.
  destruct (Processes opt) eqn:Hp.
  - destruct (netutil.BuildUserEntries X _ _) as [u'| |] eqn:Hb; simpl;
      [|done|done].
    destruct (NetlinkInetDiag w) as [e|msgs]; simpl; [done|].
    destruct (listening _ _) as [ports lp] eqn:El. intros [= <-].
    exists msgs, (Some u'). rewrite El. simpl.
    split; [done|]. split; [right; eauto|]. by destruct (Numeric opt).
  - simpl. destruct (NetlinkInetDiag w) as [e|msgs]; simpl; [done|].
    destruct (listening _ _) as [ports lp] eqn:El. intros [= <-].
    exists msgs, None. rewrite El. simpl.
    split; [done|]. split; [by left|]. by destruct (Numeric opt).
Qed.

Lemma filtered_out_other X opt c :
  Filter opt <> FilterPublic -> Filter opt <> FilterPrivate ->
  filtered_out X opt c = false.
Proof.
  intros H1 H2. unfold filtered_out.
  apply String.eqb_neq in H1, H2. rewrite H1, H2.
  destruct (String.eqb (Filter opt) FilterAll); reflexivity.
Qed.

Lemma insert_all_ext {A} (f g : A -> option HostFlow) l :
  (forall a, f a = g a) -> insert_all f l = insert_all g l.
Proof.
  intros H. apply map_eq. intros k. rewrite !insert_all_lookup.
  do 2 f_equal. apply list_omap_ext, Forall2_same_length_lookup.
  split; [done|]. intros i a b Ha Hb. rewrite Ha in Hb. injection Hb as <-.
  apply H.
Qed.

Lemma GetHostFlowsByProcfs_Err w err :
  GetHostFlowsByProcfs w = Err err ->
  exists e, ReadFile_tcp w = inl e /\ err = OsError e.
Proof.
  unfold GetHostFlowsByProcfs, netutil.ProcfsConnections.
  destruct (ReadFile_tcp w) as [e|body]; simpl; [|done].
  intros [= <-]. eauto.
Qed.

End AttributionFacts.

Module ResultFacts.
Import Go probe netlink Spec Kernel FlowFacts.

(** Name resolution keeps the keys and the processes of the flows. *)
Lemma resolved_lookup (numeric : bool) (r : string -> string)
    (m : gmap key HostFlow) (k : key) (hf : HostFlow) :
  (if numeric then id else fmap (M := gmap key) (SetLookupedName r)) m !! k
  = Some hf ->
  exists hf0, m !! k = Some hf0 /\ Process hf = Process hf0.
Proof.
  destruct numeric; simpl; [eauto|].
  rewrite lookup_fmap. destruct (m !! k) as [hf0|]; simpl; [|done].
  intros [= <-]. eauto.
Qed.

Lemma procfs_flow_no_process P c hf :
  procfs_flow P c = Some hf -> Process hf = None.
Proof.
  unfold procfs_flow. destruct (state_dropped _); [done|].
  destruct (contains P _); by intros [= <-].
Qed.

(** The exact condition under which the netlink path succeeds. *)
Lemma GetHostFlowsByNetlink_is_Ok X w opt :
  is_Ok (GetHostFlowsByNetlink X w opt)
  = (negb (Processes opt)
     || is_Ok (netutil.BuildUserEntries X (ReadDir_root w) (Getpid w)))
    && match NetlinkInetDiag w with inl _ => false | inr _ => true end.
Proof.
  unfold GetHostFlowsByNetlink.
  destruct (Processes opt); simpl.
  - destruct (netutil.BuildUserEntries X _ _); simpl; [|done|done].
    destruct (NetlinkInetDiag w); simpl; [done|].
    by destruct (listening _ _).
  - destruct (NetlinkInetDiag w); simpl; [done|].
    by destruct (listening _ _).
Qed.

(** The errors of the netlink path. *)
Lemma GetHostFlowsByNetlink_Err X w opt err :
  GetHostFlowsByNetlink X w opt = Err err ->
  (Processes opt = true
   /\ netutil.BuildUserEntries X (ReadDir_root w) (Getpid w) = Err err)
  \/ (err = Wrapped "NetlinkInetDiag" (NetlinkError "")
      /\ exists e, NetlinkInetDiag w = inl e).
Proof.
  unfold GetHostFlowsByNetlink.
  destruct (Processes opt); simpl.
  - destruct (netutil.BuildUserEntries X _ _); simpl; [| |done].
    + destruct (NetlinkInetDiag w); simpl.
      * intros [= <-]. right. eauto.
      * by destruct (listening _ _).
    + intros [= <-]. by left.
  - destruct (NetlinkInetDiag w); simpl.
    + intros [= <-]. right. eauto.
    + by destruct (listening _ _).
Qed.

Lemma NetlinkFilter_cons c t :
  netutil.NetlinkFilterByLocalListeningPorts (c :: t)
  = (if (linux.State c =? linux.TCP_LISTEN)
        && (String.eqb (IP_String (linux.SrcIP c)) "0.0.0.0"
            || String.eqb (IP_String (linux.SrcIP c)) "127.0.0.1"
            || String.eqb (IP_String (linux.SrcIP c)) "::")
     then c :: netutil.NetlinkFilterByLocalListeningPorts t
     else netutil.NetlinkFilterByLocalListeningPorts t).
Proof.
  unfold netutil.NetlinkFilterByLocalListeningPorts. simpl.
  destruct (linux.State c =? linux.TCP_LISTEN); simpl; [|done].
  by destruct (_ || _ || _).
Qed.

End ResultFacts.

(** X10: a process named in a flow of the netlink path was found by the
    attributor. When [GetHostFlowsByNetlink] returns a flow with a process,
    the option [Processes] was set, [BuildUserEntries] succeeded, and the
    name and the process group of the flow are those of an entry of the map
    it built, under some socket inode. *)
Theorem flow_process_from_attributor (X : Extern) (w : netlink.World)
    (opt : netlink.GetHostFlowsOption)
    (flows : gmap probe.key probe.HostFlow) (k : probe.key)
    (hf : probe.HostFlow) (pr : probe.process) :
  netlink.GetHostFlowsByNetlink X w opt = Ok flows ->
  flows !! k = Some hf ->
  probe.Process hf = Some pr ->
  netlink.Processes opt = true
  /\ exists u ino e,
       netutil.BuildUserEntries X (netlink.ReadDir_root w) (netlink.Getpid w)
       = Ok u
       /\ u !! ino = Some e
       /\ pr = Kernel.process_of e.
Proof.
  intros Hok Hl Hpr.
  apply AttributionFacts.GetHostFlowsByNetlink_parts in Hok
    as (msgs & u & Hd & Hu & ->).
  apply ResultFacts.resolved_lookup in Hl as (hf0 & Hl & Hp).
  apply FlowFacts.insert_all_Some in Hl as (c & hf1 & Hc & Hb & Hk & ->).
  rewrite Hp in Hpr. simpl in Hpr.
  destruct (AttributionFacts.netlink_flow_process _ _ _ _ _ _ _ _ Hb Hpr)
    as (u' & ino & e & Hu' & He & ->).
  destruct Hu as [[_ Hn]|[Hp' (u'' & Hs & Hbu)]]; [congruence|].
  split; [done|]. exists u', ino, e. split; [|done]. congruence.
Qed.

Lemma flow_process_from_attributor_witness :
  exists u ino e,
    netutil.BuildUserEntries Samples.extern (inr Samples.proc_root) 999 = Ok u
    /\ u !! ino = Some e
    /\ {| probe.Name := "nginx"; probe.Pgid := 1002 |} = Kernel.process_of e.
Proof.
  eapply (flow_process_from_attributor Samples.extern Samples.world
            (Samples.opt true true "all") _
            (probe.FlowPassive, ("10.0.10.1", "80"), ("10.0.10.2", "many"))
            {| probe.Direction := probe.FlowPassive;
               probe.Local := {| probe.Addr := "10.0.10.1"; probe.Port := "80" |};
               probe.Peer := {| probe.Addr := "10.0.10.2"; probe.Port := "many" |};
               probe.Process := Some {| probe.Name := "nginx"; probe.Pgid := 1002 |};
               probe.Connections := 1 |}).
  - reflexivity.
  - vm_compute. reflexivity.
  - reflexivity.
Defined.

(** X11: no process without the attributor. Every flow of the procfs path,
    and every flow of the netlink path when the option [Processes] is off,
    has a nil process. *)
Theorem no_process_without_attributor (X : Extern) (w : netlink.World)
    (opt : netlink.GetHostFlowsOption)
    (flows : gmap probe.key probe.HostFlow) (k : probe.key)
    (hf : probe.HostFlow) :
  netlink.GetHostFlowsByProcfs w = Ok flows
  \/ (netlink.Processes opt = false
      /\ netlink.GetHostFlowsByNetlink X w opt = Ok flows) ->
  flows !! k = Some hf ->
  probe.Process hf = None.
Proof.
  intros [Hp|[Hoff Hn]] Hl.
  - apply BuilderFacts.GetHostFlowsByProcfs_Ok in Hp as (conns & _ & ->).
    apply FlowFacts.insert_all_Some in Hl as (c & hf0 & _ & Hb & _ & ->).
    simpl. by apply ResultFacts.procfs_flow_no_process in Hb.
  - apply AttributionFacts.GetHostFlowsByNetlink_parts in Hn
      as (msgs & u & Hd & Hu & ->).
    apply ResultFacts.resolved_lookup in Hl as (hf0 & Hl & ->).
    apply FlowFacts.insert_all_Some in Hl as (c & hf1 & _ & Hb & _ & ->).
    simpl. destruct (probe.Process hf1) as [pr|] eqn:Hpr; [|done].
    destruct (AttributionFacts.netlink_flow_process _ _ _ _ _ _ _ _ Hb Hpr)
      as (u' & _ & _ & Hu' & _).
    destruct Hu as [[_ ->]|[Hon _]]; congruence.
Qed.

Lemma no_process_without_attributor_witness :
  exists flows hf,
    netlink.GetHostFlowsByNetlink Samples.extern Samples.world
      (Samples.opt true false "all") = Ok flows
    /\ flows !! (probe.FlowActive, ("10.0.10.1", "many"), ("10.0.10.2", "5432"))
       = Some hf
    /\ probe.Process hf = None.
Proof.
  eexists. eexists. split; [reflexivity|]. split.
  - vm_compute. reflexivity.
  - eapply (no_process_without_attributor Samples.extern Samples.world
              (Samples.opt true false "all") _
              (probe.FlowActive, ("10.0.10.1", "many"), ("10.0.10.2", "5432"))).
    + right. split; reflexivity.
    + vm_compute. reflexivity.
Defined.

(** X12: the address filter of the netlink path. A filter string other
    than "public" and "private" behaves as "all": [GetHostFlowsByNetlink]
    and [GetHostFlows] return what they return with the filter "all". The
    filters "public" and "private" are complementary: a connection is
    dropped by one exactly when it is kept by the other. *)
Theorem unknown_filter_is_all (X : Extern) (w : netlink.World)
    (opt : netlink.GetHostFlowsOption) :
  netlink.Filter opt <> probe.FilterPublic ->
  netlink.Filter opt <> probe.FilterPrivate ->
  netlink.GetHostFlowsByNetlink X w opt
  = netlink.GetHostFlowsByNetlink X w (Kernel.with_Filter opt probe.FilterAll)
  /\ netlink.GetHostFlows X w opt
     = netlink.GetHostFlows X w (Kernel.with_Filter opt probe.FilterAll)
  /\ forall c,
       netlink.filtered_out X (Kernel.with_Filter opt probe.FilterPublic) c
       = negb (netlink.filtered_out X
                 (Kernel.with_Filter opt probe.FilterPrivate) c).
Proof.
  intros H1 H2.
  assert (Hn : netlink.GetHostFlowsByNetlink X w opt
               = netlink.GetHostFlowsByNetlink X w
                   (Kernel.with_Filter opt probe.FilterAll)).
  { assert (Hflow : forall u P lp c,
              netlink.netlink_flow X opt u P lp c
              = netlink.netlink_flow X (Kernel.with_Filter opt probe.FilterAll)
                  u P lp c).
    { intros u P lp c. unfold netlink.netlink_flow.
      rewrite AttributionFacts.filtered_out_other by done.
      reflexivity. }
    unfold netlink.GetHostFlowsByNetlink.
    change (netlink.Processes (Kernel.with_Filter opt probe.FilterAll))
      with (netlink.Processes opt).
    change (netlink.Numeric (Kernel.with_Filter opt probe.FilterAll))
      with (netlink.Numeric opt).
    destruct (if netlink.Processes opt then _ else _) as [u| |]; simpl;
      [|done|done].
    destruct (netutil.NetlinkConnections _) as [msgs| |]; simpl; [|done|done].
    destruct (netlink.listening _ _) as [ports lp].
    by rewrite (AttributionFacts.insert_all_ext _ _ msgs (Hflow u ports lp)). }
  split; [exact Hn|]. split.
  - unfold netlink.GetHostFlows. by rewrite Hn.
  - intros c. unfold netlink.filtered_out. simpl.
    by rewrite negb_involutive.
Qed.

Lemma unknown_filter_is_all_witness :
  netlink.GetHostFlowsByNetlink Samples.extern Samples.world
    (Samples.opt true true "pubic")
  = netlink.GetHostFlowsByNetlink Samples.extern Samples.world
      (Samples.opt true true "all")
  /\ netlink.GetHostFlows Samples.extern Samples.world
       (Samples.opt true true "pubic")
     = netlink.GetHostFlows Samples.extern Samples.world
         (Samples.opt true true "all").
Proof.
  destruct (unknown_filter_is_all Samples.extern Samples.world
              (Samples.opt true true "pubic")) as (Ha & Hb & _).
  - discriminate.
  - discriminate.
  - split; [exact Ha|exact Hb].
Defined.

(** X13: the errors [GetHostFlows] returns. [xerrors.As] finds no
    [NetlinkError] in an error of [GetHostFlows]: the error is either an
    error of [BuildUserEntries], returned as the netlink path returned it
    with the option [Processes] set, or the error of reading /proc/net/tcp
    after the netlink request failed. *)
Theorem GetHostFlows_errors (X : Extern) (w : netlink.World)
    (opt : netlink.GetHostFlowsOption) (err : error) :
  netlink.GetHostFlows X w opt = Err err ->
  As_NetlinkError err = false
  /\ ((netlink.Processes opt = true
       /\ netutil.BuildUserEntries X (netlink.ReadDir_root w) (netlink.Getpid w)
          = Err err)
      \/ (exists e1 e2, netlink.NetlinkInetDiag w = inl e1
            /\ netlink.ReadFile_tcp w = inl e2
            /\ err = OsError e2)).
Proof.
  unfold netlink.GetHostFlows.
  destruct (netlink.GetHostFlowsByNetlink X w opt) as [f|e|] eqn:Hn; [done| |done].
  apply ResultFacts.GetHostFlowsByNetlink_Err in Hn
    as [[Hp Hb]|[-> [e1 Hd]]].
  - rewrite (AttributorFacts.BuildUserEntries_Err X _ _ _ Hb).
    intros [= <-]. split; [by apply AttributorFacts.BuildUserEntries_Err in Hb|].
    by left.
  - simpl. intros He.
    apply AttributionFacts.GetHostFlowsByProcfs_Err in He as (e2 & Hf & ->).
    split; [done|]. right. eauto.
Qed.

Lemma GetHostFlows_errors_witness :
  As_NetlinkError (OsError (PathError "open" "/proc/net/tcp" (Errno ENOENT)))
  = false
  /\ ((true = true
       /\ netutil.BuildUserEntries Samples.extern (inr Samples.proc_root) 999
          = Err (OsError (PathError "open" "/proc/net/tcp" (Errno ENOENT))))
      \/ (exists e1 e2, @inl oserror (list linux.InetDiagMsg) (Errno 1) = inl e1
            /\ @inl oserror string
                 (PathError "open" "/proc/net/tcp" (Errno ENOENT)) = inl e2
            /\ OsError (PathError "open" "/proc/net/tcp" (Errno ENOENT))
               = OsError e2)).
Proof.
  apply (GetHostFlows_errors Samples.extern
           {| netlink.ReadDir_root := inr Samples.proc_root;
              netlink.Getpid := 999;
              netlink.NetlinkInetDiag := inl (Errno 1);
              netlink.ReadFile_tcp :=
                inl (PathError "open" "/proc/net/tcp" (Errno ENOENT)) |}
           (Samples.opt true true "all")).
  vm_compute. reflexivity.
Defined.

(** X14: when [GetHostFlows] succeeds. It returns flows exactly when the
    attributor does not fail (the option [Processes] is off, or
    [BuildUserEntries] succeeds) and the netlink request succeeds or
    /proc/net/tcp can be read; whatever that file holds, the procfs path
    does not fail on it. *)
Theorem GetHostFlows_succeeds_iff (X : Extern) (w : netlink.World)
    (opt : netlink.GetHostFlowsOption) :
  is_Ok (netlink.GetHostFlows X w opt) = true
  <-> (netlink.Processes opt = false
       \/ is_Ok (netutil.BuildUserEntries X (netlink.ReadDir_root w)
                   (netlink.Getpid w)) = true)
      /\ ((exists msgs, netlink.NetlinkInetDiag w = inr msgs)
          \/ (exists body, netlink.ReadFile_tcp w = inr body)).
Proof.
  unfold netlink.GetHostFlows.
  pose proof (ResultFacts.GetHostFlowsByNetlink_is_Ok X w opt) as Hok.
  destruct (netlink.GetHostFlowsByNetlink X w opt) as [f|e|] eqn:Hn;
    simpl in Hok.
  - symmetry in Hok. apply andb_true_iff in Hok as [Ha Hd].
    split; [intros _|done]. split.
    + apply orb_true_iff in Ha as [Ha|Ha]; [left|by right].
      by destruct (netlink.Processes opt).
    + left. destruct (netlink.NetlinkInetDiag w) as [|msgs]; [done|eauto].
  - destruct (ResultFacts.GetHostFlowsByNetlink_Err _ _ _ _ Hn)
      as [[Hp Hb]|[-> [e1 Hd]]].
    + rewrite (AttributorFacts.BuildUserEntries_Err X _ _ _ Hb). simpl.
      split; [done|]. intros [[Hoff|Hbu] _]; [congruence|].
      by rewrite Hb in Hbu.
    + simpl. rewrite Hd in Hok. rewrite andb_false_r in Hok. clear Hok.
      unfold netlink.GetHostFlowsByProcfs, netutil.ProcfsConnections.
      assert (Hatt : netlink.Processes opt = false
                     \/ is_Ok (netutil.BuildUserEntries X
                                 (netlink.ReadDir_root w) (netlink.Getpid w))
                        = true).
      { revert Hn. unfold netlink.GetHostFlowsByNetlink.
        destruct (netlink.Processes opt); [|by left].
        destruct (netutil.BuildUserEntries X _ _) eqn:Hb; simpl;
          [by right| |done].
        intros [= ->]. by apply AttributorFacts.BuildUserEntries_Err in Hb. }
      destruct (netlink.ReadFile_tcp w) as [e2|body]; simpl.
      * split; [done|]. intros [_ [[msgs Hm]|[body Hb]]]; congruence.
      * split; [intros _|done]. split; [exact Hatt|]. right. eauto.
  - simpl. split; [done|]. intros [Hatt _]. exfalso.
    revert Hn. unfold netlink.GetHostFlowsByNetlink.
    destruct (netlink.Processes opt).
    + destruct Hatt as [?|Hbu]; [done|].
      destruct (netutil.BuildUserEntries X _ _); simpl; [|done|done].
      destruct (netlink.NetlinkInetDiag w); simpl; [done|].
      by destruct (netlink.listening _ _).
    + simpl. destruct (netlink.NetlinkInetDiag w); simpl; [done|].
      by destruct (netlink.listening _ _).
Qed.

(* ===================================================================== *)
(** ** What the walk of /proc does not miss *)
(* ===================================================================== *)

Module CoverFacts.
Import Go netutil Walk.

(** A step that is reached establishes what every later step keeps. *)
Lemma for_each_reaches {A S} (P : S -> Prop) (body : S -> A -> outcome S)
    l a s s' :
  a ∈ l ->
  (forall s0 b s1, P s0 -> body s0 b = Ok s1 -> P s1) ->
  (forall s0 s1, body s0 a = Ok s1 -> P s1) ->
  for_each body s l = Ok s' -> P s'.
Proof.
  intros Ha Hkeep Hadd.
  apply list_elem_of_split in Ha as (l1 & l2 & ->).
  rewrite AttributorFacts.for_each_app.
  destruct (for_each body s l1) as [s1| |]; simpl; [|done|done].
  destruct (body s1 a) as [s2| |] eqn:Hstep; simpl; [|done|done].
  apply (WalkFacts.for_each_inv P body l2); [|by apply (Hadd s1)].
  intros s0 b s3 _. apply Hkeep.
Qed.

Section cover.
Variable X : Extern.
Variable self : Z.

Lemma scan_fd_keeps pid file ino acc d2 acc' :
  has ino acc.2 -> scan_fd X pid file acc d2 = Ok acc' -> has ino acc'.2.
Proof.
  destruct acc as [stat s]. simpl. intros Hs. unfold scan_fd.
  destruct (Atoi (fd_Name d2)) as [fd [err|]]; [by intros [= <-]|].
  destruct (Readlink d2) as [e0|lnk].
  { destruct (errno_of e0) as [n|]; [|done].
    destruct (n =? ENOENT); [by intros [= <-]|done]. }
  destruct (parseSocketInode X lnk) as [ino'| |]; simpl; [|done|done].
  destruct (ino' =? 0); [by intros [= <-]|].
  destruct (match stat with Some _ => _ | None => _ end) as [[st reads]| |];
    simpl; [|done|done].
  intros [= <-]. unfold has. simpl. rewrite lookup_insert.
  by case_decide.
Qed.

Lemma scan_fd_adds pid file ino acc d2 acc' fd lnk :
  Atoi (fd_Name d2) = (fd, None) -> Readlink d2 = inr lnk ->
  parseSocketInode X lnk = Ok ino -> ino <> 0 ->
  scan_fd X pid file acc d2 = Ok acc' -> has ino acc'.2.
Proof.
  destruct acc as [stat s]. intros Hfd Hrl Hino Hnz. unfold scan_fd.
  rewrite Hfd, Hrl, Hino. simpl.
  destruct (Z.eqb_spec ino 0); [done|].
  destruct (match stat with Some _ => _ | None => _ end) as [[st reads]| |];
    simpl; [|done|done].
  intros [= <-]. unfold has. simpl. rewrite lookup_insert.
  by rewrite decide_True.
Qed.

Lemma scan_pid_keeps ino s d s' :
  has ino s -> scan_pid X self s d = Ok s' -> has ino s'.
Proof.
  intros Hs. unfold scan_pid.
  destruct (negb (IsDir d)); [by intros [= <-]|].
  destruct (Atoi (Name d)) as [pid [err|]]; [by intros [= <-]|].
  destruct (pid =? self); [by intros [= <-]|].
  destruct (Stat_fd d) as [e0|[|]]; [done| |by intros [= <-]].
  destruct (ReadDir_fd d) as [e0|fds].
  { destruct (errno_of e0) as [n|]; [|done].
    destruct (n =? EACCES); [by intros [= <-]|done]. }
  destruct (for_each _ _ fds) as [r| |] eqn:Hloop; simpl; [|done|done].
  intros [= <-].
  eapply (WalkFacts.for_each_inv (fun acc => has ino acc.2));
    [| |exact Hloop]; [|exact Hs].
  intros acc d2 acc' _. apply scan_fd_keeps.
Qed.

Lemma scan_pid_adds ino s d s' pid fds d2 fd lnk :
  IsDir d = true -> Atoi (Name d) = (pid, None) -> pid <> self ->
  Stat_fd d = inr true -> ReadDir_fd d = inr fds -> d2 ∈ fds ->
  Atoi (fd_Name d2) = (fd, None) -> Readlink d2 = inr lnk ->
  parseSocketInode X lnk = Ok ino -> ino <> 0 ->
  scan_pid X self s d = Ok s' -> has ino s'.
Proof.
  intros HisDir Hpid Hself Hst Hrd Hd2 Hfd Hrl Hino Hnz. unfold scan_pid.
  rewrite HisDir, Hpid, Hst, Hrd. simpl.
  destruct (Z.eqb_spec pid self); [done|].
  destruct (for_each _ _ fds) as [r| |] eqn:Hloop; simpl; [|done|done].
  intros [= <-].
  eapply (for_each_reaches (fun acc => has ino acc.2)); [exact Hd2| | |exact Hloop].
  - intros acc b acc'. apply scan_fd_keeps.
  - intros acc acc'. by apply (scan_fd_adds _ _ _ _ _ _ fd lnk).
Qed.

End cover.

End CoverFacts.

(** X15: the walk misses no socket. When [BuildUserEntries] succeeds, the
    map has an entry under the inode of every socket link it met: for every
    directory of /proc named by a PID other than the probe's own, whose fd
    directory could be listed, and every entry of that listing with a
    numeric name whose link [parseSocketInode] reads as a non-zero inode. *)
Theorem BuildUserEntries_complete (X : Extern) (dir : list netutil.DirEnt)
    (self : Z) (u : gmap Z netutil.UserEnt) (d : netutil.DirEnt) (pid : Z)
    (fds : list netutil.FdEnt) (d2 : netutil.FdEnt) (fd : Z) (lnk : string)
    (ino : Z) :
  netutil.BuildUserEntries X (inr dir) self = Ok u ->
  d ∈ dir -> netutil.IsDir d = true -> Go.Atoi (netutil.Name d) = (pid, None) ->
  pid <> self ->
  netutil.Stat_fd d = inr true -> netutil.ReadDir_fd d = inr fds ->
  d2 ∈ fds -> Go.Atoi (netutil.fd_Name d2) = (fd, None) ->
  netutil.Readlink d2 = inr lnk ->
  netutil.parseSocketInode X lnk = Ok ino -> ino <> 0 ->
  exists e, u !! ino = Some e /\ netutil.inode e = ino.
Proof.
  intros Hok Hd HisDir Hpid Hself Hst Hrd Hd2 Hfd Hrl Hino Hnz.
  assert (Hhas : is_Some (u !! ino)).
  { revert Hok. unfold netutil.BuildUserEntries, netutil.BuildUserEntries_log.
    destruct (netutil.for_each _ _ dir) as [s| |] eqn:Hloop; simpl;
      [|done|done].
    intros [= <-]. change (Walk.has ino s).
    eapply (CoverFacts.for_each_reaches (Walk.has ino));
      [exact Hd| | |exact Hloop].
    - intros s0 b s1. apply CoverFacts.scan_pid_keeps.
    - intros s0 s1.
      by apply (CoverFacts.scan_pid_adds X self ino s0 d s1 pid fds d2 fd lnk). }
  destruct Hhas as [e He]. exists e. split; [done|].
  assert (Hent : Walk.entries_ok X self dir
                   {| netutil.userEnts := u; netutil.stat_reads := [] |}).
  { revert Hok. unfold netutil.BuildUserEntries, netutil.BuildUserEntries_log.
    destruct (netutil.for_each _ _ dir) as [s| |] eqn:Hloop; simpl;
      [|done|done].
    intros [= <-].
    enough (Hs : Walk.entries_ok X self dir s) by exact Hs.
    eapply (WalkFacts.for_each_inv (Walk.entries_ok X self dir));
      [| |exact Hloop].
    - intros s0 d0 s' Hd0 Hs Hstep.
      by apply (WalkFacts.scan_pid_entries X self dir s0 d0 s').
    - intros ino0 e0 H. simpl in H. by rewrite lookup_empty in H. }
  by destruct (Hent ino e He) as [Hi _].
Qed.

Lemma BuildUserEntries_complete_witness :
  exists u,
    netutil.BuildUserEntries Samples.extern (inr Samples.proc_root) 999 = Ok u
    /\ exists e, u !! 7 = Some e /\ netutil.inode e = 7.
Proof.
  eexists. split; [reflexivity|].
  eapply (BuildUserEntries_complete Samples.extern Samples.proc_root 999 _
            (Samples.pident "1002"
               [Samples.fdent "6" "socket:[7]"; Samples.fdent "7" "pipe:[5]"]
               "1002 (nginx) S 1 1002 1002 0")
            1002 _ (Samples.fdent "6" "socket:[7]") 6 "socket:[7]" 7).
  - reflexivity.
  - unfold Samples.proc_root. repeat constructor.
  - reflexivity.
  - vm_compute. reflexivity.
  - discriminate.
  - reflexivity.
  - reflexivity.
  - repeat constructor.
  - vm_compute. reflexivity.
  - reflexivity.
  - vm_compute. reflexivity.
  - discriminate.
Defined.

(* ===================================================================== *)
(** ** The helpers of the port tests *)
(* ===================================================================== *)

(** X16: [contains] decides membership: it returns true exactly when the
    string is an element of the slice, and a slice that holds the string
    keeps holding it when it is extended at either end. *)
Theorem contains_membership (strs more : list string) (s : string) :
  (netlink.contains strs s = true <-> s ∈ strs)
  /\ (netlink.contains strs s = true ->
      netlink.contains (more ++ strs) s = true
      /\ netlink.contains (strs ++ more) s = true)
  /\ (netlink.contains strs s = false -> forall t, t ∈ strs -> t <> s).
Proof.
  split; [apply FlowFacts.contains_elem|]. split.
  - rewrite !FlowFacts.contains_elem, !elem_of_app. auto.
  - intros Hf t Ht ->. apply FlowFacts.contains_elem in Ht. congruence.
Qed.

(** X17: the two filters of listening sockets. On the same connections
    [FilterByLocalListeningPorts] returns the local ports, in decimal and in
    order, of the connections [NetlinkFilterByLocalListeningPorts] returns;
    the latter returns a subsequence of its argument, goes through a
    concatenation, and applying it twice gives what applying it once
    gives. *)
Theorem listening_filters_agree (msgs more : list linux.InetDiagMsg) :
  netutil.FilterByLocalListeningPorts (map Spec.stat_of_diag msgs)
  = map (fun c => Go.Sprintf_d (linux.SrcPort c))
        (netutil.NetlinkFilterByLocalListeningPorts msgs)
  /\ sublist (netutil.NetlinkFilterByLocalListeningPorts msgs) msgs
  /\ netutil.NetlinkFilterByLocalListeningPorts (msgs ++ more)
     = (netutil.NetlinkFilterByLocalListeningPorts msgs
        ++ netutil.NetlinkFilterByLocalListeningPorts more)%list
  /\ netutil.NetlinkFilterByLocalListeningPorts
       (netutil.NetlinkFilterByLocalListeningPorts msgs)
     = netutil.NetlinkFilterByLocalListeningPorts msgs.
Proof.
  split; [apply EquivalenceFacts.procfs_ports_of_diag|]. split; [|split].
  - induction msgs as [|c t IH]; [constructor|].
    rewrite ResultFacts.NetlinkFilter_cons.
    destruct (_ && _); [by apply sublist_skip|by apply sublist_cons].
  - unfold netutil.NetlinkFilterByLocalListeningPorts. apply flat_map_app.
  - induction msgs as [|c t IH]; [done|].
    rewrite ResultFacts.NetlinkFilter_cons.
    destruct (_ && _) eqn:Hk; [|exact IH].
    rewrite ResultFacts.NetlinkFilter_cons, Hk. by rewrite IH.
Qed.

(* ===================================================================== *)
(** ** Process names *)
(* ===================================================================== *)

Module NameFacts.
Import Go netutil Walk.

Lemma drop_leading_head cut l c t :
  drop_leading cut l = c :: t -> c <> cut.
Proof.
  induction l as [|x l IH]; simpl; [done|].
  destruct (Ascii.eqb_spec x cut) as [->|Hne]; [exact IH|].
  by intros [= <- _].
Qed.

Lemma TrimRight_trimmed s cut : ends_with cut (TrimRight s cut) = false.
Proof.
  unfold ends_with, TrimRight.
  rewrite list_ascii_of_string_of_list_ascii, rev_involutive.
  destruct (drop_leading cut _) as [|c t] eqn:E; [done|].
  apply drop_leading_head in E. by apply Ascii.eqb_neq.
Qed.

Lemma parseProcStat_trimmed X file st :
  parseProcStat X file = Ok st -> ends_with ")" (Pname st) = false.
Proof.
  unfold parseProcStat. destruct file as [e0|text]; [done|].
  destruct (Fscan_stat X text) as [e0|[[comm pp] pg]]; [done|].
  destruct (Sscanf_comm X comm) as [pn [err|]].
  - destruct (bool_decide _); [|done].
    intros [= <-]. apply TrimRight_trimmed.
  - intros [= <-]. apply TrimRight_trimmed.
Qed.

End NameFacts.

(** X18: process names carry no closing parenthesis. Whatever the scanners
    leave in [pname], [parseProcStat] returns a name whose last byte is not
    ")" (the name may be empty), and so does every entry of the map
    [BuildUserEntries] returns. *)
Theorem process_names_trimmed (X : Extern) (dir : list netutil.DirEnt)
    (self : Z) (u : gmap Z netutil.UserEnt) (ino : Z) (e : netutil.UserEnt) :
  netutil.BuildUserEntries X (inr dir) self = Ok u ->
  u !! ino = Some e ->
  Walk.ends_with ")" (netutil.pname e) = false
  /\ forall file st, netutil.parseProcStat X file = Ok st ->
       Walk.ends_with ")" (netutil.Pname st) = false.
Proof.
  intros Hok He. split; [|apply NameFacts.parseProcStat_trimmed].
  assert (Hent : Walk.entries_ok X self dir
                   {| netutil.userEnts := u; netutil.stat_reads := [] |}).
  { revert Hok. unfold netutil.BuildUserEntries, netutil.BuildUserEntries_log.
    destruct (netutil.for_each _ _ dir) as [s| |] eqn:Hloop; simpl;
      [|done|done].
    intros [= <-].
    enough (Hs : Walk.entries_ok X self dir s) by exact Hs.
    eapply (WalkFacts.for_each_inv (Walk.entries_ok X self dir));
      [| |exact Hloop].
    - intros s0 d0 s' Hd0 Hs Hstep.
      by apply (WalkFacts.scan_pid_entries X self dir s0 d0 s').
    - intros ino0 e0 H. simpl in H. by rewrite lookup_empty in H. }
  destruct (Hent ino e He)
    as (_ & _ & _ & d & fds & d2 & lnk & st & H).
  destruct H as (_ & _ & _ & _ & _ & _ & _ & _ & _ & Hst & -> & _).
  by apply NameFacts.parseProcStat_trimmed in Hst.
Qed.

Lemma process_names_trimmed_witness :
  exists u e,
    netutil.BuildUserEntries Samples.extern (inr Samples.proc_root) 999 = Ok u
    /\ u !! 42 = Some e
    /\ Walk.ends_with ")" (netutil.pname e) = false.
Proof.
  eexists. eexists. split; [reflexivity|]. split.
  - vm_compute. reflexivity.
  - eapply (process_names_trimmed Samples.extern Samples.proc_root 999 _ 42).
    + reflexivity.
    + vm_compute. reflexivity.
Defined.
